(** * EU Clinical Trials Scraper: a shallow embedding of [src/app/utils.py]
      and [src/main.py], with the properties of the specification stated
      over it.

    Layout:
    - [Py]     the fragment of Python's data and dynamic semantics the two
               files rely on: JSON-shaped values, exceptions, subscripting,
               truthiness, [str] methods and [json.dumps];
    - [Utils]  [extract_text_and_tables_from_pdf], [get_json_data_in_pandas]
               and [write_csv_to_s3];
    - [Main]   [validate_dates], [scrape_by_date_range] and the day loop of
               [main];
    - the vocabulary of the properties and the sample inputs;
    - the properties: the extractor, the loop body of the normalizer as a
      function of the trial, the normalizer, the upload, the day loop. *)

From Stdlib Require Import ZArith List String Ascii Bool Lia DecimalString FinFun.
From Equations Require Import Equations.
Import ListNotations.

Set Warnings "-register-all".

Local Open Scope list_scope.
Local Open Scope string_scope.

(* ===================================================================== *)
(** * Python values and operations                                        *)
(* ===================================================================== *)

Module Py.

(** The objects the normalizer receives are what [json] decoding (or the
    scraper) builds out of dicts, lists, strings, integers, booleans and
    [None].  A dict keeps its keys in insertion order, which is the order
    [items()] and [json.dumps] follow, so it is an association list; its keys
    are pairwise distinct.  Strings are sequences of characters with code
    points below 256.  Floating-point numbers are left out. *)
Inductive json : Type :=
| JNull
| JBool (b : bool)
| JInt (z : Z)
| JStr (s : string)
| JList (l : list json)
| JDict (d : list (string * json)).

(** Exceptions are identified by their class and their argument
    ([KeyError('url')], [KeyError(0)], ...); an exception without a relevant
    argument carries [JNull]. *)
Inductive exception : Type :=
| Exc (cls : string) (arg : json).

Definition exc_class (e : exception) : string :=
  match e with Exc c _ => c end.

Definition KeyError (k : json) : exception := Exc "KeyError" k.
Definition IndexError : exception := Exc "IndexError" JNull.
Definition TypeError : exception := Exc "TypeError" JNull.
Definition AttributeError (attr : string) : exception :=
  Exc "AttributeError" (JStr attr).
Definition OverflowError : exception := Exc "OverflowError" JNull.

(** A computation either returns a value or raises. *)
Inductive result (A : Type) : Type :=
| Ok (a : A)
| Raise (e : exception).
Arguments Ok {A} a.
Arguments Raise {A} e.

Definition bind {A B : Type} (m : result A) (k : A -> result B) : result B :=
  match m with
  | Ok a => k a
  | Raise e => Raise e
  end.

Declare Scope py_scope.
Delimit Scope py_scope with py.
Notation "x <- m ;; k" := (bind m (fun x => k))
  (at level 100, m at next level, right associativity) : py_scope.
Open Scope py_scope.

Definition is_ok {A : Type} (m : result A) : bool :=
  match m with Ok _ => true | Raise _ => false end.

(** ** Truthiness, [len], iteration *)

(** [bool(x)], as used by [not x] and [if x]. *)
Definition truthy (j : json) : bool :=
  match j with
  | JNull => false
  | JBool b => b
  | JInt z => negb (Z.eqb z 0)
  | JStr s => negb (String.eqb s EmptyString)
  | JList l => match l with [] => false | _ => true end
  | JDict d => match d with [] => false | _ => true end
  end.

(** [len(x)]: defined on strings, lists and dicts only. *)
Definition len (j : json) : result nat :=
  match j with
  | JStr s => Ok (String.length s)
  | JList l => Ok (List.length l)
  | JDict d => Ok (List.length d)
  | _ => Raise TypeError
  end.

Definition chars (s : string) : list json :=
  map (fun c => JStr (String c EmptyString)) (list_ascii_of_string s).

(** The items a [for] loop over [x] visits: the elements of a list, the
    keys of a dict, the characters of a string. *)
Definition iter (j : json) : result (list json) :=
  match j with
  | JList l => Ok l
  | JDict d => Ok (map (fun kv => JStr (fst kv)) d)
  | JStr s => Ok (chars s)
  | _ => Raise TypeError
  end.

(** ** Dicts *)

Fixpoint assoc (k : string) (d : list (string * json)) : option json :=
  match d with
  | [] => None
  | (k', v) :: d' => if String.eqb k k' then Some v else assoc k d'
  end.

(** [d[k] = v] on a dict: an existing key keeps its position, a new key goes
    last. *)
Fixpoint assoc_set (k : string) (v : json) (d : list (string * json))
  : list (string * json) :=
  match d with
  | [] => [(k, v)]
  | (k', v') :: d' =>
      if String.eqb k k' then (k', v) :: d' else (k', v') :: assoc_set k v d'
  end.

(** [o[k]] for a string [k]. *)
Definition getitem (o : json) (k : string) : result json :=
  match o with
  | JDict d => match assoc k d with
               | Some v => Ok v
               | None => Raise (KeyError (JStr k))
               end
  | _ => Raise TypeError
  end.

(** [o[0]]. *)
Definition getitem0 (o : json) : result json :=
  match o with
  | JList l => match l with
               | x :: _ => Ok x
               | [] => Raise IndexError
               end
  | JStr s => match s with
              | String c _ => Ok (JStr (String c EmptyString))
              | EmptyString => Raise IndexError
              end
  | JDict _ => Raise (KeyError (JInt 0))
  | _ => Raise TypeError
  end.

(** [o[k] = v].  Lists and strings refuse a string subscript. *)
Definition setitem (o : json) (k : string) (v : json) : result json :=
  match o with
  | JDict d => Ok (JDict (assoc_set k v d))
  | _ => Raise TypeError
  end.

(** [k in o], for a string [k]. *)
Definition contains (k : string) (o : json) : result bool :=
  match o with
  | JDict d => Ok (match assoc k d with Some _ => true | None => false end)
  | JList l => Ok (existsb (fun x => match x with
                                     | JStr s => String.eqb s k
                                     | _ => false
                                     end) l)
  | JStr s => Ok (match String.index 0 k s with Some _ => true | None => false end)
  | _ => Raise TypeError
  end.

(** [o.items()]. *)
Definition items (o : json) : result (list (string * json)) :=
  match o with
  | JDict d => Ok d
  | _ => Raise (AttributeError "items")
  end.

(** ** [str] methods *)

Definition str_endswith (s suffix : string) : bool :=
  let n := String.length s in
  let m := String.length suffix in
  (m <=? n)%nat && String.eqb (substring (n - m) m s) suffix.

(** [o.endswith(suffix)]: only strings have the method. *)
Definition endswith (o : json) (suffix : string) : result bool :=
  match o with
  | JStr s => Ok (str_endswith s suffix)
  | _ => Raise (AttributeError "endswith")
  end.

(** [s.split(sep)] for a one-character separator: every occurrence splits,
    so the result is never empty and may hold empty segments. *)
Fixpoint str_split (sep : ascii) (s : string) : list string :=
  match s with
  | EmptyString => [EmptyString]
  | String c s' =>
      if Ascii.eqb c sep then EmptyString :: str_split sep s'
      else match str_split sep s' with
           | x :: xs => String c x :: xs
           | [] => [String c EmptyString]
           end
  end.

Definition split (o : json) (sep : ascii) : result (list string) :=
  match o with
  | JStr s => Ok (str_split sep s)
  | _ => Raise (AttributeError "split")
  end.

(** [l[-2:]]: the last two elements, or all of [l] when it has fewer. *)
Definition last_two {A : Type} (l : list A) : list A :=
  skipn (List.length l - 2) l.

(** [sep.join(l)]. *)
Definition join (sep : string) (l : list string) : string :=
  String.concat sep l.

(** ** Decimal and hexadecimal digits *)

Definition str_of_Z (z : Z) : string :=
  NilZero.string_of_int (Z.to_int z).

Definition str_of_nat (n : nat) : string :=
  NilZero.string_of_uint (Nat.to_uint n).

Definition hex_digit (n : nat) : ascii :=
  match n with
  | 0 => "0" | 1 => "1" | 2 => "2" | 3 => "3" | 4 => "4" | 5 => "5"
  | 6 => "6" | 7 => "7" | 8 => "8" | 9 => "9" | 10 => "a" | 11 => "b"
  | 12 => "c" | 13 => "d" | 14 => "e" | _ => "f"
  end%char.

(** ** [json.dumps] with its default arguments

    [ensure_ascii=True]: inside a string literal the quote and the backslash
    are escaped, backspace, form feed, newline, carriage return and tab have
    their two-character escapes, and every other character outside
    [' '..'~'] becomes a [\u00xx] escape.  Items are separated by [", "] and a
    key from its value by [": "]. *)
Definition dquote_char : ascii := ascii_of_nat 34.
Definition bslash_char : ascii := ascii_of_nat 92.

Definition escaped (c : ascii) : string :=
  String bslash_char (String c EmptyString).

Definition escape_char (c : ascii) : string :=
  let n := nat_of_ascii c in
  if Nat.eqb n 34 then escaped dquote_char
  else if Nat.eqb n 92 then escaped bslash_char
  else if Nat.eqb n 8 then escaped "b"
  else if Nat.eqb n 12 then escaped "f"
  else if Nat.eqb n 10 then escaped "n"
  else if Nat.eqb n 13 then escaped "r"
  else if Nat.eqb n 9 then escaped "t"
  else if (32 <=? n)%nat && (n <=? 126)%nat then String c EmptyString
  else String bslash_char
         ("u00" ++ String (hex_digit (n / 16))
                     (String (hex_digit (n mod 16)) EmptyString)).

Fixpoint escape (s : string) : string :=
  match s with
  | EmptyString => EmptyString
  | String c s' => escape_char c ++ escape s'
  end.

Definition dquote : string := String dquote_char EmptyString.

Definition quote (s : string) : string := dquote ++ escape s ++ dquote.

Fixpoint dumps (j : json) : string :=
  match j with
  | JNull => "null"
  | JBool true => "true"
  | JBool false => "false"
  | JInt z => str_of_Z z
  | JStr s => quote s
  | JList l => "[" ++ join ", " (map dumps l) ++ "]"
  | JDict d =>
      "{" ++ join ", " (map (fun kv => quote (fst kv) ++ ": " ++ dumps (snd kv)) d)
          ++ "}"
  end.

End Py.

(* ===================================================================== *)
(** * [src/app/utils.py]                                                  *)
(* ===================================================================== *)

Module Utils.
Import Py.

(** ** What the functions leave behind

    Log records and object-storage requests, in the order they are issued. *)
Inductive event : Type :=
| LogInfo (msg : string)
| LogWarning (msg : string)
| PutObject (bucket key body : string).

Definition trace := list event.

(** ** The document extractor *)

Definition bytes := list Byte.byte.

(** A table as [pdfplumber] returns it: rows of cells, a cell being a string
    or [None]. *)
Definition table := list (list (option string)).

(** A page, through the two methods the extractor calls on it. *)
Record Page : Type := mkPage {
  extract_text : option string;
  extract_tables : list table
}.

(** An open archive, through the two methods the extractor calls on it. *)
Record ZipRef : Type := mkZipRef {
  namelist : list string;
  zip_open : string -> result bytes
}.

(** [if page_text:] holds for a non-empty string only. *)
Definition text_truthy (t : option string) : bool :=
  match t with
  | Some s => negb (String.eqb s EmptyString)
  | None => false
  end.

Definition newline : string := String (ascii_of_nat 10) EmptyString.

Section Extractor.

(** The two library entry points: [zipfile.ZipFile(BytesIO(b), 'r')] and
    [pdfplumber.open(BytesIO(b))] with its [pages].  Each returns or raises
    the library's own exception. *)
Variable ZipFile : bytes -> result ZipRef.
Variable pdfplumber_open : bytes -> result (list Page).

(** Lines 93-95: the inner loop appends the page's tables one by one. *)
Definition append_tables (tables page_tables : list table) : list table :=
  fold_left (fun acc t => acc ++ [t])%list page_tables tables.

(** Lines 90-95: the body of the loop over pages. *)
Definition page_step (acc : string * list table) (page : Page)
  : string * list table :=
  let (text, tables) := acc in
  let page_text := extract_text page in
  let text :=
    if text_truthy page_text
    then match page_text with
         | Some s => text ++ (s ++ newline)
         | None => text
         end
    else text in
  (text, append_tables tables (extract_tables page)).

Definition extract_text_and_tables_from_pdf (zip_bytes : bytes)
  : result (string * list table) :=
  zip_ref <- ZipFile zip_bytes ;;
  pdf_name <- match namelist zip_ref with
              | n :: _ => Ok n
              | [] => Raise IndexError
              end ;;
  pdf_bytes <- zip_open zip_ref pdf_name ;;
  pages <- pdfplumber_open pdf_bytes ;;
  Ok (fold_left page_step pages (EmptyString, [])).

End Extractor.

(** ** DataFrames

    A cell holds a Python object: something JSON-shaped ([None] included) or
    the [Timestamp] that [pd.to_datetime] made of a start date. *)
Inductive object : Type :=
| Json (j : json)
| Timestamp (t : Z).

Record DataFrame : Type := mkDataFrame {
  columns : list string;
  rows : list (list object)
}.

(** [pd.DataFrame(columns=cols)]. *)
Definition empty_frame (cols : list string) : DataFrame :=
  mkDataFrame cols [].

(** [df.loc[len(df)] = row]: the labels of the rows are [0 .. len(df)-1], so
    the assignment adds [row] after the last one.  The rows are kept as they
    were assigned.  When a row is added pandas infers the type of each
    column again, which can change how a cell that is not text is held (a
    boolean next to an integer, an integer next to a null); a text cell is
    held as it was assigned, and so are the number and the length of the
    rows. *)
Definition loc_append (df : DataFrame) (row : list object) : DataFrame :=
  mkDataFrame (columns df) (rows df ++ [row])%list.

(** [df.shape], as an f-string prints it. *)
Definition shape_repr (df : DataFrame) : string :=
  "(" ++ str_of_nat (List.length (rows df)) ++ ", "
      ++ str_of_nat (List.length (columns df)) ++ ")".

Fixpoint index_of (c : string) (cols : list string) : option nat :=
  match cols with
  | [] => None
  | c' :: cols' =>
      if String.eqb c c' then Some 0%nat
      else option_map S (index_of c cols')
  end.

(** The cell of [row] under column [c] of [df]. *)
Definition cell (df : DataFrame) (row : list object) (c : string) : option object :=
  match index_of c (columns df) with
  | Some i => nth_error row i
  | None => None
  end.

Definition trial_info_cards_columns : list string :=
  ["eudract_number"; "start_date"; "sponsor_name"; "full_title"; "version";
   "soc_term"; "classification_code"; "term"; "level"; "json"].
Definition trial_protocols_columns : list string :=
  ["protocol_id"; "eudract_number"; "url"; "json"].
Definition trial_results_columns : list string :=
  ["eudract_number"; "version"; "url"; "json"].

(** The three frames the normalizer fills. *)
Record Frames : Type := mkFrames {
  cards_df : DataFrame;
  protocols_df : DataFrame;
  results_df : DataFrame
}.

Definition empty_frames : Frames :=
  mkFrames (empty_frame trial_info_cards_columns)
           (empty_frame trial_protocols_columns)
           (empty_frame trial_results_columns).

(** ** The normalizer

    While one element [result] of [successes] is processed, the store holds
    that object and the log.  [trial_info_card] is a reference to
    [result["card"]], so the assignment of line 138 changes the object that
    [json.dumps(result)] serializes on line 150, and the object the caller
    still holds afterwards.  An exception leaves the store as it is. *)
Record Store : Type := mkStore {
  trial : json;
  log : trace
}.

Definition M (A : Type) : Type := Store -> result A * Store.

Definition ret {A : Type} (a : A) : M A := fun st => (Ok a, st).

Definition mbind {A B : Type} (m : M A) (k : A -> M B) : M B :=
  fun st =>
    match m st with
    | (Ok a, st') => k a st'
    | (Raise e, st') => (Raise e, st')
    end.

Declare Scope store_scope.
Delimit Scope store_scope with store.
Notation "x <~ m ;; k" := (mbind m (fun x => k))
  (at level 100, m at next level, right associativity) : store_scope.
Notation "m ;;; k" := (mbind m (fun _ => k))
  (at level 100, right associativity) : store_scope.

(** A step that only computes. *)
Definition lift {A : Type} (r : result A) : M A := fun st => (r, st).

(** Reading the object [result] refers to. *)
Definition deref_result : M json := fun st => (Ok (trial st), st).

(** Reading the object [trial_info_card] refers to. *)
Definition deref_card : M json :=
  fun st => (getitem (trial st) "card", st).

(** [trial_info_card[k] = v], written through to [result]. *)
Definition card_setitem (k : string) (v : json) : M unit :=
  fun st =>
    match (card <- getitem (trial st) "card" ;;
           card' <- setitem card k v ;;
           setitem (trial st) "card" card') with
    | Ok r' => (Ok tt, mkStore r' (log st))
    | Raise e => (Raise e, st)
    end.

Definition logging_info (msg : string) : M unit :=
  fun st => (Ok tt, mkStore (trial st) (log st ++ [LogInfo msg])%list).

Definition str (s : string) : object := Json (JStr s).

(** Lines 156-157, on a URL that is a string. *)
Definition protocol_id_of_url (url : string) : string :=
  join "-" (last_two (str_split "/" url)).

(** Lines 156-159: one protocol. *)
Definition protocol_row (eudract_number protocol : json) : result (list object) :=
  url <- getitem protocol "url" ;;
  protocol_id <- split url "/" ;;
  let protocol_id := join "-" (last_two protocol_id) in
  url <- getitem protocol "url" ;;
  Ok [str protocol_id; Json eudract_number; Json url; str (dumps protocol)].

(** Lines 155-159: the loop over [protocols]. *)
Fixpoint for_each_protocol (eudract_number : json) (protocols_df : DataFrame)
  (protocols : list json) : result DataFrame :=
  match protocols with
  | [] => Ok protocols_df
  | protocol :: rest =>
      row <- protocol_row eudract_number protocol ;;
      for_each_protocol eudract_number (loc_append protocols_df row) rest
  end.

(** Line 165: one version of the results. *)
Definition result_row (eudract_number : json) (version : string) (value : json)
  : result (list object) :=
  summary <- getitem value "summary" ;;
  url <- getitem summary "url" ;;
  Ok [Json eudract_number; str version; Json url; str (dumps value)].

(** Lines 164-165: the loop over [results.items()]. *)
Fixpoint for_each_version (eudract_number : json) (results_df : DataFrame)
  (versions : list (string * json)) : result DataFrame :=
  match versions with
  | [] => Ok results_df
  | (version, value) :: rest =>
      row <- result_row eudract_number version value ;;
      for_each_version eudract_number (loc_append results_df row) rest
  end.

Definition shapes_message (f : Frames) : string :=
  "Cards: " ++ shape_repr (cards_df f) ++ ", Protocols: "
    ++ shape_repr (protocols_df f) ++ ", Results: " ++ shape_repr (results_df f).

Section Normalizer.

(** [pd.to_datetime(x, errors='coerce')] followed by the [pd.isnull] test of
    lines 134-135: [Ok None] for a value that does not parse as a date,
    [Ok (Some t)] for a timestamp; the library raises on the objects it
    refuses whatever [errors] says.  The test comes after the read of
    [protocols] on line 133 and is taken here with the conversion: which
    exception is seen differs only when both the test and that read
    raise. *)
Variable to_datetime : json -> result (option Z).

Definition start_date_cell (d : option Z) : object :=
  match d with
  | Some t => Timestamp t
  | None => Json JNull
  end.

Local Open Scope store_scope.

(** Lines 129-138: the reads that open the body, and the title rule.  The
    values that later lines use come back: [card_disease],
    [eudract_number], [trial_start_date] and [protocols]. *)
Definition read_card : M (json * json * option Z * json) :=
  result <~ deref_result ;;
  trial_info_card <~ lift (getitem result "card") ;;
  card_disease <~ lift (getitem trial_info_card "disease") ;;
  eudract_number <~ lift (getitem trial_info_card "eudract_number") ;;
  trial_start_date <~ lift (d <- getitem trial_info_card "start_date" ;;
                            to_datetime d) ;;
  protocols <~ lift (getitem result "protocols") ;;
  truncated <~ lift (t <- getitem trial_info_card "full_title" ;;
                     endswith t "...") ;;
  (if truncated : bool then
     title <~ lift (p <- getitem0 protocols ;;
                    a <- getitem p "A. Protocol Information" ;;
                    t <- getitem a "Full title of the trial" ;;
                    getitem0 t) ;;
     card_setitem "full_title" title
   else ret tt) ;;;
  ret (card_disease, eudract_number, trial_start_date, protocols).

(** Lines 140-151: [new_card_info_row]. *)
Definition new_card_info_row (card_disease eudract_number : json)
  (trial_start_date : option Z) : M (list object) :=
  trial_info_card <~ deref_card ;;
  sponsor_name <~ lift (getitem trial_info_card "sponsor_name") ;;
  full_title <~ lift (getitem trial_info_card "full_title") ;;
  version <~ lift (getitem card_disease "version") ;;
  soc_term <~ lift (getitem card_disease "soc_term") ;;
  classification_code <~ lift (getitem card_disease "classification_code") ;;
  term <~ lift (getitem card_disease "term") ;;
  level <~ lift (getitem card_disease "level") ;;
  result <~ deref_result ;;
  ret [Json eudract_number; start_date_cell trial_start_date; Json sponsor_name;
       Json full_title; Json version; Json soc_term; Json classification_code;
       Json term; Json level; str (dumps result)].

(** Lines 161-166: the result sets.  The [continue] of line 163 skips the
    log record of line 166. *)
Definition add_results (eudract_number : json) (cards protocols results_df : DataFrame)
  : M Frames :=
  result <~ deref_result ;;
  results <~ lift (has <- contains "results" result ;;
                   if has : bool then getitem result "results" else Ok JNull) ;;
  if negb (truthy results) then
    ret (mkFrames cards protocols results_df)
  else
    versions <~ lift (items results) ;;
    results' <~ lift (for_each_version eudract_number results_df versions) ;;
    let f' := mkFrames cards protocols results' in
    logging_info (shapes_message f') ;;;
    ret f'.

(** Lines 129-166: the body of the loop over [successes], for an element
    that passed the test of line 127. *)
Definition process_result (f : Frames) : M Frames :=
  card <~ read_card ;;
  let '(card_disease, eudract_number, trial_start_date, protocols) := card in
  row <~ new_card_info_row card_disease eudract_number trial_start_date ;;
  let cards := loc_append (cards_df f) row in
  protocols' <~ lift (protocols <- iter protocols ;;
                      for_each_protocol eudract_number (protocols_df f) protocols) ;;
  add_results eudract_number cards protocols' (results_df f).

(** Lines 126-166: the loop over [successes].  Besides the outcome it gives
    back the elements as the loop leaves them, and the log. *)
Fixpoint for_each_result (f : Frames) (successes : list json) (lg : trace)
  : result Frames * list json * trace :=
  match successes with
  | [] => (Ok f, [], lg)
  | result :: rest =>
      if negb (truthy result) then
        let '(out, rest', lg') := for_each_result f rest lg in
        (out, result :: rest', lg')
      else
        match process_result f (mkStore result lg) with
        | (Ok f', st) =>
            let '(out, rest', lg') := for_each_result f' rest (log st) in
            (out, trial st :: rest', lg')
        | (Raise e, st) => (Raise e, trial st :: rest, log st)
        end
  end.

(** What [get_json_data_in_pandas] returns: three values, each [None] or a
    DataFrame. *)
Definition Returned : Type :=
  option DataFrame * option DataFrame * option DataFrame.

Definition returned_frames (f : Frames) : Returned :=
  (Some (cards_df f), Some (protocols_df f), Some (results_df f)).

(** The elements of [successes] are objects of the caller: when the loop
    ran over a list, [json_data] holds them as the loop left them.  The keys
    of a dict and the characters of a string are fresh immutable strings,
    so nothing of the caller changes. *)
Definition write_back (json_data successes : json) (items' : list json) : json :=
  match successes, json_data with
  | JList _, JDict d => JDict (assoc_set "successes" (JList items') d)
  | _, _ => json_data
  end.

(** [get_json_data_in_pandas(json_data)], started with log [lg]: the
    outcome, [json_data] afterwards, and the log afterwards. *)
Definition get_json_data_in_pandas (json_data : json) (lg : trace)
  : result Returned * json * trace :=
  match getitem json_data "successes" with
  | Raise e => (Raise e, json_data, lg)
  | Ok successes =>
      if negb (truthy successes) then (Ok (None, None, None), json_data, lg)
      else
        match (n <- len successes ;; Ok (n <? 1)%nat) with
        | Raise e => (Raise e, json_data, lg)
        | Ok true => (Ok (None, None, None), json_data, lg)
        | Ok false =>
            match iter successes with
            | Raise e => (Raise e, json_data, lg)
            | Ok items =>
                let '(out, items', lg') := for_each_result empty_frames items lg in
                (f <- out ;; Ok (returned_frames f),
                 write_back json_data successes items', lg')
            end
        end
  end.

End Normalizer.

(** ** The upload of the three exports *)

(** [query_details], as [scrape_by_date_range] builds it: three strings. *)
Record QueryDetails : Type := mkQueryDetails {
  start_date : string;
  end_date : string;
  run_date : string
}.

Definition csv_filename (table : string) (q : QueryDetails) : string :=
  table ++ "_" ++ start_date q ++ "_" ++ end_date q ++ "_" ++ run_date q ++ ".csv".

Definition object_key (key filename : string) : string :=
  key ++ "/" ++ filename.

Section Upload.

Variable to_datetime : json -> result (option Z).

(** [df.to_csv(buffer, index=False)] followed by [buffer.getvalue()]. *)
Variable to_csv : DataFrame -> string.

(** The answer of the storage service to [put_object(Bucket, Key, Body)]:
    [None] when the object is stored, [Some e] when the client raises. *)
Variable put_object : string -> string -> string -> option exception.

(** One [s3.put_object] call: the request is issued, then the client
    returns or raises. *)
Definition s3_put_object (bucket key body : string) (tr : trace)
  : result unit * trace :=
  let tr' := (tr ++ [PutObject bucket key body])%list in
  match put_object bucket key body with
  | None => (Ok tt, tr')
  | Some e => (Raise e, tr')
  end.

Definition written_message (bucket key filename : string) : string :=
  "Data written to s3://" ++ bucket ++ "/" ++ key ++ "/" ++ filename.

(** [write_csv_to_s3(json_object, query_details, bucket, key, access_key)]:
    the outcome, [json_object] afterwards and the trace afterwards.  The
    directory created on lines 182-183 and the three local paths are not
    used by anything that follows and are left out. *)
Definition write_csv_to_s3 (json_object : json) (query_details : QueryDetails)
  (bucket key access_key : string) (tr : trace) : result unit * json * trace :=
  let cards_filename := csv_filename "trial_info_cards" query_details in
  let protocols_filename := csv_filename "trial_protocols" query_details in
  let results_filename := csv_filename "trial_results" query_details in
  match get_json_data_in_pandas to_datetime json_object tr with
  | (Raise e, json_object', tr) => (Raise e, json_object', tr)
  | (Ok (Some cards_df, Some protocols_df, Some results_df), json_object', tr) =>
      let cards_body := to_csv cards_df in
      let protocols_body := to_csv protocols_df in
      let results_body := to_csv results_df in
      match s3_put_object bucket (object_key key cards_filename) cards_body tr with
      | (Raise e, tr) => (Raise e, json_object', tr)
      | (Ok _, tr) =>
          let tr := (tr ++ [LogInfo (written_message bucket key cards_filename)])%list in
          match s3_put_object bucket (object_key key protocols_filename)
                              protocols_body tr with
          | (Raise e, tr) => (Raise e, json_object', tr)
          | (Ok _, tr) =>
              let tr := (tr ++ [LogInfo (written_message bucket key
                                           protocols_filename)])%list in
              match s3_put_object bucket (object_key key results_filename)
                                  results_body tr with
              | (Raise e, tr) => (Raise e, json_object', tr)
              | (Ok _, tr) =>
                  (Ok tt, json_object',
                   (tr ++ [LogInfo (written_message bucket key
                                      results_filename)])%list)
              end
          end
      end
  | (Ok _, json_object', tr) =>
      (Ok tt, json_object',
       (tr ++ [LogWarning ("Failed to write data to disk. No data to write for "
                           ++ start_date query_details ++ " to "
                           ++ end_date query_details)])%list)
  end.

(** The storage requests of a trace, in order. *)
Definition put_requests (tr : trace) : list (string * string * string) :=
  flat_map (fun ev => match ev with
                      | PutObject b k body => [(b, k, body)]
                      | _ => []
                      end) tr.

End Upload.

End Utils.

(* ===================================================================== *)
(** * [src/main.py]                                                       *)
(* ===================================================================== *)

Module Main.
Import Py.

(** A [datetime.date] is its proleptic Gregorian ordinal ([toordinal()]):
    [date.min] is day 1 and [date.max], 9999-12-31, is day 3652059.  Dates
    compare as their ordinals do, and adding [timedelta(days=1)] adds one, or
    raises [OverflowError] past [date.max]. *)
Definition date := Z.
Definition date_min : date := 1%Z.
Definition date_max : date := 3652059%Z.

Definition valid_date (d : date) : Prop := (date_min <= d <= date_max)%Z.

(** What [main] does to the world, in order. *)
Inductive effect : Type :=
| Logged (msg : string)
| ScrapeTrials (start_date end_date : date)
| WriteCsvToDisk (output : json) (query_details : Utils.QueryDetails).

(** The effects so far and the number of times the clock was read. *)
Record World : Type := mkWorld {
  effects : list effect;
  clock_reads : nat
}.

Definition emit (e : effect) (w : World) : World :=
  mkWorld (effects w ++ [e])%list (clock_reads w).

(** The partition a scrape returns: [results["errors"]] and
    [results["successes"]]. *)
Record ScrapeResults : Type := mkScrapeResults {
  errors : json;
  successes : json
}.

(** The names that [app/utils.py] binds at its top level: what its lines
    3-11 import, and the five functions it defines. *)
Definition utils_namespace : list string :=
  ["logging"; "os"; "json"; "datetime"; "pd"; "pdfplumber"; "boto3";
   "zipfile"; "BytesIO"; "StringIO";
   "setup_logging"; "write_json_to_disk"; "extract_text_and_tables_from_pdf";
   "get_json_data_in_pandas"; "write_csv_to_s3"].

Definition ImportError (name : string) : exception :=
  Exc "ImportError" (JStr name).

(** [from module import n1, n2, ...]: the names are looked up in the module
    one after the other, and the first that the module does not bind
    raises [ImportError]. *)
Fixpoint from_import (namespace names : list string) : result unit :=
  match names with
  | [] => Ok tt
  | n :: rest =>
      if existsb (String.eqb n) namespace then from_import namespace rest
      else Raise (ImportError n)
  end.

Section Program.

(** [d.strftime("%Y-%m-%d")] and [str(d)]. *)
Variable strftime : date -> string.
Variable isoformat : date -> string.

(** [datetime.strptime(s, '%Y-%m-%d').date()]: a date, or [None] where
    Python raises [ValueError]. *)
Variable strptime : string -> option date.

(** [datetime.now().strftime("%Y-%m-%d-%H-%M-%S")] at the n-th reading of
    the clock. *)
Variable now : nat -> string.

(** Modelled from the spec: [app/eu_scraper.py] is not among the sources.
    [EUClinicalTrialsScraper(start_date, end_date).scrape_trials()] is the
    crawl orchestrator of the specification: it attempts every trial of the
    date range and returns the partition into [errors] and [successes]; the
    run as a whole may still fail, and then it raises.  What it does may
    depend on everything that happened before. *)
Variable scrape_trials : date -> date -> World -> result ScrapeResults.

(** [main] calls [write_csv_to_disk(output, query_details)], a name that
    [app/utils.py] does not bind (see [utils_namespace] and [script]
    below).  Inside [main] the call does whatever the name is bound to when
    the call is made: a parameter that returns or raises, [NameError] when
    the name is not bound at all, and that may depend on everything that
    happened before. *)
Variable write_csv_to_disk :
  json -> Utils.QueryDetails -> World -> result unit.

Definition read_clock (w : World) : string * World :=
  (now (clock_reads w), mkWorld (effects w) (S (clock_reads w))).

(** Lines 29-46. *)
Definition scrape_by_date_range (start_date end_date : date) (w : World)
  : result (json * Utils.QueryDetails) * World :=
  let scraped := scrape_trials start_date end_date w in
  let w := emit (ScrapeTrials start_date end_date) w in
  match scraped with
  | Raise e => (Raise e, w)
  | Ok results =>
      let (run_start_datetime, w) := read_clock w in
      let output :=
        JDict [("metadata",
                JDict [("query_start_date", JStr (strftime start_date));
                       ("query_end_date", JStr (strftime end_date));
                       ("run_start_datetime", JStr run_start_datetime)]);
               ("errors", errors results);
               ("successes", successes results)] in
      let (run_date, w) := read_clock w in
      let query_details :=
        Utils.mkQueryDetails (strftime start_date) (strftime end_date) run_date in
      (Ok (output, query_details), w)
  end.

Definition ArgumentTypeError : exception := Exc "ArgumentTypeError" JNull.

(** Lines 18-26: every [ValueError] of the [try] block, the one of line 23
    included, comes out as [ArgumentTypeError]. *)
Definition validate_dates (start_date end_date : string) : result (date * date) :=
  match strptime start_date with
  | None => Raise ArgumentTypeError
  | Some s =>
      match strptime end_date with
      | None => Raise ArgumentTypeError
      | Some e =>
          if (s >? e)%Z then Raise ArgumentTypeError else Ok (s, e)
      end
  end.

(** Lines 57-61: one turn of the loop, up to the write.  The call of line
    61 is recorded with its two arguments when it is made; it returns or
    raises as [write_csv_to_disk] says, and an exception ends the turn. *)
Definition scrape_one_day (current_date : date) (w : World)
  : result unit * World :=
  let w := emit (Logged ("Scraping data for " ++ isoformat current_date)) w in
  match scrape_by_date_range current_date current_date w with
  | (Raise e, w) => (Raise e, w)
  | (Ok (output, query_details), w) =>
      let w := emit (Logged ("Scraping complete for "
                             ++ isoformat current_date)) w in
      let written := write_csv_to_disk output query_details w in
      let w := emit (WriteCsvToDisk output query_details) w in
      match written with
      | Raise e => (Raise e, w)
      | Ok _ => (Ok tt, w)
      end
  end.

(** Lines 55-63: [while current_date <= end_date], whose last statement
    [current_date += timedelta(days=1)] raises on [date.max]. *)
Equations? day_loop (current_date end_date : date) (w : World)
  : result unit * World
  by wf (Z.to_nat (end_date + 1 - current_date)) lt :=
  day_loop current_date end_date w with Z_le_gt_dec current_date end_date => {
    | right _ := (Ok tt, w)
    | left _ with scrape_one_day current_date w => {
        | (Raise e, w') := (Raise e, w')
        | (Ok _, w') with Z_le_gt_dec (current_date + 1)%Z date_max => {
            | left _ := day_loop (current_date + 1)%Z end_date w'
            | right _ := (Raise OverflowError, w') } } }.
Proof. lia. Qed.

(** Lines 49-63, after the logging set-up and the parsing of the command
    line. *)
Definition main (start_date_arg end_date_arg : string) (w : World)
  : result unit * World :=
  match validate_dates start_date_arg end_date_arg with
  | Raise e => (Raise e, w)
  | Ok (start_date, end_date) => day_loop start_date end_date w
  end.

(** Lines 2-6 and 66-67: [main.py] run as a script.  Its imports come
    first; those of lines 2-4 and 6 are taken to succeed (the scraper
    module is not among the sources), the one of line 5 is looked up in
    [app/utils.py], and [main] runs only when every name was found. *)
Definition script (start_date_arg end_date_arg : string) (w : World)
  : result unit * World :=
  match from_import utils_namespace ["setup_logging"; "write_csv_to_disk"] with
  | Raise e => (Raise e, w)
  | Ok _ => main start_date_arg end_date_arg w
  end.

(** The scrapes of a run, and the snapshots it handed to the write, in
    order. *)
Definition scrapes (l : list effect) : list (date * date) :=
  flat_map (fun e => match e with
                     | ScrapeTrials s e => [(s, e)]
                     | _ => []
                     end) l.

Definition snapshots (l : list effect) : list (json * Utils.QueryDetails) :=
  flat_map (fun e => match e with
                     | WriteCsvToDisk o q => [(o, q)]
                     | _ => []
                     end) l.

End Program.

End Main.

(* ===================================================================== *)
(** * Vocabulary of the properties                                        *)
(* ===================================================================== *)

Import Py Utils.

(** ** The extractor *)

(** What one page contributes to the text. *)
Definition page_line (p : Page) : string :=
  match extract_text p with
  | Some s => if String.eqb s EmptyString then EmptyString else s ++ newline
  | None => EmptyString
  end.

Definition all_text (pages : list Page) : string :=
  String.concat EmptyString (map page_line pages).

Definition all_tables (pages : list Page) : list table :=
  List.concat (map extract_tables pages).

Section ExtractorVocabulary.

Variable ZipFile : bytes -> result ZipRef.
Variable pdfplumber_open : bytes -> result (list Page).

(** The ways the opening of the document fails, each with the exception
    that the failing step raises. *)
Inductive opening_fails (zip_bytes : bytes) : exception -> Prop :=
| malformed_archive e :
    ZipFile zip_bytes = Raise e ->
    opening_fails zip_bytes e
| no_entries zip_ref :
    ZipFile zip_bytes = Ok zip_ref ->
    namelist zip_ref = [] ->
    opening_fails zip_bytes IndexError
| unreadable_entry zip_ref name others e :
    ZipFile zip_bytes = Ok zip_ref ->
    namelist zip_ref = name :: others ->
    zip_open zip_ref name = Raise e ->
    opening_fails zip_bytes e
| not_a_document zip_ref name others pdf_bytes e :
    ZipFile zip_bytes = Ok zip_ref ->
    namelist zip_ref = name :: others ->
    zip_open zip_ref name = Ok pdf_bytes ->
    pdfplumber_open pdf_bytes = Raise e ->
    opening_fails zip_bytes e.

(** The document of an archive: the pages of its first entry. *)
Definition document_pages (zip_bytes : bytes) (pages : list Page) : Prop :=
  exists zip_ref name others pdf_bytes,
    ZipFile zip_bytes = Ok zip_ref /\
    namelist zip_ref = name :: others /\
    zip_open zip_ref name = Ok pdf_bytes /\
    pdfplumber_open pdf_bytes = Ok pages.

End ExtractorVocabulary.

(** *** Sample archives *)

(** An archive without entries, and the library that opens it. *)
Definition empty_zip : ZipRef :=
  mkZipRef [] (fun name => Raise (KeyError (JStr name))).

Definition open_empty_zip (b : bytes) : result ZipRef := Ok empty_zip.

(** An archive with the single entry [protocol.pdf]. *)
Definition one_pdf_zip : ZipRef :=
  mkZipRef ["protocol.pdf"]
           (fun name => if String.eqb name "protocol.pdf" then Ok []
                        else Raise (KeyError (JStr name))).

Definition open_one_pdf_zip (b : bytes) : result ZipRef := Ok one_pdf_zip.

(** A two-page document: a first page of ruled lines without any text, on
    which a table of one empty cell is found, and a second page with the text
    [T] and one table. *)
Definition ruled_table : table := [[None]].
Definition text_table : table := [[Some "a"; Some "b"]].
Definition ruled_page : Page := mkPage None [ruled_table].
Definition text_page : Page := mkPage (Some "T") [text_table].

Definition open_ruled_document (b : bytes) : result (list Page) :=
  Ok [ruled_page; text_page].

(** The same document with a blank first page. *)
Definition blank_page : Page := mkPage (Some EmptyString) [].

Definition open_blank_document (b : bytes) : result (list Page) :=
  Ok [blank_page; text_page].

(** ** The normalizer *)

(** A date parser that recognizes nothing: every start date is null. *)
Definition no_dates (d : json) : result (option Z) := Ok None.

(** *** What one trial contributes

    The loop body, read as a function of the trial alone: the rows that the
    trial adds to the three frames, and the trial as the body leaves it. *)

(** The results of [f] on the elements of [l], up to the first that
    raises. *)
Fixpoint collect {A B : Type} (f : A -> result B) (l : list A) : result (list B) :=
  match l with
  | [] => Ok []
  | x :: l' =>
      y <- f x ;;
      ys <- collect f l' ;;
      Ok (y :: ys)
  end.

Definition add_rows (df : DataFrame) (new_rows : list (list object)) : DataFrame :=
  mkDataFrame (columns df) (rows df ++ new_rows)%list.

Definition protocol_rows (eudract_number protocols : json)
  : result (list (list object)) :=
  protocols <- iter protocols ;;
  collect (protocol_row eudract_number) protocols.

(** [None] when the trial has no results (line 163), the rows of its
    versions otherwise. *)
Definition result_rows (eudract_number result : json)
  : Py.result (option (list (list object))) :=
  has <- contains "results" result ;;
  results <- (if has : bool then getitem result "results" else Ok JNull) ;;
  if negb (truthy results) then Ok None
  else
    versions <- items results ;;
    new_rows <- collect (fun v => result_row eudract_number (fst v) (snd v)) versions ;;
    Ok (Some new_rows).

Record Contribution : Type := mkContribution {
  card_row : list object;
  protocol_part : list (list object);
  result_part : option (list (list object))
}.

Definition contribution (to_datetime : json -> result (option Z)) (result : json)
  : Py.result Contribution * json :=
  match read_card to_datetime (mkStore result []) with
  | (Raise e, st) => (Raise e, trial st)
  | (Ok (card_disease, eudract_number, trial_start_date, protocols), st) =>
      (row <- fst (new_card_info_row card_disease eudract_number
                                     trial_start_date st) ;;
       protocol_part <- protocol_rows eudract_number protocols ;;
       result_part <- result_rows eudract_number (trial st) ;;
       Ok (mkContribution row protocol_part result_part),
       trial st)
  end.

(** The frames with a contribution added, and the log record that goes with
    it. *)
Definition add_contribution (f : Frames) (c : Contribution) : Frames :=
  mkFrames (loc_append (cards_df f) (card_row c))
           (add_rows (protocols_df f) (protocol_part c))
           (match result_part c with
            | Some new_rows => add_rows (results_df f) new_rows
            | None => results_df f
            end).

Definition contribution_log (f : Frames) (c : Contribution) : trace :=
  match result_part c with
  | Some _ => [LogInfo (shapes_message (add_contribution f c))]
  | None => []
  end.

(** The title that line 138 reads for a trial. *)
Definition first_protocol_title (result : json) : Py.result json :=
  protocols <- getitem result "protocols" ;;
  p <- getitem0 protocols ;;
  a <- getitem p "A. Protocol Information" ;;
  t <- getitem a "Full title of the trial" ;;
  getitem0 t.

(** The title on the card of a trial. *)
Definition card_title (result : json) : Py.result json :=
  card <- getitem result "card" ;;
  getitem card "full_title".

(** A result payload without summary URL: no [summary], or a [summary]
    without [url]. *)
Definition lacks_summary_url (value : json) : bool :=
  match value with
  | JDict d =>
      match assoc "summary" d with
      | None => true
      | Some (JDict s) =>
          match assoc "url" s with
          | None => true
          | Some _ => false
          end
      | Some _ => false
      end
  | _ => false
  end.

(** A step is silent when it leaves the log alone and does not look at it,
    and read-only when it leaves the whole store alone. *)
Definition silent {A : Type} (m : M A) : Prop :=
  forall r lg,
    m (mkStore r lg)
    = (fst (m (mkStore r [])), mkStore (trial (snd (m (mkStore r [])))) lg).

Definition read_only {A : Type} (m : M A) : Prop :=
  forall st, snd (m st) = st.

(** The loop over [successes], read as a function of the list alone. *)
Fixpoint fold_contributions (to_datetime : json -> result (option Z))
  (f : Frames) (successes : list json) : result Frames * list json :=
  match successes with
  | [] => (Ok f, [])
  | r :: rest =>
      if negb (truthy r) then
        let (out, rest') := fold_contributions to_datetime f rest in
        (out, r :: rest')
      else
        match contribution to_datetime r with
        | (Ok c, r') =>
            let (out, rest') :=
              fold_contributions to_datetime (add_contribution f c) rest in
            (out, r' :: rest')
        | (Raise e, r') => (Raise e, r' :: rest)
        end
  end.

(** The contributions of the elements that pass the test of line 127. *)
Definition all_contributions (to_datetime : json -> result (option Z))
  (successes : list json) : result (list Contribution) :=
  collect (fun r => fst (contribution to_datetime r)) (filter truthy successes).

Definition result_rows_of (c : Contribution) : list (list object) :=
  match result_part c with
  | Some new_rows => new_rows
  | None => []
  end.

(** A path segment: a string without [/]. *)
Fixpoint no_slash (s : string) : bool :=
  match s with
  | EmptyString => true
  | String c s' => negb (Ascii.eqb c "/") && no_slash s'
  end.

(** The URL [prefix/trial/document]. *)
Definition url_of (prefix trial document : string) : string :=
  prefix ++ "/" ++ trial ++ "/" ++ document.



(** *** Sample trials *)

Definition sample_disease : json :=
  JDict [("version", JStr "20.0"); ("soc_term", JStr "Cancer");
         ("classification_code", JStr "10029104"); ("term", JStr "Neoplasm");
         ("level", JStr "PT")].

Definition sample_card (eudract_number full_title : string) : json :=
  JDict [("eudract_number", JStr eudract_number);
         ("start_date", JStr "2020-01-31");
         ("sponsor_name", JStr "Acme");
         ("full_title", JStr full_title);
         ("disease", sample_disease)].

Definition sample_protocol (url full_title : string) : json :=
  JDict [("url", JStr url);
         ("A. Protocol Information",
          JDict [("Full title of the trial", JList [JStr full_title])])].

Definition url_DE : string := "https://www.clinicaltrialsregister.eu/ctr-search/trial/EU-CT-001/DE".
Definition url_FR : string := "https://www.clinicaltrialsregister.eu/ctr-search/trial/EU-CT-001/FR".

(** A trial whose card has a cut title, with two protocols and no results. *)
Definition truncated_trial : json :=
  JDict [("card", sample_card "EU-CT-001" "Study of X...");
         ("protocols",
          JList [sample_protocol url_DE "Study of X in adult patients";
                 sample_protocol url_FR "Etude de X chez l'adulte"])].

(** The same trial once line 138 has written the title of its first
    protocol into its card. *)
Definition truncated_trial_after : json :=
  JDict [("card", sample_card "EU-CT-001" "Study of X in adult patients");
         ("protocols",
          JList [sample_protocol url_DE "Study of X in adult patients";
                 sample_protocol url_FR "Etude de X chez l'adulte"])].

(** The frames that the normalizer makes of [truncated_trial] alone. *)
Definition truncated_trial_frames : Frames :=
  mkFrames
    (mkDataFrame trial_info_cards_columns
       [[str "EU-CT-001"; Json JNull; str "Acme";
         str "Study of X in adult patients";
         str "20.0"; str "Cancer"; str "10029104"; str "Neoplasm"; str "PT";
         str (dumps truncated_trial_after)]])
    (mkDataFrame trial_protocols_columns
       [[str "EU-CT-001-DE"; str "EU-CT-001"; str url_DE;
         str (dumps (sample_protocol url_DE "Study of X in adult patients"))];
        [str "EU-CT-001-FR"; str "EU-CT-001"; str url_FR;
         str (dumps (sample_protocol url_FR "Etude de X chez l'adulte"))]])
    (empty_frame trial_results_columns).

(** A trial with a complete title and two result versions, the first of
    which has a summary without URL. *)
Definition trial_with_results : json :=
  JDict [("card", sample_card "EU-CT-002" "Study of Y");
         ("protocols", JList [sample_protocol url_DE "Study of Y"]);
         ("results",
          JDict [("v1", JDict [("summary", JDict [])]);
                 ("v2", JDict [("summary",
                                JDict [("url", JStr "https://www.clinicaltrialsregister.eu/ctr-search/trial/EU-CT-002/results")])])])].

(** A trial whose two protocols have URLs that differ before their last two
    segments. *)
Definition url_old : string := "https://www.clinicaltrialsregister.eu/old/EU-CT-001/DE".
Definition url_new : string := "https://www.clinicaltrialsregister.eu/new/EU-CT-001/DE".

Definition trial_with_moved_protocol : json :=
  JDict [("card", sample_card "EU-CT-001" "Study of X");
         ("protocols",
          JList [sample_protocol url_old "Study of X";
                 sample_protocol url_new "Study of X"])].

(** The frames that the normalizer makes of [trial_with_moved_protocol]
    alone, and of the two trials in a batch. *)
Definition moved_protocol_frames : Frames :=
  mkFrames
    (mkDataFrame trial_info_cards_columns
       [[str "EU-CT-001"; Json JNull; str "Acme"; str "Study of X";
         str "20.0"; str "Cancer"; str "10029104"; str "Neoplasm"; str "PT";
         str (dumps trial_with_moved_protocol)]])
    (mkDataFrame trial_protocols_columns
       [[str "EU-CT-001-DE"; str "EU-CT-001"; str url_old;
         str (dumps (sample_protocol url_old "Study of X"))];
        [str "EU-CT-001-DE"; str "EU-CT-001"; str url_new;
         str (dumps (sample_protocol url_new "Study of X"))]])
    (empty_frame trial_results_columns).

Definition both_frames : Frames :=
  mkFrames
    (add_rows (cards_df truncated_trial_frames)
              (rows (cards_df moved_protocol_frames)))
    (add_rows (protocols_df truncated_trial_frames)
              (rows (protocols_df moved_protocol_frames)))
    (empty_frame trial_results_columns).


Definition snapshot (successes : list json) : json :=
  JDict [("metadata", JDict []); ("errors", JList []);
         ("successes", JList successes)].

(** ** The upload *)

(** A serializer that writes the header line only, and a storage service
    that refuses every request. *)
Definition header_csv (df : DataFrame) : string :=
  String.concat "," (columns df) ++ newline.

Definition ClientError : exception := Exc "ClientError" JNull.

Definition refuse_all (bucket key body : string) : option exception :=
  Some ClientError.

Definition accept_all (bucket key body : string) : option exception := None.

Definition sample_query : QueryDetails :=
  mkQueryDetails "2020-01-31" "2020-01-31" "2020-02-01-08-00-00".

(** ** The day loop *)

(** The [n] days from [start] on, and the days of a range, both ends
    included. *)
Definition days_from (start : Main.date) (n : nat) : list Main.date :=
  map (fun i => (start + Z.of_nat i)%Z) (seq 0 n).

Definition days_between (start_date end_date : Main.date) : list Main.date :=
  days_from start_date (Z.to_nat (end_date - start_date + 1)).

(** The two query dates in the metadata of a snapshot. *)
Definition query_dates (output : json) : result (json * json) :=
  metadata <- getitem output "metadata" ;;
  s <- getitem metadata "query_start_date" ;;
  e <- getitem metadata "query_end_date" ;;
  Ok (s, e).

(** The dates that a snapshot handed to the write carries, in its metadata
    and in its query details, and the dates that the snapshot of the single
    day [d] carries. *)
Definition dates_of (s : json * QueryDetails)
  : result (json * json) * string * string :=
  (query_dates (fst s), start_date (snd s), end_date (snd s)).

Definition dated (strftime : Main.date -> string) (d : Main.date)
  : result (json * json) * string * string :=
  (Ok (JStr (strftime d), JStr (strftime d)), strftime d, strftime d).

(** Every scrape of a single day of the range returns. *)
Definition scrapes_return
  (scrape_trials : Main.date -> Main.date -> Main.World -> result Main.ScrapeResults)
  (start_date end_date : Main.date) : Prop :=
  forall d w, (start_date <= d <= end_date)%Z ->
              is_ok (scrape_trials d d w) = true.

(** A calendar of the year 2020 for the samples: day 737425 is 2020-01-01,
    and only the three first days of the year have a name. *)
Definition sample_strftime (d : Main.date) : string :=
  if (d =? 737425)%Z then "2020-01-01"
  else if (d =? 737426)%Z then "2020-01-02"
  else if (d =? 737427)%Z then "2020-01-03"
  else "another day".

Definition sample_strptime (s : string) : option Main.date :=
  if String.eqb s "2020-01-01" then Some 737425%Z
  else if String.eqb s "2020-01-02" then Some 737426%Z
  else if String.eqb s "2020-01-03" then Some 737427%Z
  else None.

Definition sample_now (n : nat) : string := "2020-02-01-08-00-00".

(** A register without any trial. *)
Definition sample_scrape_trials (s e : Main.date) (w : Main.World)
  : result Main.ScrapeResults :=
  Ok (Main.mkScrapeResults (JList []) (JList [])).

Definition initial_world : Main.World := Main.mkWorld [] 0.


(** ** Further vocabulary *)

(** *** The extractor *)

(** A page that yields neither text nor table. *)
Definition page_is_empty (p : Page) : bool :=
  negb (text_truthy (extract_text p))
  && match extract_tables p with [] => true | _ => false end.

(** A library for the samples: every archive has the single entry
    [protocol.pdf], whose content is the archive's own bytes, and the number
    of bytes selects the document. *)
Definition sample_ZipFile (b : bytes) : result ZipRef :=
  Ok (mkZipRef ["protocol.pdf"] (fun _ => Ok b)).

Definition sample_pdfplumber_open (b : bytes) : result (list Page) :=
  match b with
  | [] => Ok [blank_page; blank_page]
  | [_] => Ok [ruled_page]
  | [_; _] => Ok [text_page]
  | _ => Ok [ruled_page; text_page]
  end.

Definition one_byte : bytes := [Byte.x00].
Definition two_bytes : bytes := [Byte.x00; Byte.x00].
Definition three_bytes : bytes := [Byte.x00; Byte.x00; Byte.x00].

(** *** File names *)

(** A string without the character [c]. *)
Fixpoint lacks (c : ascii) (s : string) : bool :=
  match s with
  | EmptyString => true
  | String c' s' => negb (Ascii.eqb c' c) && lacks c s'
  end.

(** Query details whose two dates hold no underscore, as dates printed
    with [%Y-%m-%d] do. *)
Definition dates_lack_underscore (q : QueryDetails) : bool :=
  lacks "_" (start_date q) && lacks "_" (end_date q).

(** The three object keys of an upload. *)
Definition export_keys (key : string) (q : QueryDetails) : list string :=
  [object_key key (csv_filename "trial_info_cards" q);
   object_key key (csv_filename "trial_protocols" q);
   object_key key (csv_filename "trial_results" q)].

(** *** Snapshots on disk *)

(** Lines 58-59: the name of the JSON snapshot. *)
Definition json_filename (q : QueryDetails) : string :=
  start_date q ++ "_" ++ end_date q ++ "_" ++ run_date q ++ ".json".

Definition starts_with_slash (s : string) : bool :=
  match s with
  | String c _ => Ascii.eqb c "/"
  | EmptyString => false
  end.

Fixpoint ends_with_slash (s : string) : bool :=
  match s with
  | EmptyString => false
  | String c EmptyString => Ascii.eqb c "/"
  | String _ s' => ends_with_slash s'
  end.

(** [os.path.join(directory, name)] on a POSIX system. *)
Definition path_join (directory name : string) : string :=
  if starts_with_slash name then name
  else if String.eqb directory EmptyString then name
  else if ends_with_slash directory then directory ++ name
  else directory ++ "/" ++ name.

(** What [write_json_to_disk] asks of the file system and of the log, in
    order. *)
Inductive disk_event : Type :=
| MakeDirs (path : string)
| WriteFile (path content : string)
| DiskInfo (msg : string).

Section Snapshot.

(** [os.makedirs(path, exist_ok=True)], and the block
    [with open(path, 'w') as f: json.dump(json_object, f)]: each returns,
    [None], or raises.  Which file a path denotes, and what a write that
    fails leaves in it, is the file system's matter and is not modelled. *)
Variable makedirs : string -> option exception.
Variable write_text : string -> string -> option exception.

(** [write_json_to_disk(json_object, query_details)], lines 45-63;
    [data_directory] is the directory of line 56. *)
Definition write_json_to_disk (data_directory : string) (json_object : json)
  (query_details : QueryDetails) (tr : list disk_event)
  : result unit * list disk_event :=
  let tr := (tr ++ [MakeDirs data_directory])%list in
  match makedirs data_directory with
  | Some e => (Raise e, tr)
  | None =>
      let filename := json_filename query_details in
      let file_path := path_join data_directory filename in
      let tr := (tr ++ [WriteFile file_path (dumps json_object)])%list in
      match write_text file_path (dumps json_object) with
      | Some e => (Raise e, tr)
      | None =>
          (Ok tt,
           (tr ++ [DiskInfo ("Successfully wrote JSON to disk: "
                             ++ filename)])%list)
      end
  end.

End Snapshot.

(** Query details that make a file name of one path component, from which
    they can be read back: no [/] in any of them, no [_] in the dates. *)
Definition plain_details (q : QueryDetails) : bool :=
  dates_lack_underscore q
  && no_slash (start_date q) && no_slash (end_date q) && no_slash (run_date q).

(** A file system that accepts everything. *)
Definition accepting_makedirs (path : string) : option exception := None.
Definition accepting_write (path content : string) : option exception := None.

(** The exception of a write on a full disk. *)
Definition DiskFull : exception := Exc "OSError" JNull.

Definition next_day_query : QueryDetails :=
  mkQueryDetails "2020-02-01" "2020-02-01" "2020-02-01-08-00-00".

(** *** The day loop *)

(** A register that answers on the first two days of 2020 and fails on the
    third. *)
Definition NetworkError : exception := Exc "ConnectionError" JNull.

Definition scrape_until_third_day (s e : Main.date) (w : Main.World)
  : result Main.ScrapeResults :=
  if (s =? 737427)%Z then Raise NetworkError
  else Ok (Main.mkScrapeResults (JList []) (JList [])).

(** A calendar that knows the last day only, 9999-12-31. *)
Definition last_day_strptime (s : string) : option Main.date :=
  if String.eqb s "9999-12-31" then Some Main.date_max else None.

(** *** The tables of the normalizer *)

(** The trial number on the card of a trial. *)
Definition trial_number (result : json) : Py.result json :=
  card <- getitem result "card" ;;
  getitem card "eudract_number".

(** A trial whose card carries a cut title: a string that ends in three
    dots. *)
Definition has_cut_title (result : json) : bool :=
  match card_title result with
  | Ok (JStr s) => str_endswith s "..."
  | _ => false
  end.

(** Some trial of [successes] that the loop does not skip has a cut
    title. *)
Definition cut_titles (json_data : json) : bool :=
  match getitem json_data "successes" with
  | Ok (JList l) => existsb (fun r => truthy r && has_cut_title r) l
  | _ => false
  end.

(** Every row has one cell per column. *)
Definition well_formed (df : DataFrame) : Prop :=
  Forall (fun row => List.length row = List.length (columns df)) (rows df).

(** The trial number in a row of each table. *)
Definition card_number (row : list object) : option object :=
  cell (empty_frame trial_info_cards_columns) row "eudract_number".
Definition protocol_number (row : list object) : option object :=
  cell (empty_frame trial_protocols_columns) row "eudract_number".
Definition result_number (row : list object) : option object :=
  cell (empty_frame trial_results_columns) row "eudract_number".

(** A trial that has results: the key is there and its value passes the
    test of line 162. *)
Definition has_results (result : json) : bool :=
  match result with
  | JDict d => match assoc "results" d with
               | Some v => truthy v
               | None => false
               end
  | _ => false
  end.

(** The serialized trial in a row of the card table. *)
Definition card_json (row : list object) : option object :=
  cell (empty_frame trial_info_cards_columns) row "json".

(** Two trials that differ in their card at most. *)
Definition same_but_card (r r' : json) : Prop :=
  forall k, k <> "card" -> getitem r' k = getitem r k.

(** A trial with a complete title and two result versions, each with its
    summary URL. *)
Definition trial_with_two_results : json :=
  JDict [("card", sample_card "EU-CT-004" "Study of W");
         ("protocols", JList [sample_protocol url_DE "Study of W"]);
         ("results",
          JDict [("v1", JDict [("summary", JDict [("url", JStr "https://www.clinicaltrialsregister.eu/ctr-search/trial/EU-CT-004/results")])]);
                 ("v2", JDict [("summary", JDict [("url", JStr "https://www.clinicaltrialsregister.eu/ctr-search/trial/EU-CT-004/results-2")])])])].

(** The number of protocols of a trial and the number of versions of its
    results, as the two inner loops count them. *)
Definition protocols_count (result : json) : nat :=
  match (ps <- getitem result "protocols" ;; iter ps) with
  | Ok l => List.length l
  | Raise _ => 0
  end.

Definition versions_count (result : json) : nat :=
  if has_results result then
    match (rs <- getitem result "results" ;; items rs) with
    | Ok l => List.length l
    | Raise _ => 0
    end
  else 0.

(** A trial with a cut title and no protocol to take the full title
    from. *)
Definition trial_without_protocol : json :=
  JDict [("card", sample_card "EU-CT-005" "Study of V...");
         ("protocols", JList [])].

(** The elements of [successes] before a trial that fails, as the loop
    leaves them. *)
Definition visited (to_datetime : json -> result (option Z)) (l : list json)
  : list json :=
  map (fun t => if truthy t then snd (contribution to_datetime t) else t) l.

(** Every call of the write returns. *)
Definition writes_return
  (write_csv_to_disk : json -> QueryDetails -> Main.World -> result unit) : Prop :=
  forall o q w, is_ok (write_csv_to_disk o q w) = true.

(** A write that always returns. *)
Definition sample_write (o : json) (q : QueryDetails) (w : Main.World)
  : result unit := Ok tt.

(** Every turn of the loop over the days of a range completes: the scrape
    and the write both return. *)
Definition turns_return
  (strftime isoformat : Main.date -> string) (now : nat -> string)
  (scrape_trials : Main.date -> Main.date -> Main.World -> result Main.ScrapeResults)
  (write_csv_to_disk : json -> QueryDetails -> Main.World -> result unit)
  (start_date end_date : Main.date) : Prop :=
  forall d w, (start_date <= d <= end_date)%Z ->
    fst (Main.scrape_one_day strftime isoformat now scrape_trials
           write_csv_to_disk d w) = Ok tt.

(** What line 61 hands to the write on day [d]: the snapshot made of the
    results [r] of that day's scrape, when the clock was read [n] times
    before. *)
Definition day_snapshot (strftime : Main.date -> string) (now : nat -> string)
  (d : Main.date) (r : Main.ScrapeResults) (n : nat) : json * QueryDetails :=
  (JDict [("metadata",
           JDict [("query_start_date", JStr (strftime d));
                  ("query_end_date", JStr (strftime d));
                  ("run_start_datetime", JStr (now n))]);
          ("errors", Main.errors r);
          ("successes", Main.successes r)],
   mkQueryDetails (strftime d) (strftime d) (now (S n))).

(** A register whose answer for a day does not depend on what happened
    before: the scrape of each day [d] of the range returns
    [register d]. *)
Definition answers
  (scrape_trials : Main.date -> Main.date -> Main.World -> result Main.ScrapeResults)
  (register : Main.date -> Main.ScrapeResults)
  (start_date end_date : Main.date) : Prop :=
  forall d w, (start_date <= d <= end_date)%Z ->
              scrape_trials d d w = Ok (register d).

(** A register with one failed trial and one trial a day. *)
Definition sample_register (d : Main.date) : Main.ScrapeResults :=
  Main.mkScrapeResults (JList [JStr "EU-CT-009"]) (JList [truncated_trial]).

Definition scrape_sample_register (s e : Main.date) (w : Main.World)
  : result Main.ScrapeResults := Ok (sample_register s).

(** A write that fails on the snapshot of 2020-01-03. *)
Definition write_until_third_day (o : json) (q : QueryDetails) (w : Main.World)
  : result unit :=
  if String.eqb (start_date q) "2020-01-03" then Raise DiskFull else Ok tt.

(* ===================================================================== *)
(** * Properties                                                          *)
(* ===================================================================== *)

(** ** Inversion of the two sequencing operators *)

Lemma bind_ok {A B : Type} (m : result A) (k : A -> result B) (b : B) :
  bind m k = Ok b -> exists a, m = Ok a /\ k a = Ok b.
Proof.
  destruct m as [a|e]; simpl; intros H; [eauto | discriminate].
Qed.

Lemma mbind_ok {A B : Type} (m : M A) (k : A -> M B) st b st' :
  mbind m k st = (Ok b, st') ->
  exists a st1, m st = (Ok a, st1) /\ k a st1 = (Ok b, st').
Proof.
  unfold mbind. destruct (m st) as [[a|e] st1]; intros H;
    [eauto | discriminate].
Qed.

Lemma lift_ok {A : Type} (r : result A) st a st' :
  lift r st = (Ok a, st') -> r = Ok a /\ st' = st.
Proof. unfold lift. intros H; inversion H; auto. Qed.

(** ** Dicts *)

Lemma assoc_set_same (k : string) (v : json) (d : list (string * json)) :
  assoc k (assoc_set k v d) = Some v.
Proof.
  induction d as [|[k' v'] d IH]; simpl.
  - now rewrite String.eqb_refl.
  - destruct (String.eqb k k') eqn:E; simpl; rewrite E; [reflexivity | exact IH].
Qed.

Lemma assoc_set_other (k k' : string) (v : json) (d : list (string * json)) :
  k <> k' -> assoc k (assoc_set k' v d) = assoc k d.
Proof.
  intros Hne. induction d as [|[k0 v0] d IH]; simpl.
  - destruct (String.eqb_spec k k'); [contradiction | reflexivity].
  - destruct (String.eqb_spec k' k0); simpl.
    + subst k0. destruct (String.eqb_spec k k'); [contradiction | reflexivity].
    + destruct (String.eqb k k0); [reflexivity | exact IH].
Qed.


Lemma getitem_setitem_same (o o' : json) (k : string) (v : json) :
  setitem o k v = Ok o' -> getitem o' k = Ok v.
Proof.
  destruct o; simpl; try discriminate. intros H; inversion H; subst; simpl.
  now rewrite assoc_set_same.
Qed.

Lemma getitem_setitem_other (o o' : json) (k k' : string) (v : json) :
  setitem o k' v = Ok o' -> k <> k' -> getitem o' k = getitem o k.
Proof.
  destruct o; simpl; try discriminate. intros H Hne; inversion H; subst; simpl.
  now rewrite assoc_set_other.
Qed.

(** ** The extractor *)

Lemma string_app_empty_r (s : string) : s ++ EmptyString = s.
Proof. induction s; simpl; congruence. Qed.

Lemma string_app_assoc (a b c : string) : (a ++ b) ++ c = a ++ (b ++ c).
Proof. induction a; simpl; congruence. Qed.

Lemma concat_empty_cons (s : string) (l : list string) :
  String.concat EmptyString (s :: l) = s ++ String.concat EmptyString l.
Proof.
  destruct l; simpl; [now rewrite string_app_empty_r | reflexivity].
Qed.

Lemma append_tables_app (ts ps : list table) :
  append_tables ts ps = (ts ++ ps)%list.
Proof.
  unfold append_tables. revert ts.
  induction ps as [|p ps IH]; intros ts; simpl.
  - now rewrite app_nil_r.
  - rewrite IH, <- app_assoc. reflexivity.
Qed.

Lemma page_step_line (text : string) (tables : list table) (p : Page) :
  page_step (text, tables) p
  = (text ++ page_line p, (tables ++ extract_tables p)%list).
Proof.
  unfold page_step, page_line, text_truthy.
  rewrite append_tables_app.
  destruct (extract_text p) as [s|]; simpl.
  - destruct (String.eqb s EmptyString); simpl;
      [now rewrite string_app_empty_r | reflexivity].
  - now rewrite string_app_empty_r.
Qed.

Lemma fold_page_step (pages : list Page) (text : string) (tables : list table) :
  fold_left page_step pages (text, tables)
  = (text ++ all_text pages, (tables ++ all_tables pages)%list).
Proof.
  revert text tables.
  induction pages as [|p pages IH]; intros text tables.
  - simpl. now rewrite string_app_empty_r, app_nil_r.
  - cbn [fold_left]. rewrite page_step_line, IH.
    unfold all_text, all_tables. cbn [map List.concat].
    rewrite concat_empty_cons, string_app_assoc, <- app_assoc.
    reflexivity.
Qed.

Section ExtractorFacts.

Variable ZipFile : bytes -> result ZipRef.
Variable pdfplumber_open : bytes -> result (list Page).

Let extract := extract_text_and_tables_from_pdf ZipFile pdfplumber_open.

Lemma extract_pages (zip_bytes : bytes) (pages : list Page) :
  document_pages ZipFile pdfplumber_open zip_bytes pages ->
  extract zip_bytes = Ok (all_text pages, all_tables pages).
Proof.
  intros (z & name & others & pb & Hz & Hn & Ho & Hp).
  unfold extract, extract_text_and_tables_from_pdf.
  rewrite Hz; simpl. rewrite Hn; simpl. rewrite Ho; simpl. rewrite Hp; simpl.
  now rewrite fold_page_step.
Qed.

(** C5, amended.  Whenever the archive is malformed, has no entry, or its
    first entry cannot be read or opened as a document, the extractor
    raises and returns nothing; the exception is the one of the step that
    failed: the archive library's own for a malformed archive or an
    unreadable entry, [IndexError] for an archive without entries, the
    document library's own for an entry that is not a document. *)
Theorem extract_fails_with_the_failing_step (zip_bytes : bytes) (e : exception) :
  opening_fails ZipFile pdfplumber_open zip_bytes e ->
  extract zip_bytes = Raise e.
Proof.
  unfold extract, extract_text_and_tables_from_pdf.
  intros [e' Hz | z Hz Hn | z name others e' Hz Hn Ho
          | z name others pb e' Hz Hn Ho Hp];
    rewrite Hz; simpl; try reflexivity;
    rewrite Hn; simpl; try reflexivity;
    rewrite Ho; simpl; try reflexivity;
    rewrite Hp; reflexivity.
Qed.

(** C8.  The text is every page's text followed by a newline, in page
    order, the pages without text being skipped, and the tables are the
    tables of all pages in one sequence, by page and then by position on
    the page.  So a document of two pages, the first yielding no text (and,
    all tables being collected, no table), the second the text [T] and one
    table, gives [("T\n", [table])]. *)
Theorem extract_concatenates_pages (zip_bytes : bytes) (pages : list Page) :
  document_pages ZipFile pdfplumber_open zip_bytes pages ->
  extract zip_bytes = Ok (all_text pages, all_tables pages) /\
  forall p1 p2 t,
    pages = [p1; p2] ->
    text_truthy (extract_text p1) = false ->
    extract_tables p1 = [] ->
    extract_text p2 = Some "T" ->
    extract_tables p2 = [t] ->
    extract zip_bytes = Ok ("T" ++ newline, [t]).
Proof.
  intros Hdoc. pose proof (extract_pages zip_bytes pages Hdoc) as Hx.
  split; [exact Hx|].
  intros p1 p2 t -> Hno Hnt Htext Htab. rewrite Hx.
  unfold all_text, all_tables, page_line; simpl.
  rewrite Hnt, Htab, Htext; simpl.
  unfold text_truthy in Hno.
  destruct (extract_text p1) as [s|]; [|reflexivity].
  destruct (String.eqb s EmptyString); [reflexivity | discriminate].
Qed.

End ExtractorFacts.

(** The sample archive without entries fails as C5 amended says. *)
Lemma extract_fails_with_the_failing_step_witness :
  opening_fails open_empty_zip open_blank_document [] IndexError /\
  extract_text_and_tables_from_pdf open_empty_zip open_blank_document []
  = Raise IndexError.
Proof.
  assert (H : opening_fails open_empty_zip open_blank_document [] IndexError)
    by (apply (no_entries _ _ _ empty_zip); reflexivity).
  split; [exact H|].
  exact (extract_fails_with_the_failing_step open_empty_zip open_blank_document
           [] IndexError H).
Defined.

(** C5 as stated fails: the archive without entries makes the extractor
    raise [IndexError], and the class of that exception is not
    [ExtractionError]. *)
Lemma empty_archive_raises_index_error :
  namelist empty_zip = [] /\
  exists e,
    extract_text_and_tables_from_pdf open_empty_zip open_blank_document [] = Raise e /\
    exc_class e = "IndexError" /\
    exc_class e <> "ExtractionError".
Proof.
  split; [reflexivity|].
  exists IndexError. repeat split. discriminate.
Qed.

Lemma blank_document_pages :
  document_pages open_one_pdf_zip open_blank_document [] [blank_page; text_page].
Proof.
  exists one_pdf_zip, "protocol.pdf", [], []. repeat split.
Defined.

(** The sample document with a blank first page extracts as C8 says. *)
Lemma extract_concatenates_pages_witness :
  document_pages open_one_pdf_zip open_blank_document [] [blank_page; text_page] /\
  extract_text_and_tables_from_pdf open_one_pdf_zip open_blank_document []
  = Ok (all_text [blank_page; text_page], all_tables [blank_page; text_page]) /\
  extract_text_and_tables_from_pdf open_one_pdf_zip open_blank_document []
  = Ok ("T" ++ newline, [text_table]).
Proof.
  split; [exact blank_document_pages|].
  destruct (extract_concatenates_pages open_one_pdf_zip open_blank_document
              [] [blank_page; text_page] blank_document_pages) as [Hall Hex].
  split; [exact Hall|].
  apply (Hex blank_page text_page text_table); reflexivity.
Defined.

(** The tables of a page are collected whether or not the page yields
    text: when the first page of the sample yields no text but one table,
    and the second yields [T] and one table, the extractor returns the two
    tables, the first page's before the second's. *)
Lemma textless_page_with_table :
  text_truthy (extract_text ruled_page) = false /\
  extract_text text_page = Some "T" /\
  extract_tables text_page = [text_table] /\
  extract_text_and_tables_from_pdf open_one_pdf_zip open_ruled_document []
  = Ok ("T" ++ newline, [ruled_table; text_table]) /\
  extract_text_and_tables_from_pdf open_one_pdf_zip open_ruled_document []
  <> Ok ("T" ++ newline, [text_table]).
Proof.
  repeat split. discriminate.
Qed.

(** ** The loop body as a function of the trial *)

Lemma for_each_protocol_collect (eud : json) (ps : list json) (df : DataFrame) :
  for_each_protocol eud df ps
  = (new_rows <- collect (protocol_row eud) ps ;; Ok (add_rows df new_rows)).
Proof.
  revert df. induction ps as [|p ps IH]; intros df; simpl.
  - unfold add_rows. rewrite app_nil_r. now destruct df.
  - destruct (protocol_row eud p) as [row|e]; simpl; [|reflexivity].
    rewrite IH. destruct (collect (protocol_row eud) ps) as [rs|e]; simpl;
      [|reflexivity].
    unfold add_rows, loc_append; simpl. now rewrite <- app_assoc.
Qed.

Lemma for_each_version_collect (eud : json) (vs : list (string * json))
  (df : DataFrame) :
  for_each_version eud df vs
  = (new_rows <- collect (fun v => result_row eud (fst v) (snd v)) vs ;;
     Ok (add_rows df new_rows)).
Proof.
  revert df. induction vs as [|[v value] vs IH]; intros df; simpl.
  - unfold add_rows. rewrite app_nil_r. now destruct df.
  - destruct (result_row eud v value) as [row|e]; simpl; [|reflexivity].
    rewrite IH.
    destruct (collect (fun v => result_row eud (fst v) (snd v)) vs) as [rs|e];
      simpl; [|reflexivity].
    unfold add_rows, loc_append; simpl. now rewrite <- app_assoc.
Qed.

Lemma silent_ret {A : Type} (a : A) : silent (ret a).
Proof. intros r lg. reflexivity. Qed.

Lemma silent_lift {A : Type} (x : result A) : silent (lift x).
Proof. intros r lg. reflexivity. Qed.

Lemma silent_deref_result : silent deref_result.
Proof. intros r lg. reflexivity. Qed.

Lemma silent_deref_card : silent deref_card.
Proof. intros r lg. reflexivity. Qed.

Lemma silent_card_setitem (k : string) (v : json) : silent (card_setitem k v).
Proof.
  intros r lg. unfold card_setitem; simpl.
  destruct (getitem r "card") as [card|e]; simpl; [|reflexivity].
  destruct (setitem card k v) as [card'|e]; simpl; [|reflexivity].
  destruct (setitem r "card" card'); reflexivity.
Qed.

Lemma silent_mbind {A B : Type} (m : M A) (k : A -> M B) :
  silent m -> (forall a, silent (k a)) -> silent (mbind m k).
Proof.
  intros Hm Hk r lg. unfold mbind. rewrite (Hm r lg).
  destruct (m (mkStore r [])) as [[a|e] [r1 lg1]]; simpl; [|reflexivity].
  rewrite (Hk a r1 lg), (Hk a r1 lg1). reflexivity.
Qed.

Lemma read_only_ret {A : Type} (a : A) : read_only (ret a).
Proof. intros st. reflexivity. Qed.

Lemma read_only_lift {A : Type} (x : result A) : read_only (lift x).
Proof. intros st. reflexivity. Qed.

Lemma read_only_deref_result : read_only deref_result.
Proof. intros st. reflexivity. Qed.

Lemma read_only_deref_card : read_only deref_card.
Proof. intros st. reflexivity. Qed.

Lemma read_only_mbind {A B : Type} (m : M A) (k : A -> M B) :
  read_only m -> (forall a, read_only (k a)) -> read_only (mbind m k).
Proof.
  intros Hm Hk st. unfold mbind. pose proof (Hm st) as H1.
  destruct (m st) as [[a|e] st1]; simpl in *; subst; [apply Hk | reflexivity].
Qed.

Ltac stepwise :=
  repeat first
    [ apply silent_mbind; [|intros ?]
    | apply read_only_mbind; [|intros ?]
    | apply silent_ret | apply silent_lift | apply silent_deref_result
    | apply silent_deref_card | apply silent_card_setitem
    | apply read_only_ret | apply read_only_lift
    | apply read_only_deref_result | apply read_only_deref_card
    | match goal with |- silent (if ?b then _ else _) => destruct b end
    | match goal with |- read_only (if ?b then _ else _) => destruct b end
    | match goal with |- silent (let '(_, _) := ?p in _) => destruct p end ].

Section NormalizerFacts.

Variable to_datetime : json -> result (option Z).

Lemma read_card_silent : silent (read_card to_datetime).
Proof. unfold read_card. stepwise. Qed.

Lemma new_card_info_row_silent (cd eud : json) (sd : option Z) :
  silent (new_card_info_row cd eud sd).
Proof. unfold new_card_info_row. stepwise. Qed.

Lemma new_card_info_row_read_only (cd eud : json) (sd : option Z) :
  read_only (new_card_info_row cd eud sd).
Proof. unfold new_card_info_row. stepwise. Qed.

Lemma add_results_rows (eud : json) (cards protocols results : DataFrame)
  (st : Store) :
  add_results eud cards protocols results st
  = match result_rows eud (trial st) with
    | Raise e => (Raise e, st)
    | Ok None => (Ok (mkFrames cards protocols results), st)
    | Ok (Some new_rows) =>
        let f' := mkFrames cards protocols (add_rows results new_rows) in
        (Ok f', mkStore (trial st) (log st ++ [LogInfo (shapes_message f')])%list)
    end.
Proof.
  unfold add_results, result_rows, mbind, deref_result, lift, ret, logging_info.
  destruct (contains "results" (trial st)) as [has|e]; simpl; [|reflexivity].
  destruct (if has then getitem (trial st) "results" else Ok JNull)
    as [results0|e]; simpl; [|reflexivity].
  destruct (truthy results0); simpl; [|reflexivity].
  destruct (items results0) as [vs|e]; simpl; [|reflexivity].
  rewrite for_each_version_collect.
  destruct (collect _ vs) as [rs|e]; reflexivity.
Qed.

(** The loop body adds the contribution of the trial to the frames, leaves
    the trial as the contribution says, and logs the new shapes when the
    trial has results. *)
Lemma process_result_contribution (f : Frames) (r : json) (lg : trace) :
  process_result to_datetime f (mkStore r lg)
  = match contribution to_datetime r with
    | (Ok c, r') =>
        (Ok (add_contribution f c), mkStore r' (lg ++ contribution_log f c)%list)
    | (Raise e, r') => (Raise e, mkStore r' lg)
    end.
Proof.
  unfold process_result, contribution. unfold mbind at 1.
  rewrite (read_card_silent r lg).
  destruct (read_card to_datetime (mkStore r [])) as [[[[[cd eud] sd] ps]|e] st1];
    cbn [fst snd]; [|reflexivity].
  unfold mbind at 1.
  rewrite (new_card_info_row_silent cd eud sd (trial st1) lg).
  pose proof (new_card_info_row_read_only cd eud sd (mkStore (trial st1) [])) as Hro.
  pose proof (new_card_info_row_silent cd eud sd (trial st1) (log st1)) as Hs.
  replace (mkStore (trial st1) (log st1)) with st1 in Hs by now destruct st1.
  rewrite Hs. cbn [fst].
  destruct (new_card_info_row cd eud sd (mkStore (trial st1) [])) as [[row|e] st2];
    cbn [fst snd] in *; subst st2; cbn [trial bind]; [|reflexivity].
  unfold mbind, lift, protocol_rows.
  destruct (iter ps) as [ps'|e]; cbn [bind]; [|reflexivity].
  rewrite for_each_protocol_collect.
  destruct (collect (protocol_row eud) ps') as [prows|e]; cbn [bind];
    [|reflexivity].
  rewrite add_results_rows. cbn [trial log].
  destruct (result_rows eud (trial st1)) as [[rrows|]|e]; cbn [bind];
    unfold add_contribution, contribution_log; cbn;
    rewrite ?app_nil_r; reflexivity.
Qed.

Lemma card_setitem_ok (k : string) (v : json) (st st' : Store) :
  card_setitem k v st = (Ok tt, st') ->
  exists card card' r',
    getitem (trial st) "card" = Ok card /\
    setitem card k v = Ok card' /\
    setitem (trial st) "card" card' = Ok r' /\
    st' = mkStore r' (log st).
Proof.
  unfold card_setitem.
  destruct (getitem (trial st) "card") as [card|e] eqn:Hc; simpl; [|discriminate].
  destruct (setitem card k v) as [card'|e] eqn:Hs; simpl; [|discriminate].
  destruct (setitem (trial st) "card" card') as [r'|e] eqn:Hr; [|discriminate].
  intros H; inversion H; subst. exists card, card', r'. repeat split; assumption.
Qed.

(** What a successful [read_card] has read, and what it has written. *)
Lemma read_card_ok (r : json) (lg : trace) (cd eud : json) (sd : option Z)
  (ps : json) (st : Store) :
  read_card to_datetime (mkStore r lg) = (Ok (cd, eud, sd, ps), st) ->
  exists card d title b,
    getitem r "card" = Ok card /\
    getitem card "disease" = Ok cd /\
    getitem card "eudract_number" = Ok eud /\
    getitem card "start_date" = Ok d /\
    to_datetime d = Ok sd /\
    getitem r "protocols" = Ok ps /\
    getitem card "full_title" = Ok title /\
    endswith title "..." = Ok b /\
    if b : bool then
      exists x card' r',
        first_protocol_title r = Ok x /\
        setitem card "full_title" x = Ok card' /\
        setitem r "card" card' = Ok r' /\
        st = mkStore r' lg
    else st = mkStore r lg.
Proof.
  unfold read_card. intros H.
  apply mbind_ok in H as (r0 & s0 & H0 & H).
  unfold deref_result in H0. inversion H0; subst r0 s0; clear H0. cbn [trial] in H.
  apply mbind_ok in H as (card & s1 & H1 & H). apply lift_ok in H1 as [H1 ->].
  apply mbind_ok in H as (cd' & s2 & H2 & H). apply lift_ok in H2 as [H2 ->].
  apply mbind_ok in H as (eud' & s3 & H3 & H). apply lift_ok in H3 as [H3 ->].
  apply mbind_ok in H as (sd' & s4 & H4 & H). apply lift_ok in H4 as [H4 ->].
  apply bind_ok in H4 as (d & Hd & Hsd).
  apply mbind_ok in H as (ps' & s5 & H5 & H). apply lift_ok in H5 as [H5 ->].
  apply mbind_ok in H as (b & s6 & H6 & H). apply lift_ok in H6 as [H6 ->].
  apply bind_ok in H6 as (title & Ht & Hb).
  apply mbind_ok in H as (u & s7 & H7 & H).
  unfold ret in H. inversion H; subst; clear H.
  exists card, d, title, b. repeat (split; [assumption|]).
  destruct u. destruct b.
  - apply mbind_ok in H7 as (x & s8 & H8 & H7). apply lift_ok in H8 as [H8 ->].
    apply card_setitem_ok in H7 as (card0 & card' & r' & Hc & Hs & Hr & ->).
    cbn [trial log] in *. rewrite H1 in Hc. inversion Hc; subst card0.
    exists x, card', r'. repeat split; try assumption.
    unfold first_protocol_title. rewrite H5. exact H8.
  - unfold ret in H7. now inversion H7.
Qed.

(** What a successful [new_card_info_row] has read. *)
Lemma new_card_info_row_ok (cd eud : json) (sd : option Z) (st st' : Store)
  (row : list object) :
  new_card_info_row cd eud sd st = (Ok row, st') ->
  exists card sponsor_name full_title version soc_term code term level,
    getitem (trial st) "card" = Ok card /\
    getitem card "sponsor_name" = Ok sponsor_name /\
    getitem card "full_title" = Ok full_title /\
    getitem cd "version" = Ok version /\
    getitem cd "soc_term" = Ok soc_term /\
    getitem cd "classification_code" = Ok code /\
    getitem cd "term" = Ok term /\
    getitem cd "level" = Ok level /\
    row = [Json eud; start_date_cell sd; Json sponsor_name; Json full_title;
           Json version; Json soc_term; Json code; Json term; Json level;
           str (dumps (trial st))].
Proof.
  unfold new_card_info_row. intros H.
  apply mbind_ok in H as (card & s0 & H0 & H).
  unfold deref_card in H0. inversion H0 as [[Hc Hst]]; subst s0; clear H0.
  apply mbind_ok in H as (sponsor & s1 & H1 & H). apply lift_ok in H1 as [H1 ->].
  apply mbind_ok in H as (title & s2 & H2 & H). apply lift_ok in H2 as [H2 ->].
  apply mbind_ok in H as (version & s3 & H3 & H). apply lift_ok in H3 as [H3 ->].
  apply mbind_ok in H as (soc & s4 & H4 & H). apply lift_ok in H4 as [H4 ->].
  apply mbind_ok in H as (code & s5 & H5 & H). apply lift_ok in H5 as [H5 ->].
  apply mbind_ok in H as (term & s6 & H6 & H). apply lift_ok in H6 as [H6 ->].
  apply mbind_ok in H as (level & s7 & H7 & H). apply lift_ok in H7 as [H7 ->].
  apply mbind_ok in H as (r0 & s8 & H8 & H).
  unfold deref_result in H8. inversion H8; subst; clear H8.
  unfold ret in H. inversion H; subst; clear H.
  exists card, sponsor, title, version, soc, code, term, level.
  repeat (split; [assumption|]). reflexivity.
Qed.

End NormalizerFacts.

(** ** The loop as a fold of contributions *)

Lemma collect_app {A B : Type} (f : A -> result B) (l1 l2 : list A) :
  collect f (l1 ++ l2)%list
  = (r1 <- collect f l1 ;; r2 <- collect f l2 ;; Ok (r1 ++ r2)%list).
Proof.
  induction l1 as [|x l1 IH]; simpl.
  - destruct (collect f l2); reflexivity.
  - destruct (f x) as [y|e]; simpl; [|reflexivity]. rewrite IH.
    destruct (collect f l1) as [r1|e]; simpl; [|reflexivity].
    destruct (collect f l2); reflexivity.
Qed.

Lemma collect_length {A B : Type} (f : A -> result B) (l : list A) (r : list B) :
  collect f l = Ok r -> List.length r = List.length l.
Proof.
  revert r. induction l as [|x l IH]; simpl; intros r H.
  - inversion H. reflexivity.
  - destruct (f x) as [y|e]; simpl in H; [|discriminate].
    destruct (collect f l) as [ys|e]; simpl in H; [|discriminate].
    inversion H; subst. simpl. now rewrite (IH ys).
Qed.

Lemma add_contributions_rows (cs : list Contribution) (f : Frames) :
  let f' := fold_left add_contribution cs f in
  rows (cards_df f') = (rows (cards_df f) ++ map card_row cs)%list /\
  rows (protocols_df f') = (rows (protocols_df f) ++ flat_map protocol_part cs)%list /\
  rows (results_df f') = (rows (results_df f) ++ flat_map result_rows_of cs)%list /\
  columns (cards_df f') = columns (cards_df f) /\
  columns (protocols_df f') = columns (protocols_df f) /\
  columns (results_df f') = columns (results_df f).
Proof.
  revert f. induction cs as [|c cs IH]; intros f; cbn [fold_left map flat_map].
  - rewrite !app_nil_r. repeat split.
  - specialize (IH (add_contribution f c)). cbv zeta in IH.
    destruct IH as (H1 & H2 & H3 & H4 & H5 & H6).
    rewrite H1, H2, H3, H4, H5, H6.
    unfold add_contribution, result_rows_of; cbn.
    destruct (result_part c); cbn; rewrite <- ?app_assoc, ?app_nil_r;
      repeat split.
Qed.

Section LoopFacts.

Variable to_datetime : json -> result (option Z).

Lemma for_each_result_fold (l : list json) (f : Frames) (lg : trace) :
  fst (for_each_result to_datetime f l lg) = fold_contributions to_datetime f l.
Proof.
  revert f lg. induction l as [|r l IH]; intros f lg; simpl.
  - reflexivity.
  - destruct (truthy r); simpl.
    + rewrite process_result_contribution.
      destruct (contribution to_datetime r) as [[c|e] r']; [|reflexivity].
      specialize (IH (add_contribution f c) (lg ++ contribution_log f c)%list).
      cbn [log trial].
      destruct (for_each_result to_datetime (add_contribution f c) l _)
        as [[out rest'] lg'].
      cbn [fst] in IH. rewrite <- IH. reflexivity.
    + specialize (IH f lg).
      destruct (for_each_result to_datetime f l lg) as [[out rest'] lg'].
      cbn [fst] in IH. rewrite <- IH. reflexivity.
Qed.

Lemma fold_all_contributions (l : list json) (f : Frames) :
  fst (fold_contributions to_datetime f l)
  = (cs <- all_contributions to_datetime l ;;
     Ok (fold_left add_contribution cs f)).
Proof.
  unfold all_contributions.
  revert f. induction l as [|r l IH]; intros f; simpl.
  - reflexivity.
  - destruct (truthy r); simpl.
    + destruct (contribution to_datetime r) as [[c|e] r']; simpl; [|reflexivity].
      specialize (IH (add_contribution f c)).
      destruct (fold_contributions to_datetime (add_contribution f c) l)
        as [out rest']. cbn [fst] in *. rewrite IH.
      destruct (collect _ (filter truthy l)); reflexivity.
    + specialize (IH f).
      destruct (fold_contributions to_datetime f l) as [out rest'].
      exact IH.
Qed.

Lemma all_contributions_app (l1 l2 : list json) :
  all_contributions to_datetime (l1 ++ l2)%list
  = (c1 <- all_contributions to_datetime l1 ;;
     c2 <- all_contributions to_datetime l2 ;;
     Ok (c1 ++ c2)%list).
Proof. unfold all_contributions. rewrite filter_app. apply collect_app. Qed.

(** The normalizer on a non-empty list of successes: the frames are the
    empty frames with the contributions of the trials added in order. *)
Lemma normalize_list (json_data : json) (l : list json) (lg : trace) :
  getitem json_data "successes" = Ok (JList l) ->
  l <> [] ->
  fst (fst (get_json_data_in_pandas to_datetime json_data lg))
  = (cs <- all_contributions to_datetime l ;;
     Ok (returned_frames (fold_left add_contribution cs empty_frames))).
Proof.
  intros Hs Hne. unfold get_json_data_in_pandas. rewrite Hs.
  destruct l as [|r l]; [contradiction|]. cbn [truthy negb len bind iter].
  cbn [List.length Nat.ltb Nat.leb].
  pose proof (for_each_result_fold (r :: l) empty_frames lg) as Hf.
  pose proof (fold_all_contributions (r :: l) empty_frames) as Ha.
  destruct (for_each_result to_datetime empty_frames (r :: l) lg)
    as [[out items'] lg'].
  cbn [fst] in *. rewrite <- Hf in Ha. cbn [fst] in Ha. rewrite Ha.
  destruct (all_contributions to_datetime (r :: l)); reflexivity.
Qed.

End LoopFacts.

(** ** Sample runs *)

(** The normalizer on the sample trial with a cut title: the frames, the
    trial as the call leaves it, and a log without any record. *)
Lemma normalize_truncated_trial :
  get_json_data_in_pandas no_dates (snapshot [truncated_trial]) []
  = (Ok (returned_frames truncated_trial_frames),
     snapshot [truncated_trial_after], []).
Proof. vm_compute. reflexivity. Qed.

Lemma normalize_moved_protocol :
  fst (fst (get_json_data_in_pandas no_dates
              (snapshot [trial_with_moved_protocol]) []))
  = Ok (returned_frames moved_protocol_frames).
Proof. vm_compute. reflexivity. Qed.

Lemma normalize_both :
  fst (fst (get_json_data_in_pandas no_dates
              (snapshot [truncated_trial; trial_with_moved_protocol]) []))
  = Ok (returned_frames both_frames).
Proof. vm_compute. reflexivity. Qed.

(** ** The normalizer on an input without successes *)

(** C1, amended.  When [successes] is empty (an empty list, or any other
    value that [not] takes for false), the normalizer returns
    [(None, None, None)]: three times no table, rather than three empty
    tables.  Nothing is raised, and neither the input nor the log changes. *)
Theorem empty_successes_returns_none
  (to_datetime : json -> result (option Z)) (json_data successes : json)
  (lg : trace) :
  getitem json_data "successes" = Ok successes ->
  truthy successes = false ->
  get_json_data_in_pandas to_datetime json_data lg
  = (Ok (None, None, None), json_data, lg).
Proof.
  intros Hs Hf. unfold get_json_data_in_pandas. rewrite Hs, Hf. reflexivity.
Qed.

Lemma empty_successes_returns_none_witness :
  getitem (snapshot []) "successes" = Ok (JList []) /\
  truthy (JList []) = false /\
  get_json_data_in_pandas no_dates (snapshot []) []
  = (Ok (None, None, None), snapshot [], []).
Proof.
  split; [reflexivity | split; [reflexivity|]].
  apply (empty_successes_returns_none no_dates (snapshot []) (JList []) []);
    reflexivity.
Defined.

(** C1 as stated fails: on an empty list of successes nothing that is
    returned is a table, so in particular not the empty one that line 122
    would build. *)
Lemma empty_successes_gives_no_table :
  getitem (snapshot []) "successes" = Ok (JList []) /\
  (forall cards protocols results,
      fst (fst (get_json_data_in_pandas no_dates (snapshot []) []))
      <> Ok (Some cards, protocols, results)) /\
  fst (fst (get_json_data_in_pandas no_dates (snapshot []) []))
  <> Ok (returned_frames empty_frames).
Proof.
  split; [reflexivity|]. split; [intros c p r|]; discriminate.
Qed.

(** Three empty tables are what the normalizer returns when [successes] is
    not empty and holds nothing but elements that line 127 skips. *)
Lemma skipped_elements_give_empty_tables :
  get_json_data_in_pandas no_dates (snapshot [JDict []; JNull]) []
  = (Ok (returned_frames empty_frames), snapshot [JDict []; JNull], []).
Proof. reflexivity. Qed.

(** ** The title rule and the result sets *)

Lemma collect_in_raises {A B : Type} (f : A -> result B) (l : list A) (x : A)
  (e : exception) :
  In x l -> f x = Raise e -> exists e', collect f l = Raise e'.
Proof.
  induction l as [|y l IH]; intros Hin Hx; [destruct Hin|].
  simpl. destruct Hin as [->|Hin].
  - rewrite Hx. simpl. eauto.
  - destruct (f y) as [b|e1]; simpl; [|eauto].
    destruct (IH Hin Hx) as [e' He']. rewrite He'. simpl. eauto.
Qed.

Lemma lacks_summary_url_raises (eud : json) (v : string) (value : json) :
  lacks_summary_url value = true ->
  result_row eud v value = Raise (KeyError (JStr "summary")) \/
  result_row eud v value = Raise (KeyError (JStr "url")).
Proof.
  unfold lacks_summary_url, result_row.
  destruct value as [| | | | |d]; try discriminate. simpl.
  destruct (assoc "summary" d) as [s|]; [|now left].
  destruct s as [| | | | |sd]; try discriminate. simpl.
  destruct (assoc "url" sd); [discriminate | now right].
Qed.

Section TrialFacts.

Variable to_datetime : json -> result (option Z).

(** The trial that a contribution leaves differs from the trial it found in
    its card at most. *)
Lemma contribution_keeps_other_keys (r r' : json) (c : Contribution) (k : string) :
  contribution to_datetime r = (Ok c, r') ->
  k <> "card" ->
  getitem r' k = getitem r k.
Proof.
  unfold contribution. intros H Hk.
  destruct (read_card to_datetime (mkStore r [])) as [[[[[cd eud] sd] ps]|e] st]
    eqn:Hrc; [|discriminate].
  inversion H as [[Hc Hr]]. clear H Hc.
  apply read_card_ok in Hrc
    as (card & d & title & b & _ & _ & _ & _ & _ & _ & _ & _ & Hb).
  destruct b.
  - destruct Hb as (x & card' & r0 & _ & _ & Hset & ->). cbn [trial].
    now apply (getitem_setitem_other r r0 k "card" card').
  - subst st. reflexivity.
Qed.

(** A trial with a cut title contributes a card row that carries the title
    of its first protocol, and is left with that title in its card. *)
Lemma contribution_replaces_title (r r' : json) (c : Contribution) (s : string)
  (x : json) :
  contribution to_datetime r = (Ok c, r') ->
  card_title r = Ok (JStr s) ->
  str_endswith s "..." = true ->
  first_protocol_title r = Ok x ->
  nth_error (card_row c) 3 = Some (Json x) /\
  nth_error (card_row c) 9 = Some (str (dumps r')) /\
  card_title r' = Ok x.
Proof.
  unfold contribution. intros H Ht He Hx.
  destruct (read_card to_datetime (mkStore r [])) as [[[[[cd eud] sd] ps]|e] st]
    eqn:Hrc; [|discriminate].
  inversion H as [[Hc Hr]]. clear H.
  apply bind_ok in Hc as (row & Hrow & Hc).
  apply bind_ok in Hc as (prows & _ & Hc).
  apply bind_ok in Hc as (rrows & _ & Hc).
  inversion Hc; subst c; clear Hc. cbn [card_row].
  apply read_card_ok in Hrc
    as (card & d & title & b & Hcard & _ & _ & _ & _ & _ & Htitle & Hb & Hw).
  unfold card_title in Ht. rewrite Hcard in Ht. cbn [bind] in Ht.
  rewrite Htitle in Ht. inversion Ht; subst title. cbn [endswith] in Hb.
  rewrite He in Hb. inversion Hb; subst b.
  destruct Hw as (x' & card' & r0 & Hx' & Hsc & Hsr & ->). cbn [trial].
  rewrite Hx in Hx'. inversion Hx'; subst x'.
  destruct (new_card_info_row cd eud sd (mkStore r0 [])) as [o st'] eqn:Hn.
  cbn [fst] in Hrow. subst o.
  apply new_card_info_row_ok in Hn
    as (card0 & sp & ft & v & so & co & te & le & Hc0 & _ & Hft & _ & _ & _ & _ & _ & ->).
  cbn [trial] in Hc0.
  rewrite (getitem_setitem_same r r0 "card" card' Hsr) in Hc0.
  inversion Hc0; subst card0.
  rewrite (getitem_setitem_same card card' "full_title" x Hsc) in Hft.
  inversion Hft; subst ft.
  repeat split.
  unfold card_title. rewrite (getitem_setitem_same r r0 "card" card' Hsr).
  cbn [bind]. exact (getitem_setitem_same card card' "full_title" x Hsc).
Qed.

(** A trial whose results hold a version without summary URL has no
    contribution. *)
Lemma contribution_needs_summary_urls (r : json) (vs : list (string * json))
  (v : string) (value : json) :
  getitem r "results" = Ok (JDict vs) ->
  In (v, value) vs ->
  lacks_summary_url value = true ->
  exists e r', contribution to_datetime r = (Raise e, r').
Proof.
  intros Hres Hin Hl.
  destruct (contribution to_datetime r) as [[c|e] r'] eqn:Hc; [|eauto].
  exfalso.
  pose proof (contribution_keeps_other_keys r r' c "results" Hc) as Hk.
  rewrite Hres in Hk. specialize (Hk ltac:(discriminate)).
  unfold contribution in Hc.
  destruct (read_card to_datetime (mkStore r [])) as [[[[[cd eud] sd] ps]|e] st];
    [|discriminate].
  inversion Hc as [[Hb Hr]]. subst r'. clear Hc.
  apply bind_ok in Hb as (row & _ & Hb).
  apply bind_ok in Hb as (prows & _ & Hb).
  apply bind_ok in Hb as (rrows & Hrr & _).
  unfold result_rows in Hrr.
  destruct (trial st) as [| | | | |d]; try discriminate.
  simpl in Hk. cbn [contains bind] in Hrr.
  destruct (assoc "results" d) as [res|] eqn:Ha; [|discriminate].
  inversion Hk; subst res. cbn [getitem] in Hrr. rewrite Ha in Hrr.
  cbn [bind truthy negb items] in Hrr.
  destruct vs as [|v0 vs]; [destruct Hin|]. cbn [negb] in Hrr.
  destruct (lacks_summary_url_raises eud v value Hl) as [Hx|Hx];
    destruct (collect_in_raises (fun v => result_row eud (fst v) (snd v))
                (v0 :: vs) (v, value) _ Hin Hx) as [e' He'];
    rewrite He' in Hrr; discriminate.
Qed.

(** C6.  Take a run of the normalizer that returns its tables, and in its
    input a trial whose title ends with [...] and whose first protocol
    carries a first element [x] under ["Full title of the trial"] of
    ["A. Protocol Information"].  The card row of that trial, which comes
    after the rows of the trials before it, has [x] as its [full_title]. *)
Theorem truncated_title_replaced
  (json_data : json) (lg : trace) (before : list json) (result : json)
  (after : list json) (s : string) (x : json)
  (cards protocols results : DataFrame) :
  getitem json_data "successes" = Ok (JList (before ++ result :: after)%list) ->
  card_title result = Ok (JStr s) ->
  str_endswith s "..." = true ->
  first_protocol_title result = Ok x ->
  fst (fst (get_json_data_in_pandas to_datetime json_data lg))
  = Ok (Some cards, Some protocols, Some results) ->
  exists rows_before row rows_after,
    rows cards = (rows_before ++ row :: rows_after)%list /\
    List.length rows_before = List.length (filter truthy before) /\
    cell cards row "full_title" = Some (Json x).
Proof.
  intros Hs Ht He Hx Hrun.
  rewrite (normalize_list to_datetime json_data _ lg Hs) in Hrun
    by (destruct before; discriminate).
  apply bind_ok in Hrun as (cs & Hcs & Hrun).
  inversion Hrun as [[Hc Hp Hr]]. clear Hrun Hp Hr.
  change (before ++ result :: after)%list
    with (before ++ [result] ++ after)%list in Hcs.
  rewrite !all_contributions_app in Hcs.
  apply bind_ok in Hcs as (c1 & H1 & Hcs).
  apply bind_ok in Hcs as (c23 & H23 & Hcs).
  apply bind_ok in H23 as (c2 & H2 & H23).
  apply bind_ok in H23 as (c3 & H3 & H23).
  inversion H23; subst c23. inversion Hcs; subst cs. clear H23 Hcs.
  assert (Htruthy : truthy result = true).
  { unfold card_title in Ht. destruct result as [| | | | |d]; try discriminate.
    destruct d; [discriminate | reflexivity]. }
  unfold all_contributions in H2. cbn [filter] in H2. rewrite Htruthy in H2.
  cbn [collect] in H2.
  destruct (contribution to_datetime result) as [[c|e] r'] eqn:Hcon;
    cbn [fst bind] in H2; [|discriminate].
  inversion H2; subst c2. clear H2.
  destruct (contribution_replaces_title result r' c s x Hcon Ht He Hx)
    as (Hrow & _ & _).
  destruct (add_contributions_rows (c1 ++ [c] ++ c3)%list empty_frames)
    as (Hrows & _ & _ & Hcols & _ & _).
  exists (map card_row c1), (card_row c), (map card_row c3).
  split; [|split].
  - rewrite Hrows. cbn. now rewrite !map_app.
  - rewrite length_map. exact (collect_length _ _ _ H1).
  - unfold cell. rewrite Hcols. exact Hrow.
Qed.

(** C3, amended.  When a trial of the input has a results mapping in which
    some version lacks a summary URL, the normalizer raises: it returns no
    table, whatever the other versions and the other trials are.  The lookup
    of line 165 on that version raises [KeyError('summary')] or
    [KeyError('url')]. *)
Theorem missing_summary_url_raises
  (json_data : json) (lg : trace) (successes : list json) (result : json)
  (versions : list (string * json)) (version : string) (value : json) :
  getitem json_data "successes" = Ok (JList successes) ->
  In result successes ->
  getitem result "results" = Ok (JDict versions) ->
  In (version, value) versions ->
  lacks_summary_url value = true ->
  (exists e,
      fst (fst (get_json_data_in_pandas to_datetime json_data lg)) = Raise e) /\
  (forall eudract_number,
      result_row eudract_number version value = Raise (KeyError (JStr "summary")) \/
      result_row eudract_number version value = Raise (KeyError (JStr "url"))).
Proof.
  intros Hs Hin Hres Hv Hl.
  split; [|intros eud; now apply lacks_summary_url_raises].
  rewrite (normalize_list to_datetime json_data successes lg Hs)
    by (intros ->; destruct Hin).
  destruct (contribution_needs_summary_urls result versions version value
              Hres Hv Hl) as (e & r' & Hc).
  assert (Htruthy : truthy result = true).
  { destruct result as [| | | | |d]; try discriminate.
    destruct d; [discriminate | reflexivity]. }
  assert (Hin' : In result (filter truthy successes))
    by (apply filter_In; split; assumption).
  assert (Hraise : fst (contribution to_datetime result) = Raise e)
    by now rewrite Hc.
  destruct (collect_in_raises (fun r => fst (contribution to_datetime r))
              _ result e Hin' Hraise) as [e' He'].
  unfold all_contributions. rewrite He'. simpl. eauto.
Qed.

End TrialFacts.

(** The example of C6: the sample trial titled [Study of X...], whose first
    protocol carries [Study of X in adult patients]. *)
Lemma truncated_title_replaced_witness :
  getitem (snapshot [truncated_trial]) "successes"
  = Ok (JList ([] ++ truncated_trial :: [])%list) /\
  card_title truncated_trial = Ok (JStr "Study of X...") /\
  str_endswith "Study of X..." "..." = true /\
  first_protocol_title truncated_trial = Ok (JStr "Study of X in adult patients") /\
  fst (fst (get_json_data_in_pandas no_dates (snapshot [truncated_trial]) []))
  = Ok (Some (cards_df truncated_trial_frames),
        Some (protocols_df truncated_trial_frames),
        Some (results_df truncated_trial_frames)) /\
  exists rows_before row rows_after,
    rows (cards_df truncated_trial_frames)
    = (rows_before ++ row :: rows_after)%list /\
    List.length rows_before = List.length (filter truthy []) /\
    cell (cards_df truncated_trial_frames) row "full_title"
    = Some (Json (JStr "Study of X in adult patients")).
Proof.
  assert (Hrun :
    fst (fst (get_json_data_in_pandas no_dates (snapshot [truncated_trial]) []))
    = Ok (Some (cards_df truncated_trial_frames),
          Some (protocols_df truncated_trial_frames),
          Some (results_df truncated_trial_frames)))
    by (rewrite normalize_truncated_trial; reflexivity).
  do 4 (split; [reflexivity|]). split; [exact Hrun|].
  exact (truncated_title_replaced no_dates (snapshot [truncated_trial]) []
           [] truncated_trial [] "Study of X..."
           (JStr "Study of X in adult patients")
           (cards_df truncated_trial_frames)
           (protocols_df truncated_trial_frames)
           (results_df truncated_trial_frames)
           eq_refl eq_refl eq_refl eq_refl Hrun).
Defined.

Lemma missing_summary_url_raises_witness :
  getitem (snapshot [trial_with_results; truncated_trial]) "successes"
  = Ok (JList [trial_with_results; truncated_trial]) /\
  In trial_with_results [trial_with_results; truncated_trial] /\
  lacks_summary_url (JDict [("summary", JDict [])]) = true /\
  exists e,
    fst (fst (get_json_data_in_pandas no_dates
                (snapshot [trial_with_results; truncated_trial]) []))
    = Raise e.
Proof.
  assert (Hin : In trial_with_results [trial_with_results; truncated_trial])
    by (left; reflexivity).
  split; [reflexivity|]. split; [exact Hin|]. split; [reflexivity|].
  refine (proj1 (missing_summary_url_raises no_dates
                   (snapshot [trial_with_results; truncated_trial]) []
                   [trial_with_results; truncated_trial] trial_with_results
                   _ "v1" (JDict [("summary", JDict [])])
                   eq_refl Hin eq_refl _ eq_refl)).
  left; reflexivity.
Defined.

(** C3 as stated fails.  In the sample batch the first trial has version
    [v1] without summary URL and version [v2] with one, and a second trial
    follows.  The call raises [KeyError('url')]: there is no row for [v2],
    and the second trial is still as it was received, its title not
    replaced. *)
Lemma missing_summary_url_aborts_the_batch :
  getitem trial_with_results "results"
  = Ok (JDict [("v1", JDict [("summary", JDict [])]);
               ("v2", JDict [("summary",
                              JDict [("url", JStr "https://www.clinicaltrialsregister.eu/ctr-search/trial/EU-CT-002/results")])])]) /\
  fst (get_json_data_in_pandas no_dates
         (snapshot [trial_with_results; truncated_trial]) [])
  = (Raise (KeyError (JStr "url")),
     snapshot [trial_with_results; truncated_trial]) /\
  is_ok (fst (fst (get_json_data_in_pandas no_dates
                     (snapshot [trial_with_results; truncated_trial]) [])))
  = false.
Proof. vm_compute. repeat split. Qed.

(** ** The audit column *)

Section AuditColumn.

Variable to_datetime : json -> result (option Z).

(** The [json] cell of a card row is the serialization of the trial as the
    title rule left it. *)
Lemma contribution_audit_cell (r r' : json) (c : Contribution) :
  contribution to_datetime r = (Ok c, r') ->
  nth_error (card_row c) 9 = Some (str (dumps r')).
Proof.
  unfold contribution. intros H.
  destruct (read_card to_datetime (mkStore r [])) as [[[[[cd eud] sd] ps]|e] st]
    eqn:Hrc; [|discriminate].
  injection H as Hc Hr.
  apply bind_ok in Hc as (row & Hrow & Hc).
  apply bind_ok in Hc as (prows & _ & Hc).
  apply bind_ok in Hc as (rrows & _ & Hc).
  injection Hc as <-. cbn [card_row].
  pose proof (new_card_info_row_silent cd eud sd (trial st) (log st)) as Hs.
  replace (mkStore (trial st) (log st)) with st in Hs by now destruct st.
  destruct (new_card_info_row cd eud sd st) as [o st'] eqn:Hn.
  cbn [fst] in Hrow. subst o.
  apply new_card_info_row_ok in Hn
    as (card0 & sp & ft & v & so & co & te & le & _ & _ & _ & _ & _ & _ & _ & _ & ->).
  subst r'. reflexivity.
Qed.

(** A trial whose title is not cut is left as it was, so its [json] cell is
    the serialization of the trial as received. *)
Lemma complete_title_keeps_payload (r r' : json) (c : Contribution) (s : string) :
  contribution to_datetime r = (Ok c, r') ->
  card_title r = Ok (JStr s) ->
  str_endswith s "..." = false ->
  r' = r /\ nth_error (card_row c) 9 = Some (str (dumps r)).
Proof.
  intros H Ht He.
  pose proof (contribution_audit_cell r r' c H) as Hcell.
  unfold contribution in H.
  destruct (read_card to_datetime (mkStore r [])) as [[[[[cd eud] sd] ps]|e] st]
    eqn:Hrc; [|discriminate].
  injection H as _ Hr.
  apply read_card_ok in Hrc
    as (card & d & title & b & Hcard & _ & _ & _ & _ & _ & Htitle & Hb & Hw).
  unfold card_title in Ht. rewrite Hcard in Ht. cbn [bind] in Ht.
  rewrite Htitle in Ht. injection Ht as ->. cbn [endswith] in Hb.
  rewrite He in Hb. injection Hb as <-. subst st. cbn [trial] in Hr.
  subst r'. split; [reflexivity | exact Hcell].
Qed.

End AuditColumn.

(** C2 fails on the sample trial with a cut title.  The [json] cell of its
    card row is the serialization of the trial after line 138 has replaced
    the title in its card, which is not the serialization of the trial as it
    was received. *)
Theorem audit_column_holds_rewritten_trial :
  exists cards protocols results row,
    fst (fst (get_json_data_in_pandas no_dates (snapshot [truncated_trial]) []))
    = Ok (Some cards, protocols, results) /\
    rows cards = [row] /\
    cell cards row "json" = Some (str (dumps truncated_trial_after)) /\
    cell cards row "json" <> Some (str (dumps truncated_trial)).
Proof.
  exists (cards_df truncated_trial_frames),
         (Some (protocols_df truncated_trial_frames)),
         (Some (results_df truncated_trial_frames)).
  eexists. rewrite normalize_truncated_trial.
  split; [reflexivity|]. split; [reflexivity|]. split; [reflexivity|].
  vm_compute. discriminate.
Qed.

(** ** Protocol identifiers *)

Lemma str_split_nonempty (sep : ascii) (s : string) : str_split sep s <> [].
Proof.
  destruct s as [|c s]; simpl; [discriminate|].
  destruct (Ascii.eqb c sep); [discriminate|].
  destruct (str_split sep s); discriminate.
Qed.

Lemma str_split_segment (s : string) :
  no_slash s = true -> str_split "/" s = [s].
Proof.
  induction s as [|c s IH]; simpl; [reflexivity|].
  intros H. apply andb_true_iff in H as [Hc Hs].
  apply negb_true_iff in Hc. rewrite Hc, (IH Hs). reflexivity.
Qed.

Lemma str_split_app (sep : ascii) (p s : string) :
  str_split sep (p ++ String sep s) = (str_split sep p ++ str_split sep s)%list.
Proof.
  induction p as [|c p IH]; simpl.
  - now rewrite Ascii.eqb_refl.
  - destruct (Ascii.eqb c sep); [now rewrite IH|].
    rewrite IH. pose proof (str_split_nonempty sep p) as Hne.
    destruct (str_split sep p) as [|x xs]; [contradiction | reflexivity].
Qed.

Lemma last_two_app {A : Type} (l : list A) (a b : A) :
  last_two (l ++ [a; b])%list = [a; b].
Proof.
  unfold last_two. rewrite length_app. cbn [List.length].
  replace (List.length l + 2 - 2)%nat with (List.length l + 0)%nat by lia.
  rewrite skipn_app, Nat.add_0_r, skipn_all.
  replace (List.length l - List.length l)%nat with 0%nat by lia. reflexivity.
Qed.

Lemma string_app_inv_head (a b c : string) : a ++ b = a ++ c -> b = c.
Proof. induction a; simpl; intros H; [exact H | inversion H; auto]. Qed.

(** On a URL [prefix/trial/document] the identifier is [trial-document]. *)
Lemma protocol_id_of_url_segments (prefix trial document : string) :
  no_slash trial = true -> no_slash document = true ->
  protocol_id_of_url (url_of prefix trial document) = trial ++ "-" ++ document.
Proof.
  intros Ht Hd. unfold protocol_id_of_url, url_of.
  change (prefix ++ "/" ++ trial ++ "/" ++ document)
    with (prefix ++ String "/" (trial ++ String "/" document)).
  rewrite !str_split_app, (str_split_segment trial Ht),
    (str_split_segment document Hd).
  cbn [app]. rewrite last_two_app. reflexivity.
Qed.

(** C7, amended.  The identifier of a protocol is made of its URL alone:
    split on [/], last two segments, joined by a hyphen.  So URLs that end in
    [/EU-CT-001/DE] and [/EU-CT-001/FR] give [EU-CT-001-DE] and
    [EU-CT-001-FR], and two URLs whose second-to-last segments agree and
    whose last segments differ give different identifiers. *)
Theorem protocol_id_from_last_two_segments :
  (forall eudract_number protocol url,
      getitem protocol "url" = Ok (JStr url) ->
      protocol_row eudract_number protocol
      = Ok [str (join "-" (last_two (str_split "/" url))); Json eudract_number;
            Json (JStr url); str (dumps protocol)]) /\
  (forall prefix,
      protocol_id_of_url (prefix ++ "/EU-CT-001/DE") = "EU-CT-001-DE" /\
      protocol_id_of_url (prefix ++ "/EU-CT-001/FR") = "EU-CT-001-FR") /\
  (forall prefix1 prefix2 trial document1 document2,
      no_slash trial = true ->
      no_slash document1 = true ->
      no_slash document2 = true ->
      document1 <> document2 ->
      protocol_id_of_url (url_of prefix1 trial document1)
      <> protocol_id_of_url (url_of prefix2 trial document2)).
Proof.
  split; [|split].
  - intros eud protocol url Hu. unfold protocol_row. rewrite Hu. reflexivity.
  - intros prefix. split.
    + apply (protocol_id_of_url_segments prefix "EU-CT-001" "DE"); reflexivity.
    + apply (protocol_id_of_url_segments prefix "EU-CT-001" "FR"); reflexivity.
  - intros p1 p2 t d1 d2 Ht H1 H2 Hne.
    rewrite !protocol_id_of_url_segments by assumption.
    intros Heq. apply string_app_inv_head in Heq.
    apply (string_app_inv_head "-") in Heq. contradiction.
Qed.

Lemma protocol_id_from_last_two_segments_witness :
  getitem (sample_protocol url_DE "Study of X in adult patients") "url"
  = Ok (JStr url_DE) /\
  protocol_row (JStr "EU-CT-001")
               (sample_protocol url_DE "Study of X in adult patients")
  = Ok [str "EU-CT-001-DE"; str "EU-CT-001"; str url_DE;
        str (dumps (sample_protocol url_DE "Study of X in adult patients"))] /\
  no_slash "EU-CT-001" = true /\ no_slash "DE" = true /\ no_slash "FR" = true /\
  "DE" <> "FR" /\
  protocol_id_of_url url_DE <> protocol_id_of_url url_FR.
Proof.
  assert (Hne : "DE" <> "FR") by discriminate.
  split; [reflexivity|].
  split; [exact (proj1 protocol_id_from_last_two_segments (JStr "EU-CT-001")
                   (sample_protocol url_DE "Study of X in adult patients")
                   url_DE eq_refl)|].
  repeat (split; [reflexivity|]). split; [exact Hne|].
  exact (proj2 (proj2 protocol_id_from_last_two_segments)
           "https://www.clinicaltrialsregister.eu/ctr-search/trial"
           "https://www.clinicaltrialsregister.eu/ctr-search/trial"
           "EU-CT-001" "DE" "FR" eq_refl eq_refl eq_refl Hne).
Defined.

(** C7 as stated fails: the two protocols of the sample trial have
    different URLs and their rows carry the same identifier. *)
Lemma moved_protocol_keeps_identifier :
  url_old <> url_new /\
  exists cards protocols results row1 row2,
    fst (fst (get_json_data_in_pandas no_dates
                (snapshot [trial_with_moved_protocol]) []))
    = Ok (cards, Some protocols, results) /\
    rows protocols = [row1; row2] /\
    cell protocols row1 "url" = Some (str url_old) /\
    cell protocols row2 "url" = Some (str url_new) /\
    cell protocols row1 "protocol_id" = Some (str "EU-CT-001-DE") /\
    cell protocols row2 "protocol_id" = Some (str "EU-CT-001-DE").
Proof.
  split; [discriminate|].
  do 5 eexists. vm_compute. repeat split.
Qed.

(** ** Two runs *)

Section TwoRuns.

Variable to_datetime : json -> result (option Z).



End TwoRuns.

(** ** A second run on the object that the first run left *)

Lemma setitem_truthy (o o' : json) (k : string) (v : json) :
  setitem o k v = Ok o' -> truthy o' = true.
Proof.
  destruct o as [| | | | |d]; simpl; try discriminate.
  intros H; inversion H; subst. simpl.
  destruct d as [|[k' v'] d]; simpl; [reflexivity|].
  destruct (String.eqb k k'); reflexivity.
Qed.


Section SameObject.

Variable to_datetime : json -> result (option Z).


Lemma contribution_truthy (r r' : json) (c : Contribution) :
  contribution to_datetime r = (Ok c, r') -> truthy r' = true.
Proof.
  unfold contribution. intros H.
  destruct (read_card to_datetime (mkStore r [])) as [[[[[cd eud] sd] ps]|e] st]
    eqn:Hrc; [|discriminate].
  inversion H as [[Hc Hr]]. clear H Hc.
  apply read_card_ok in Hrc
    as (card & d & title & b & Hcard & _ & _ & _ & _ & _ & _ & _ & Hb).
  destruct b.
  - destruct Hb as (x & card' & r0 & _ & _ & Hset & ->). cbn [trial].
    exact (setitem_truthy r r0 "card" card' Hset).
  - subst st. cbn [trial].
    destruct r as [| | | | |dr]; try discriminate.
    destruct dr; [discriminate | reflexivity].
Qed.





End SameObject.



(** ** The upload *)

Lemma put_requests_app (t1 t2 : trace) :
  put_requests (t1 ++ t2)%list = (put_requests t1 ++ put_requests t2)%list.
Proof. unfold put_requests. apply flat_map_app. Qed.

Section UploadFacts.

Variable to_datetime : json -> result (option Z).
Variable to_csv : DataFrame -> string.
Variable put_object : string -> string -> string -> option exception.

Let upload := write_csv_to_s3 to_datetime to_csv put_object.

(** C4, amended.  The three tables are sent one after the other: cards,
    protocols, results.  A request that fails raises out of the function:
    the tables after it are not sent, the ones before it stay stored. *)
Theorem upload_stops_at_first_failure
  (json_object : json) (q : QueryDetails) (bucket key access_key : string)
  (tr : trace) (cards protocols results : DataFrame) (json_object' : json)
  (tr' : trace) :
  get_json_data_in_pandas to_datetime json_object tr
  = (Ok (Some cards, Some protocols, Some results), json_object', tr') ->
  let put_cards :=
    (bucket, object_key key (csv_filename "trial_info_cards" q), to_csv cards) in
  let put_protocols :=
    (bucket, object_key key (csv_filename "trial_protocols" q), to_csv protocols) in
  let put_results :=
    (bucket, object_key key (csv_filename "trial_results" q), to_csv results) in
  let answer := fun r : string * string * string =>
    put_object (fst (fst r)) (snd (fst r)) (snd r) in
  let outcome := fst (fst (upload json_object q bucket key access_key tr)) in
  let requests :=
    put_requests (snd (upload json_object q bucket key access_key tr)) in
  (forall e, answer put_cards = Some e ->
     outcome = Raise e /\
     requests = (put_requests tr' ++ [put_cards])%list) /\
  (forall e, answer put_cards = None -> answer put_protocols = Some e ->
     outcome = Raise e /\
     requests = (put_requests tr' ++ [put_cards; put_protocols])%list) /\
  (answer put_cards = None -> answer put_protocols = None ->
     outcome = match answer put_results with
               | Some e => Raise e
               | None => Ok tt
               end /\
     requests = (put_requests tr' ++ [put_cards; put_protocols; put_results])%list).
Proof.
  intros Hn. cbv zeta. unfold upload, write_csv_to_s3. rewrite Hn.
  unfold s3_put_object. cbn [fst snd].
  split; [|split].
  - intros e He. rewrite He. cbn [fst snd]. split; [reflexivity|].
    now rewrite put_requests_app.
  - intros e Hc He. rewrite Hc, He. cbn [fst snd]. split; [reflexivity|].
    rewrite !put_requests_app. cbn. now rewrite app_nil_r, <- !app_assoc.
  - intros Hc Hp. rewrite Hc, Hp.
    destruct (put_object bucket _ (to_csv results)); cbn [fst snd];
      (split; [reflexivity|]);
      rewrite !put_requests_app; cbn;
      rewrite ?app_nil_r, <- ?app_assoc; reflexivity.
Qed.

End UploadFacts.

Lemma upload_stops_at_first_failure_witness :
  get_json_data_in_pandas no_dates (snapshot [truncated_trial]) []
  = (Ok (Some (cards_df truncated_trial_frames),
         Some (protocols_df truncated_trial_frames),
         Some (results_df truncated_trial_frames)),
     snapshot [truncated_trial_after], []) /\
  refuse_all "bucket" (object_key "exports" (csv_filename "trial_info_cards" sample_query))
             (header_csv (cards_df truncated_trial_frames)) = Some ClientError /\
  fst (fst (write_csv_to_s3 no_dates header_csv refuse_all (snapshot [truncated_trial])
              sample_query "bucket" "exports" "secret" []))
  = Raise ClientError /\
  put_requests (snd (write_csv_to_s3 no_dates header_csv refuse_all
                       (snapshot [truncated_trial]) sample_query
                       "bucket" "exports" "secret" []))
  = [("bucket", object_key "exports" (csv_filename "trial_info_cards" sample_query),
      header_csv (cards_df truncated_trial_frames))].
Proof.
  split; [exact normalize_truncated_trial|]. split; [reflexivity|].
  exact (proj1 (upload_stops_at_first_failure no_dates header_csv refuse_all
                  (snapshot [truncated_trial]) sample_query
                  "bucket" "exports" "secret" []
                  (cards_df truncated_trial_frames)
                  (protocols_df truncated_trial_frames)
                  (results_df truncated_trial_frames)
                  (snapshot [truncated_trial_after]) []
                  normalize_truncated_trial)
           ClientError eq_refl).
Defined.

(** C4 as stated fails: when the storage service refuses the cards, the
    function raises after that one request; no request is made for the
    protocols or for the results. *)
Lemma refused_cards_suppress_other_writes :
  let run := write_csv_to_s3 no_dates header_csv refuse_all
               (snapshot [truncated_trial]) sample_query
               "bucket" "exports" "secret" [] in
  fst (fst run) = Raise ClientError /\
  map (fun r => snd (fst r)) (put_requests (snd run))
  = ["exports/trial_info_cards_2020-01-31_2020-01-31_2020-02-01-08-00-00.csv"] /\
  ~ In "exports/trial_protocols_2020-01-31_2020-01-31_2020-02-01-08-00-00.csv"
       (map (fun r => snd (fst r)) (put_requests (snd run))) /\
  ~ In "exports/trial_results_2020-01-31_2020-01-31_2020-02-01-08-00-00.csv"
       (map (fun r => snd (fst r)) (put_requests (snd run))).
Proof.
  vm_compute. repeat split; intros [H|[]]; discriminate.
Qed.

(** ** The day loop of [main] *)

Lemma days_between_empty (s e : Main.date) :
  (s > e)%Z -> days_between s e = [].
Proof.
  intros H. unfold days_between.
  replace (Z.to_nat (e - s + 1)%Z) with 0%nat by lia. reflexivity.
Qed.

Lemma days_between_cons (s e : Main.date) :
  (s <= e)%Z -> days_between s e = s :: days_between (s + 1)%Z e.
Proof.
  intros H. unfold days_between, days_from.
  replace (Z.to_nat (e - s + 1)%Z) with (S (Z.to_nat (e - (s + 1) + 1)%Z)) by lia.
  cbn [seq map]. f_equal; [lia|].
  rewrite <- seq_shift, map_map. apply map_ext. intros i. lia.
Qed.

Lemma days_between_length (s e : Main.date) :
  List.length (days_between s e) = Z.to_nat ((e - s + 1)%Z).
Proof. unfold days_between, days_from. now rewrite length_map, length_seq. Qed.

Lemma days_between_in (s e d : Main.date) :
  In d (days_between s e) <-> (s <= d <= e)%Z.
Proof.
  unfold days_between, days_from. rewrite in_map_iff. split.
  - intros (i & <- & Hi). apply in_seq in Hi. lia.
  - intros H. exists (Z.to_nat (d - s)). split; [lia|]. apply in_seq. lia.
Qed.

Lemma days_between_nodup (s e : Main.date) : NoDup (days_between s e).
Proof.
  unfold days_between, days_from.
  apply Injective_map_NoDup; [|apply seq_NoDup].
  intros i j H. lia.
Qed.

Section ProgramFacts.
Import Main.

Variable strftime : date -> string.
Variable isoformat : date -> string.
Variable strptime : string -> option date.
Variable now : nat -> string.
Variable scrape_trials : date -> date -> World -> result ScrapeResults.
Variable write_csv_to_disk : json -> QueryDetails -> World -> result unit.

Let one_day :=
  scrape_one_day strftime isoformat now scrape_trials write_csv_to_disk.
Let loop := day_loop strftime isoformat now scrape_trials write_csv_to_disk.

Let scrapes_return := scrapes_return scrape_trials.
Let writes_return := writes_return write_csv_to_disk.
Let complete :=
  turns_return strftime isoformat now scrape_trials write_csv_to_disk.

Lemma scrapes_app (l1 l2 : list effect) :
  scrapes (l1 ++ l2)%list = (scrapes l1 ++ scrapes l2)%list.
Proof. unfold scrapes. apply flat_map_app. Qed.

Lemma snapshots_app (l1 l2 : list effect) :
  snapshots (l1 ++ l2)%list = (snapshots l1 ++ snapshots l2)%list.
Proof. unfold snapshots. apply flat_map_app. Qed.

(** One turn of the loop: one scrape of that day alone, and, when the turn
    completes, one snapshot with that day's dates handed to the write. *)
Lemma one_day_effects (d : date) (w : World) (out : result unit) (w' : World) :
  one_day d w = (out, w') ->
  scrapes (effects w') = (scrapes (effects w) ++ [(d, d)])%list /\
  (out = Ok tt ->
   map dates_of (snapshots (effects w'))
   = (map dates_of (snapshots (effects w)) ++ [dated strftime d])%list).
Proof.
  unfold one_day, dated, scrape_one_day, scrape_by_date_range, read_clock, emit.
  cbn [effects clock_reads].
  destruct (scrape_trials d d _) as [r|e].
  - destruct (write_csv_to_disk _ _ _) as [u|e]; intros H; injection H as <- <-;
      cbn [effects]; rewrite !scrapes_app, !snapshots_app, ?map_app; cbn;
      rewrite ?app_nil_r; (split; [reflexivity|]); [reflexivity | discriminate].
  - intros H; injection H as <- <-.
    cbn [effects]; rewrite !scrapes_app; cbn; rewrite ?app_nil_r.
    split; [reflexivity | discriminate].
Qed.

Lemma one_day_returns (d : date) (w : World) :
  (forall w0, is_ok (scrape_trials d d w0) = true) ->
  writes_return ->
  fst (one_day d w) = Ok tt.
Proof.
  intros Hok Hw. unfold one_day, scrape_one_day, scrape_by_date_range, read_clock.
  specialize (Hok (emit (Logged ("Scraping data for " ++ isoformat d)) w)).
  destruct (scrape_trials d d _) as [r|e]; [|discriminate].
  match goal with
  | |- context [write_csv_to_disk ?o ?q ?w0] =>
      specialize (Hw o q w0); destruct (write_csv_to_disk o q w0) as [[]|e]
  end; [reflexivity | discriminate].
Qed.

Lemma turns_return_intro (start_date end_date : date) :
  scrapes_return start_date end_date ->
  writes_return ->
  complete start_date end_date.
Proof.
  intros Hs Hw d w Hd. apply one_day_returns; [|exact Hw].
  intros w0. now apply Hs.
Qed.

(** One step of the loop. *)
Lemma loop_unfold (current_date end_date : date) (w : World) :
  loop current_date end_date w
  = if Z_le_gt_dec current_date end_date then
      match one_day current_date w with
      | (Raise e, w') => (Raise e, w')
      | (Ok _, w') =>
          if Z_le_gt_dec (current_date + 1)%Z date_max
          then loop (current_date + 1)%Z end_date w'
          else (Raise OverflowError, w')
      end
    else (Ok tt, w).
Proof.
  unfold loop, one_day. simp day_loop.
  destruct (Z_le_gt_dec current_date end_date) as [Hl|Hg]; cbn; [|reflexivity].
  destruct (scrape_one_day strftime isoformat now scrape_trials
              write_csv_to_disk current_date w) as [[u|e] w']; cbn;
    [|reflexivity].
  destruct (Z_le_gt_dec (current_date + 1)%Z date_max); reflexivity.
Qed.

Lemma loop_runs (current_date end_date : date) (w : World) :
  (end_date <= date_max)%Z ->
  complete current_date end_date ->
  scrapes (effects (snd (loop current_date end_date w)))
  = (scrapes (effects w)
     ++ map (fun d => (d, d)) (days_between current_date end_date))%list /\
  map dates_of (snapshots (effects (snd (loop current_date end_date w))))
  = (map dates_of (snapshots (effects w))
     ++ map (dated strftime) (days_between current_date end_date))%list /\
  fst (loop current_date end_date w)
  = if ((current_date <=? end_date) && (end_date =? date_max))%Z
    then Raise OverflowError else Ok tt.
Proof.
  intros Hmax.
  remember (Z.to_nat (end_date + 1 - current_date)) as n eqn:Hn.
  revert current_date w Hn.
  induction n as [|n IH]; intros current_date w Hn Hok; rewrite loop_unfold.
  - destruct (Z_le_gt_dec current_date end_date) as [Hl|Hg]; [lia|].
    cbn [fst snd]. rewrite days_between_empty by lia. cbn [map].
    rewrite !app_nil_r. repeat split.
    destruct (Z.leb_spec current_date end_date); [lia | reflexivity].
  - destruct (Z_le_gt_dec current_date end_date) as [Hl|Hg]; [|lia].
    pose proof (Hok current_date w ltac:(lia)) as Hret.
    unfold complete, turns_return in Hret. fold one_day in Hret.
    destruct (one_day current_date w) as [out w'] eqn:Hday.
    cbn [fst] in Hret. subst out.
    destruct (one_day_effects _ _ _ _ Hday) as [Hs1 Hd1].
    specialize (Hd1 eq_refl).
    rewrite (days_between_cons current_date end_date) by lia. cbn [map].
    destruct (Z.leb_spec current_date end_date); [|lia]. cbn [andb].
    destruct (Z_le_gt_dec (current_date + 1)%Z date_max) as [Hl1|Hg1].
    + destruct (IH (current_date + 1)%Z w' ltac:(lia)) as (Hs & Hd & Ho).
      { intros d w0 Hd. apply Hok. lia. }
      rewrite Hs, Hd, Ho, Hs1, Hd1. rewrite <- !app_assoc. cbn [app].
      repeat split.
      destruct (Z.leb_spec (current_date + 1)%Z end_date);
        destruct (Z.eqb_spec end_date date_max); try reflexivity; lia.
    + assert (end_date = current_date) by lia. subst end_date.
      cbn [fst snd]. rewrite Hs1, Hd1, days_between_empty by lia. cbn [map].
      repeat split.
      destruct (Z.eqb_spec current_date date_max); [reflexivity | lia].
Qed.

(** A turn that raises ends the run: the days after it are not scraped. *)
Lemma loop_stops_at_failure (current_date end_date : date) (w : World)
  (e : exception) (w' : World) :
  (current_date <= end_date)%Z ->
  one_day current_date w = (Raise e, w') ->
  loop current_date end_date w = (Raise e, w') /\
  scrapes (effects w') = (scrapes (effects w) ++ [(current_date, current_date)])%list.
Proof.
  intros Hle Hday. destruct (one_day_effects _ _ _ _ Hday) as [Hs _].
  split; [|assumption].
  unfold loop, one_day in *. simp day_loop.
  destruct (Z_le_gt_dec current_date end_date) as [Hl|Hg]; [|lia].
  cbn. rewrite Hday. reflexivity.
Qed.

Lemma utils_lacks_the_write :
  existsb (String.eqb "write_csv_to_disk") utils_namespace = false.
Proof. reflexivity. Qed.

(** C10.  The program as given makes none of the single-day runs: the
    import of line 5 asks [app/utils.py] for [write_csv_to_disk], which
    that module does not define, so the script ends with [ImportError]
    before [main] is entered.  For every validated range it therefore
    scrapes no day, where the range has [end_date - start_date + 1] of
    them, and hands no snapshot to a write. *)
Theorem program_stops_at_the_import
  (start_date_arg end_date_arg : string) (start_date end_date : date) (w : World) :
  validate_dates strptime start_date_arg end_date_arg = Ok (start_date, end_date) ->
  let out := script strftime isoformat strptime now scrape_trials
               write_csv_to_disk start_date_arg end_date_arg w in
  fst out = Raise (ImportError "write_csv_to_disk") /\
  snd out = w /\
  (0 < Z.to_nat (end_date - start_date + 1))%nat /\
  List.length (scrapes (effects (snd out)))
  <> (List.length (scrapes (effects w))
      + Z.to_nat (end_date - start_date + 1))%nat /\
  snapshots (effects (snd out)) = snapshots (effects w).
Proof.
  intros Hv. cbv zeta.
  assert (Hle : (start_date <= end_date)%Z).
  { unfold validate_dates in Hv.
    destruct (strptime start_date_arg) as [s|]; [|discriminate].
    destruct (strptime end_date_arg) as [e|]; [|discriminate].
    destruct (Z.gtb_spec s e) as [Hgt|Hle]; [discriminate|].
    injection Hv as <- <-. exact Hle. }
  assert (Hs : script strftime isoformat strptime now scrape_trials
                 write_csv_to_disk start_date_arg end_date_arg w
               = (Raise (ImportError "write_csv_to_disk"), w)).
  { unfold script. cbn [from_import]. rewrite utils_lacks_the_write.
    reflexivity. }
  rewrite Hs. cbn [fst snd].
  split; [reflexivity|]. split; [reflexivity|]. split; [lia|].
  split; [lia | reflexivity].
Qed.

End ProgramFacts.

Lemma program_stops_at_the_import_witness :
  Main.validate_dates sample_strptime "2020-01-01" "2020-01-03"
  = Ok (737425%Z, 737427%Z) /\
  fst (Main.script sample_strftime sample_strftime sample_strptime sample_now
         sample_scrape_trials sample_write "2020-01-01" "2020-01-03"
         initial_world)
  = Raise (Main.ImportError "write_csv_to_disk") /\
  snd (Main.script sample_strftime sample_strftime sample_strptime sample_now
         sample_scrape_trials sample_write "2020-01-01" "2020-01-03"
         initial_world)
  = initial_world.
Proof.
  split; [reflexivity|].
  destruct (program_stops_at_the_import sample_strftime sample_strftime
              sample_strptime sample_now sample_scrape_trials sample_write
              "2020-01-01" "2020-01-03" 737425%Z 737427%Z initial_world eq_refl)
    as (H1 & H2 & _).
  split; [exact H1 | exact H2].
Defined.

(* ===================================================================== *)
(** * Further properties                                                  *)
(* ===================================================================== *)

(** ** The extractor on empty and on concatenated documents *)

Lemma all_text_app (ps1 ps2 : list Page) :
  all_text (ps1 ++ ps2)%list = all_text ps1 ++ all_text ps2.
Proof.
  unfold all_text. induction ps1 as [|p ps1 IH]; [reflexivity|].
  cbn [app map]. rewrite !concat_empty_cons, IH, string_app_assoc. reflexivity.
Qed.

Lemma all_tables_app (ps1 ps2 : list Page) :
  all_tables (ps1 ++ ps2)%list = (all_tables ps1 ++ all_tables ps2)%list.
Proof. unfold all_tables. now rewrite map_app, concat_app. Qed.

Lemma empty_pages_yield_nothing (pages : list Page) :
  forallb page_is_empty pages = true ->
  all_text pages = EmptyString /\ all_tables pages = [].
Proof.
  induction pages as [|p pages IH]; [split; reflexivity|].
  cbn [forallb]. intros H. apply andb_true_iff in H as [Hp Hps].
  destruct (IH Hps) as [Ht Hb].
  unfold all_text, all_tables in *. cbn [map List.concat].
  rewrite concat_empty_cons, Ht, Hb.
  unfold page_is_empty in Hp. apply andb_true_iff in Hp as [Hx Hy].
  apply negb_true_iff in Hx. unfold page_line, text_truthy in *.
  destruct (extract_tables p); [|discriminate].
  destruct (extract_text p) as [s|]; [|split; reflexivity].
  destruct (String.eqb s EmptyString); [split; reflexivity | discriminate].
Qed.

Section ExtractorMore.

Variable ZipFile : bytes -> result ZipRef.
Variable pdfplumber_open : bytes -> result (list Page).

Let extract := extract_text_and_tables_from_pdf ZipFile pdfplumber_open.

(** X1.  A document without extractable content, be it without pages or
    with pages that yield neither text nor table, gives the empty string
    and the empty list; nothing is raised. *)
Theorem extract_nothing_from_empty_document (zip_bytes : bytes) (pages : list Page) :
  document_pages ZipFile pdfplumber_open zip_bytes pages ->
  forallb page_is_empty pages = true ->
  extract zip_bytes = Ok (EmptyString, []).
Proof.
  intros Hdoc Hempty. unfold extract.
  rewrite (extract_pages ZipFile pdfplumber_open zip_bytes pages Hdoc).
  destruct (empty_pages_yield_nothing pages Hempty) as [-> ->]. reflexivity.
Qed.

(** X2.  Extraction goes page by page and keeps nothing between pages: the
    document whose pages are those of a first document followed by those of
    a second gives the first text followed by the second, and the first
    tables followed by the second. *)
Theorem extract_of_concatenated_documents
  (bytes1 bytes2 bytes12 : bytes) (pages1 pages2 : list Page) :
  document_pages ZipFile pdfplumber_open bytes1 pages1 ->
  document_pages ZipFile pdfplumber_open bytes2 pages2 ->
  document_pages ZipFile pdfplumber_open bytes12 (pages1 ++ pages2)%list ->
  exists text1 tables1 text2 tables2,
    extract bytes1 = Ok (text1, tables1) /\
    extract bytes2 = Ok (text2, tables2) /\
    extract bytes12 = Ok (text1 ++ text2, (tables1 ++ tables2)%list).
Proof.
  intros H1 H2 H12. unfold extract.
  rewrite (extract_pages _ _ _ _ H1), (extract_pages _ _ _ _ H2),
    (extract_pages _ _ _ _ H12), all_text_app, all_tables_app.
  do 4 eexists. repeat split.
Qed.

End ExtractorMore.

Lemma sample_document_pages (b : bytes) (pages : list Page) :
  sample_pdfplumber_open b = Ok pages ->
  document_pages sample_ZipFile sample_pdfplumber_open b pages.
Proof.
  intros H. exists (mkZipRef ["protocol.pdf"] (fun _ => Ok b)), "protocol.pdf", [], b.
  repeat split. exact H.
Defined.

Lemma extract_nothing_from_empty_document_witness :
  document_pages sample_ZipFile sample_pdfplumber_open [] [blank_page; blank_page] /\
  forallb page_is_empty [blank_page; blank_page] = true /\
  extract_text_and_tables_from_pdf sample_ZipFile sample_pdfplumber_open []
  = Ok (EmptyString, []).
Proof.
  assert (Hd : document_pages sample_ZipFile sample_pdfplumber_open []
                 [blank_page; blank_page])
    by (apply sample_document_pages; reflexivity).
  split; [exact Hd|]. split; [reflexivity|].
  exact (extract_nothing_from_empty_document sample_ZipFile sample_pdfplumber_open
           [] [blank_page; blank_page] Hd eq_refl).
Defined.

Lemma extract_of_concatenated_documents_witness :
  document_pages sample_ZipFile sample_pdfplumber_open one_byte [ruled_page] /\
  document_pages sample_ZipFile sample_pdfplumber_open two_bytes [text_page] /\
  document_pages sample_ZipFile sample_pdfplumber_open three_bytes
    ([ruled_page] ++ [text_page])%list /\
  exists text1 tables1 text2 tables2,
    extract_text_and_tables_from_pdf sample_ZipFile sample_pdfplumber_open one_byte
    = Ok (text1, tables1) /\
    extract_text_and_tables_from_pdf sample_ZipFile sample_pdfplumber_open two_bytes
    = Ok (text2, tables2) /\
    extract_text_and_tables_from_pdf sample_ZipFile sample_pdfplumber_open three_bytes
    = Ok (text1 ++ text2, (tables1 ++ tables2)%list).
Proof.
  assert (H1 : document_pages sample_ZipFile sample_pdfplumber_open one_byte
                 [ruled_page])
    by (apply sample_document_pages; reflexivity).
  assert (H2 : document_pages sample_ZipFile sample_pdfplumber_open two_bytes
                 [text_page])
    by (apply sample_document_pages; reflexivity).
  assert (H12 : document_pages sample_ZipFile sample_pdfplumber_open three_bytes
                  ([ruled_page] ++ [text_page])%list)
    by (apply sample_document_pages; reflexivity).
  split; [exact H1|]. split; [exact H2|]. split; [exact H12|].
  exact (extract_of_concatenated_documents sample_ZipFile sample_pdfplumber_open
           one_byte two_bytes three_bytes [ruled_page] [text_page] H1 H2 H12).
Defined.

(** ** Protocol identifiers: what they are made of *)

Lemma no_slash_app (a b : string) :
  no_slash (a ++ b) = no_slash a && no_slash b.
Proof.
  induction a as [|c a IH]; simpl; [reflexivity|].
  rewrite IH. now rewrite andb_assoc.
Qed.

Lemma str_split_segments (s : string) :
  Forall (fun x => no_slash x = true) (str_split "/" s).
Proof.
  induction s as [|c s IH]; simpl.
  - repeat constructor.
  - destruct (Ascii.eqb c "/") eqn:E.
    + constructor; [reflexivity | exact IH].
    + destruct (str_split "/" s) as [|x xs].
      * repeat constructor. simpl. now rewrite E.
      * inversion IH; subst. constructor; [|assumption].
        simpl. rewrite E. assumption.
Qed.

Lemma Forall_last_two {A : Type} (P : A -> Prop) (l : list A) :
  Forall P l -> Forall P (last_two l).
Proof.
  intros H. unfold last_two. apply Forall_forall. intros x Hx.
  rewrite Forall_forall in H. apply H.
  rewrite <- (firstn_skipn (List.length l - 2) l). apply in_or_app. now right.
Qed.

Lemma join_segments (l : list string) :
  Forall (fun x => no_slash x = true) l -> no_slash (join "-" l) = true.
Proof.
  unfold join. induction l as [|x l IH]; intros H; [reflexivity|].
  inversion H as [|? ? Hx Hl]; subst.
  destruct l as [|y l]; [exact Hx|].
  change (String.concat "-" (x :: y :: l))
    with (x ++ "-" ++ String.concat "-" (y :: l)).
  rewrite !no_slash_app, Hx, (IH Hl). reflexivity.
Qed.

Lemma protocol_id_of_url_no_slash (url : string) :
  no_slash (protocol_id_of_url url) = true.
Proof.
  unfold protocol_id_of_url.
  apply join_segments, Forall_last_two, str_split_segments.
Qed.

(** X3.  A protocol row is made for a protocol whose [url] is a string, and
    then its identifier never holds a [/], whatever the URL: it is made of
    segments of the URL and a hyphen. *)
Theorem protocol_id_has_no_slash (eudract_number protocol : json)
  (row : list object) :
  protocol_row eudract_number protocol = Ok row ->
  exists url,
    getitem protocol "url" = Ok (JStr url) /\
    row = [str (protocol_id_of_url url); Json eudract_number; Json (JStr url);
           str (dumps protocol)] /\
    no_slash (protocol_id_of_url url) = true.
Proof.
  unfold protocol_row. intros H.
  apply bind_ok in H as (u & Hu & H).
  apply bind_ok in H as (segs & Hs & H).
  apply bind_ok in H as (u' & Hu' & H).
  rewrite Hu in Hu'. injection Hu' as <-.
  destruct u as [| | |url| |]; try discriminate.
  injection Hs as <-. injection H as <-.
  exists url. repeat split; [exact Hu | apply protocol_id_of_url_no_slash].
Qed.

Lemma protocol_id_has_no_slash_witness :
  protocol_row (JStr "EU-CT-001")
               (sample_protocol url_DE "Study of X in adult patients")
  = Ok [str "EU-CT-001-DE"; str "EU-CT-001"; str url_DE;
        str (dumps (sample_protocol url_DE "Study of X in adult patients"))] /\
  exists url,
    getitem (sample_protocol url_DE "Study of X in adult patients") "url"
    = Ok (JStr url) /\
    [str "EU-CT-001-DE"; str "EU-CT-001"; str url_DE;
     str (dumps (sample_protocol url_DE "Study of X in adult patients"))]
    = [str (protocol_id_of_url url); Json (JStr "EU-CT-001"); Json (JStr url);
       str (dumps (sample_protocol url_DE "Study of X in adult patients"))] /\
    no_slash (protocol_id_of_url url) = true.
Proof.
  split; [reflexivity|].
  exact (protocol_id_has_no_slash (JStr "EU-CT-001")
           (sample_protocol url_DE "Study of X in adult patients") _ eq_refl).
Defined.

(** X4.  URLs with fewer than three segments: a URL without [/] is its own
    identifier, a URL [a/b] has the identifier [a-b], and a URL that ends
    with [/] has an identifier that ends with the hyphen. *)
Theorem protocol_id_of_short_url (a b : string) :
  no_slash a = true ->
  no_slash b = true ->
  protocol_id_of_url a = a /\
  protocol_id_of_url (a ++ "/" ++ b) = a ++ "-" ++ b /\
  protocol_id_of_url (a ++ "/" ++ b ++ "/") = b ++ "-".
Proof.
  intros Ha Hb. unfold protocol_id_of_url. split; [|split].
  - now rewrite (str_split_segment a Ha).
  - change (a ++ "/" ++ b) with (a ++ String "/" b).
    now rewrite str_split_app, (str_split_segment a Ha), (str_split_segment b Hb).
  - change (a ++ "/" ++ b ++ "/") with (a ++ String "/" (b ++ String "/" EmptyString)).
    now rewrite !str_split_app, (str_split_segment a Ha), (str_split_segment b Hb).
Qed.

Lemma protocol_id_of_short_url_witness :
  no_slash "EU-CT-001" = true /\ no_slash "DE" = true /\
  protocol_id_of_url "EU-CT-001" = "EU-CT-001" /\
  protocol_id_of_url "EU-CT-001/DE" = "EU-CT-001-DE" /\
  protocol_id_of_url "EU-CT-001/DE/" = "DE-".
Proof.
  split; [reflexivity|]. split; [reflexivity|].
  exact (protocol_id_of_short_url "EU-CT-001" "DE" eq_refl eq_refl).
Defined.

(** ** File names and object keys *)

Lemma string_length_app (a b : string) :
  String.length (a ++ b) = (String.length a + String.length b)%nat.
Proof. induction a; simpl; congruence. Qed.

Lemma string_app_inv_tail (a b c : string) : a ++ c = b ++ c -> a = b.
Proof.
  revert b. induction a as [|x a IH]; intros [|y b] H; simpl in H.
  - reflexivity.
  - apply (f_equal String.length) in H. simpl in H.
    rewrite string_length_app in H. lia.
  - apply (f_equal String.length) in H. simpl in H.
    rewrite string_length_app in H. lia.
  - injection H as -> H. f_equal. now apply IH.
Qed.

(** Two strings cut at an underscore that neither has before the cut. *)
Lemma underscore_cut (a a' b b' : string) :
  lacks "_" a = true -> lacks "_" a' = true ->
  a ++ String "_" b = a' ++ String "_" b' ->
  a = a' /\ b = b'.
Proof.
  revert a'. induction a as [|x a IH]; intros [|y a'] Ha Ha' H; simpl in *.
  - injection H as ->. split; reflexivity.
  - injection H as <- _. rewrite Ascii.eqb_refl in Ha'. discriminate.
  - injection H as -> _. rewrite Ascii.eqb_refl in Ha. discriminate.
  - injection H as -> H.
    apply andb_true_iff in Ha as [_ Ha]. apply andb_true_iff in Ha' as [_ Ha'].
    destruct (IH a' Ha Ha' H) as [-> ->]. split; reflexivity.
Qed.

Lemma dated_name_injective (q q' : QueryDetails) (ext : string) :
  dates_lack_underscore q = true ->
  dates_lack_underscore q' = true ->
  start_date q ++ "_" ++ end_date q ++ "_" ++ run_date q ++ ext
  = start_date q' ++ "_" ++ end_date q' ++ "_" ++ run_date q' ++ ext ->
  q = q'.
Proof.
  unfold dates_lack_underscore. intros Hq Hq' H.
  apply andb_true_iff in Hq as [Hs He]. apply andb_true_iff in Hq' as [Hs' He'].
  destruct q as [s e r], q' as [s' e' r']. cbn [start_date end_date run_date] in *.
  change (s ++ String "_" (e ++ String "_" (r ++ ext))
          = s' ++ String "_" (e' ++ String "_" (r' ++ ext))) in H.
  apply underscore_cut in H as [-> H]; try assumption.
  apply underscore_cut in H as [-> H]; try assumption.
  apply string_app_inv_tail in H. now subst.
Qed.

(** X5.  The three exports of one upload go to three different object
    keys, whatever the prefix and the query details: no table of a run
    overwrites another. *)
Theorem export_keys_are_distinct (key : string) (q : QueryDetails) :
  NoDup (export_keys key q).
Proof.
  unfold export_keys, object_key, csv_filename.
  repeat constructor; simpl; intros H;
    repeat (destruct H as [H|H]; [apply string_app_inv_head in H; discriminate|]);
    exact H.
Qed.

(** X6.  When the dates of the query details hold no underscore, the name
    of an export determines the details: two uploads of the same table under
    the same prefix go to the same key only if their start date, end date
    and run date are all the same. *)
Theorem export_key_determines_details (key table : string) (q q' : QueryDetails) :
  dates_lack_underscore q = true ->
  dates_lack_underscore q' = true ->
  object_key key (csv_filename table q) = object_key key (csv_filename table q') ->
  q = q'.
Proof.
  intros Hq Hq'. unfold object_key, csv_filename. intros H.
  apply string_app_inv_head in H. apply (string_app_inv_head "/") in H.
  apply string_app_inv_head in H. apply (string_app_inv_head "_") in H.
  exact (dated_name_injective q q' ".csv" Hq Hq' H).
Qed.

Lemma export_key_determines_details_witness :
  dates_lack_underscore sample_query = true /\
  dates_lack_underscore next_day_query = true /\
  (object_key "exports" (csv_filename "trial_results" sample_query)
   = object_key "exports" (csv_filename "trial_results" next_day_query) ->
   sample_query = next_day_query).
Proof.
  split; [reflexivity|]. split; [reflexivity|].
  exact (export_key_determines_details "exports" "trial_results"
           sample_query next_day_query eq_refl eq_refl).
Defined.

Lemma path_join_injective (directory name name' : string) :
  starts_with_slash name = false ->
  starts_with_slash name' = false ->
  path_join directory name = path_join directory name' ->
  name = name'.
Proof.
  unfold path_join. intros -> ->.
  destruct (String.eqb directory EmptyString); [auto|].
  destruct (ends_with_slash directory); intros H.
  - now apply string_app_inv_head in H.
  - apply string_app_inv_head in H. now apply (string_app_inv_head "/") in H.
Qed.

Lemma json_filename_relative (q : QueryDetails) :
  starts_with_slash (start_date q) = false ->
  starts_with_slash (json_filename q) = false.
Proof.
  unfold json_filename. destruct (start_date q); simpl; [reflexivity | auto].
Qed.

Lemma no_slash_relative (s : string) :
  no_slash s = true -> starts_with_slash s = false.
Proof.
  destruct s as [|c s]; [reflexivity|]. cbn [no_slash starts_with_slash].
  destruct (Ascii.eqb c "/"); [discriminate | reflexivity].
Qed.

Section SnapshotFacts.

Variable makedirs : string -> option exception.
Variable write_text : string -> string -> option exception.

Let write := write_json_to_disk makedirs write_text.

(** X7.  Two snapshots written one after the other go to the same path
    only if their query details are the same; each path is the data
    directory followed by a name of one component.  When both calls return,
    each has made the directory, written the serialized object to its path
    and then logged the success line with its name; a call that raises has
    not logged it. *)
Theorem snapshots_go_to_their_own_paths (data_directory : string)
  (j1 j2 : json) (q1 q2 : QueryDetails) (tr : list disk_event) :
  plain_details q1 = true ->
  plain_details q2 = true ->
  let p1 := path_join data_directory (json_filename q1) in
  let p2 := path_join data_directory (json_filename q2) in
  let run1 := write data_directory j1 q1 tr in
  let run2 := write data_directory j2 q2 (snd run1) in
  (p1 = p2 <-> q1 = q2) /\
  no_slash (json_filename q1) = true /\
  (fst run1 = Ok tt -> fst run2 = Ok tt ->
   snd run2
   = (tr ++ [MakeDirs data_directory; WriteFile p1 (dumps j1);
             DiskInfo ("Successfully wrote JSON to disk: " ++ json_filename q1);
             MakeDirs data_directory; WriteFile p2 (dumps j2);
             DiskInfo ("Successfully wrote JSON to disk: "
                       ++ json_filename q2)])%list) /\
  (forall e, fst run1 = Raise e ->
     snd run1 = (tr ++ [MakeDirs data_directory])%list \/
     snd run1 = (tr ++ [MakeDirs data_directory; WriteFile p1 (dumps j1)])%list).
Proof.
  unfold plain_details. intros H1 H2. cbv zeta.
  apply andb_true_iff in H1 as [H1 Hr1]. apply andb_true_iff in H1 as [H1 He1].
  apply andb_true_iff in H1 as [Hd1 Hs1].
  apply andb_true_iff in H2 as [H2 Hr2]. apply andb_true_iff in H2 as [H2 He2].
  apply andb_true_iff in H2 as [Hd2 Hs2].
  split; [|split; [|split]].
  - split; [|now intros ->].
    intros Heq. apply path_join_injective in Heq;
      try (apply json_filename_relative; now apply no_slash_relative).
    exact (dated_name_injective q1 q2 ".json" Hd1 Hd2 Heq).
  - unfold json_filename. rewrite !no_slash_app, Hs1, He1, Hr1. reflexivity.
  - unfold write, write_json_to_disk.
    destruct (makedirs data_directory); [discriminate|].
    destruct (write_text _ (dumps j1)); [discriminate|]. cbn [fst snd].
    destruct (write_text _ (dumps j2)); [discriminate|]. cbn [fst snd].
    intros _ _. rewrite <- !app_assoc. reflexivity.
  - intros e. unfold write, write_json_to_disk.
    destruct (makedirs data_directory); [left; reflexivity|].
    destruct (write_text _ (dumps j1)); cbn [fst snd]; [|discriminate].
    intros _. right. rewrite <- app_assoc. reflexivity.
Qed.

End SnapshotFacts.

Lemma snapshots_go_to_their_own_paths_witness :
  plain_details sample_query = true /\
  plain_details next_day_query = true /\
  (path_join "app/../data" (json_filename sample_query)
   = path_join "app/../data" (json_filename next_day_query)
   <-> sample_query = next_day_query) /\
  no_slash (json_filename sample_query) = true.
Proof.
  split; [reflexivity|]. split; [reflexivity|].
  destruct (snapshots_go_to_their_own_paths accepting_makedirs accepting_write
              "app/../data" (snapshot []) (snapshot [truncated_trial])
              sample_query next_day_query [] eq_refl eq_refl)
    as (Hp & Hn & _).
  split; [exact Hp | exact Hn].
Defined.

(** ** The log of the normalizer, and what an upload sends *)

Section LogFacts.

Variable to_datetime : json -> result (option Z).

Lemma for_each_result_log (l : list json) (f : Frames) (lg : trace) :
  exists msgs,
    snd (for_each_result to_datetime f l lg) = (lg ++ map LogInfo msgs)%list.
Proof.
  revert f lg. induction l as [|r l IH]; intros f lg; simpl.
  - exists []. simpl. now rewrite app_nil_r.
  - destruct (negb (truthy r)).
    + destruct (IH f lg) as [msgs Hm].
      destruct (for_each_result to_datetime f l lg) as [[o rest'] lg'].
      exists msgs. exact Hm.
    + rewrite process_result_contribution.
      destruct (contribution to_datetime r) as [[c|e] r'].
      * destruct (IH (add_contribution f c) (lg ++ contribution_log f c)%list)
          as [msgs Hm].
        cbn [log trial].
        destruct (for_each_result to_datetime (add_contribution f c) l _)
          as [[o rest'] lg'].
        cbn [snd] in *. subst lg'. unfold contribution_log.
        destruct (result_part c).
        -- exists (shapes_message (add_contribution f c) :: msgs).
           now rewrite <- app_assoc.
        -- exists msgs. now rewrite app_nil_r.
      * exists []. simpl. now rewrite app_nil_r.
Qed.

Lemma normalizer_log (json_data : json) (lg : trace) :
  exists msgs,
    snd (get_json_data_in_pandas to_datetime json_data lg)
    = (lg ++ map LogInfo msgs)%list.
Proof.
  unfold get_json_data_in_pandas.
  assert (Hnil : lg = (lg ++ map LogInfo [])%list) by (simpl; now rewrite app_nil_r).
  destruct (getitem json_data "successes") as [s|e]; [|exists []; exact Hnil].
  destruct (negb (truthy s)); [exists []; exact Hnil|].
  destruct (n <- len s ;; Ok (n <? 1)%nat) as [[|]|e]; try (exists []; exact Hnil).
  destruct (iter s) as [items|e]; [|exists []; exact Hnil].
  destruct (for_each_result_log items empty_frames lg) as [msgs Hm].
  destruct (for_each_result to_datetime empty_frames items lg) as [[o items'] lg'].
  exists msgs. exact Hm.
Qed.

Lemma put_requests_info (msgs : list string) : put_requests (map LogInfo msgs) = [].
Proof. induction msgs; simpl; auto. Qed.

Lemma normalizer_sends_nothing (json_data : json) (lg : trace) :
  put_requests (snd (get_json_data_in_pandas to_datetime json_data lg))
  = put_requests lg.
Proof.
  destruct (normalizer_log json_data lg) as [msgs ->].
  now rewrite put_requests_app, put_requests_info, app_nil_r.
Qed.

(** X8.  Whether it returns or raises, the normalizer adds info records to
    the log and nothing else: what was logged before stays, in order, and
    neither a warning nor a storage request is added. *)
Theorem normalizer_logs_info_only (json_data : json) (lg : trace) :
  exists msgs,
    snd (get_json_data_in_pandas to_datetime json_data lg)
    = (lg ++ map LogInfo msgs)%list /\
    put_requests (snd (get_json_data_in_pandas to_datetime json_data lg))
    = put_requests lg.
Proof.
  destruct (normalizer_log json_data lg) as [msgs Hm].
  exists msgs. split; [exact Hm | apply normalizer_sends_nothing].
Qed.

Variable to_csv : DataFrame -> string.
Variable put_object : string -> string -> string -> option exception.

Let upload := write_csv_to_s3 to_datetime to_csv put_object.

(** X9.  Whatever the input and the answers of the storage service, an
    upload sends at most three requests, all to the given bucket: the first
    keys, in the order cards, protocols, results, of the three export
    keys. *)
Theorem upload_sends_a_prefix_of_the_exports
  (json_object : json) (q : QueryDetails) (bucket key access_key : string)
  (tr : trace) :
  let tr' := snd (upload json_object q bucket key access_key tr) in
  exists n sent,
    put_requests tr' = (put_requests tr ++ sent)%list /\
    map (fun r => snd (fst r)) sent = firstn n (export_keys key q) /\
    Forall (fun r => fst (fst r) = bucket) sent.
Proof.
  cbv zeta. unfold upload, write_csv_to_s3.
  pose proof (normalizer_sends_nothing json_object tr) as Hn.
  destruct (get_json_data_in_pandas to_datetime json_object tr)
    as [[o js'] tr0]. cbn [snd] in Hn.
  assert (Hnone : exists n sent,
             put_requests tr0 = (put_requests tr ++ sent)%list /\
             map (fun r => snd (fst r)) sent = firstn n (export_keys key q) /\
             Forall (fun r => fst (fst r) = bucket) sent).
  { exists 0%nat, []. rewrite app_nil_r. repeat split; [exact Hn | constructor]. }
  assert (Hwarn : forall msg, exists n sent,
             put_requests (tr0 ++ [LogWarning msg])%list
             = (put_requests tr ++ sent)%list /\
             map (fun r => snd (fst r)) sent = firstn n (export_keys key q) /\
             Forall (fun r => fst (fst r) = bucket) sent).
  { intros msg. exists 0%nat, []. rewrite put_requests_app, !app_nil_r.
    repeat split; [exact Hn | constructor]. }
  destruct o as [[[[c|] [p|]] [r|]]|e]; cbn [snd]; try apply Hwarn; try exact Hnone.
  unfold s3_put_object.
  destruct (put_object bucket _ (to_csv c)); cbn [fst snd].
  { exists 1%nat, [(bucket, object_key key (csv_filename "trial_info_cards" q), to_csv c)].
    rewrite put_requests_app, Hn. repeat split. repeat constructor. }
  destruct (put_object bucket _ (to_csv p)); cbn [fst snd].
  { exists 2%nat, [(bucket, object_key key (csv_filename "trial_info_cards" q), to_csv c);
                   (bucket, object_key key (csv_filename "trial_protocols" q), to_csv p)].
    rewrite !put_requests_app, Hn. cbn. rewrite <- !app_assoc.
    repeat split. repeat constructor. }
  exists 3%nat, [(bucket, object_key key (csv_filename "trial_info_cards" q), to_csv c);
                 (bucket, object_key key (csv_filename "trial_protocols" q), to_csv p);
                 (bucket, object_key key (csv_filename "trial_results" q), to_csv r)].
  destruct (put_object bucket _ (to_csv r)); cbn [fst snd];
    rewrite !put_requests_app, Hn; cbn; rewrite <- ?app_assoc, ?app_nil_r;
    repeat split; repeat constructor.
Qed.

(** X10.  When there is nothing to export, because [successes] is empty,
    the upload returns normally without sending anything: it leaves the
    input as it is and adds one warning to the log. *)
Theorem upload_without_data_sends_nothing
  (json_object successes : json) (q : QueryDetails)
  (bucket key access_key : string) (tr : trace) :
  getitem json_object "successes" = Ok successes ->
  truthy successes = false ->
  upload json_object q bucket key access_key tr
  = (Ok tt, json_object,
     (tr ++ [LogWarning ("Failed to write data to disk. No data to write for "
                         ++ start_date q ++ " to " ++ end_date q)])%list) /\
  put_requests (snd (upload json_object q bucket key access_key tr))
  = put_requests tr.
Proof.
  intros Hs Hf.
  assert (Hu : upload json_object q bucket key access_key tr
               = (Ok tt, json_object,
                  (tr ++ [LogWarning ("Failed to write data to disk. No data to write for "
                                      ++ start_date q ++ " to " ++ end_date q)])%list)).
  { unfold upload, write_csv_to_s3, get_json_data_in_pandas.
    rewrite Hs, Hf. reflexivity. }
  split; [exact Hu|]. rewrite Hu. cbn [snd].
  rewrite put_requests_app. cbn. now rewrite app_nil_r.
Qed.

(** X11.  When the normalizer raises, the upload raises the same exception
    and sends nothing: in particular a trial with a result version without
    summary URL keeps all three tables of the run from being exported. *)
Theorem upload_after_failed_normalization
  (json_object : json) (q : QueryDetails) (bucket key access_key : string)
  (tr : trace) (e : exception) :
  fst (fst (get_json_data_in_pandas to_datetime json_object tr)) = Raise e ->
  fst (fst (upload json_object q bucket key access_key tr)) = Raise e /\
  put_requests (snd (upload json_object q bucket key access_key tr))
  = put_requests tr /\
  snd (upload json_object q bucket key access_key tr)
  = snd (get_json_data_in_pandas to_datetime json_object tr).
Proof.
  intros H. pose proof (normalizer_sends_nothing json_object tr) as Hn.
  unfold upload, write_csv_to_s3.
  destruct (get_json_data_in_pandas to_datetime json_object tr) as [[o js'] tr0].
  cbn [fst snd] in *. subst o. cbn [fst snd]. repeat split. exact Hn.
Qed.

End LogFacts.

Lemma upload_without_data_sends_nothing_witness :
  getitem (snapshot []) "successes" = Ok (JList []) /\
  truthy (JList []) = false /\
  write_csv_to_s3 no_dates header_csv accept_all (snapshot []) sample_query
                  "bucket" "exports" "secret" []
  = (Ok tt, snapshot [],
     [LogWarning "Failed to write data to disk. No data to write for 2020-01-31 to 2020-01-31"]).
Proof.
  split; [reflexivity|]. split; [reflexivity|].
  exact (proj1 (upload_without_data_sends_nothing no_dates header_csv accept_all
                  (snapshot []) (JList []) sample_query "bucket" "exports" "secret"
                  [] eq_refl eq_refl)).
Defined.

Lemma failed_normalization_sample :
  fst (fst (get_json_data_in_pandas no_dates
              (snapshot [truncated_trial; trial_with_results]) []))
  = Raise (KeyError (JStr "url")).
Proof. vm_compute. reflexivity. Qed.

Lemma upload_after_failed_normalization_witness :
  fst (fst (get_json_data_in_pandas no_dates
              (snapshot [truncated_trial; trial_with_results]) []))
  = Raise (KeyError (JStr "url")) /\
  fst (fst (write_csv_to_s3 no_dates header_csv accept_all
              (snapshot [truncated_trial; trial_with_results]) sample_query
              "bucket" "exports" "secret" []))
  = Raise (KeyError (JStr "url")) /\
  put_requests (snd (write_csv_to_s3 no_dates header_csv accept_all
                       (snapshot [truncated_trial; trial_with_results])
                       sample_query "bucket" "exports" "secret" []))
  = put_requests [].
Proof.
  split; [exact failed_normalization_sample|].
  destruct (upload_after_failed_normalization no_dates header_csv accept_all
              (snapshot [truncated_trial; trial_with_results]) sample_query
              "bucket" "exports" "secret" [] (KeyError (JStr "url"))
              failed_normalization_sample) as (H1 & H2 & _).
  split; [exact H1 | exact H2].
Defined.

(** ** Runs of [main] *)

Section ProgramMore.
Import Main.

Variable strftime : date -> string.
Variable isoformat : date -> string.
Variable strptime : string -> option date.
Variable now : nat -> string.
Variable scrape_trials : date -> date -> World -> result ScrapeResults.
Variable write_csv_to_disk : json -> QueryDetails -> World -> result unit.

Let one_day :=
  scrape_one_day strftime isoformat now scrape_trials write_csv_to_disk.
Let loop := day_loop strftime isoformat now scrape_trials write_csv_to_disk.
Let run := main strftime isoformat strptime now scrape_trials write_csv_to_disk.
Let complete :=
  turns_return strftime isoformat now scrape_trials write_csv_to_disk.

Lemma validate_dates_ok (s e : string) (a b : date) :
  validate_dates strptime s e = Ok (a, b) ->
  strptime s = Some a /\ strptime e = Some b /\ (a <= b)%Z.
Proof.
  unfold validate_dates.
  destruct (strptime s) as [a'|]; [|discriminate].
  destruct (strptime e) as [b'|]; [|discriminate].
  destruct (Z.gtb_spec a' b') as [Hgt|Hle]; [discriminate|].
  intros Heq. injection Heq as <- <-. repeat split. lia.
Qed.

(** X12.  Dates that do not parse, or a start date after the end date, end
    the run with [ArgumentTypeError] before any day is announced in the log,
    scraped or persisted. *)
Theorem main_rejects_bad_dates (start_date_arg end_date_arg : string) (w : World) :
  (forall a b, strptime start_date_arg = Some a ->
               strptime end_date_arg = Some b -> (a > b)%Z) ->
  run start_date_arg end_date_arg w = (Raise ArgumentTypeError, w).
Proof.
  intros H. unfold run, main, validate_dates.
  destruct (strptime start_date_arg) as [a|]; [|reflexivity].
  destruct (strptime end_date_arg) as [b|]; [|reflexivity].
  specialize (H a b eq_refl eq_refl).
  destruct (Z.gtb_spec a b); [reflexivity | lia].
Qed.

(** A turn whose scrape returns: what it hands to the write, and how it
    ends. *)
Lemma one_day_written (d : date) (w : World) (r : ScrapeResults) :
  scrape_trials d d (emit (Logged ("Scraping data for " ++ isoformat d)) w)
  = Ok r ->
  exists w0,
    fst (one_day d w)
    = (u <- write_csv_to_disk (fst (day_snapshot strftime now d r (clock_reads w)))
                              (snd (day_snapshot strftime now d r (clock_reads w)))
                              w0 ;; Ok tt) /\
    scrapes (effects (snd (one_day d w)))
    = (scrapes (effects w) ++ [(d, d)])%list /\
    snapshots (effects (snd (one_day d w)))
    = (snapshots (effects w)
       ++ [day_snapshot strftime now d r (clock_reads w)])%list /\
    clock_reads (snd (one_day d w)) = S (S (clock_reads w)).
Proof.
  intros Hr.
  unfold one_day, scrape_one_day, scrape_by_date_range, read_clock, emit.
  cbn [effects clock_reads]. unfold emit in Hr. rewrite Hr.
  unfold day_snapshot. cbn [fst snd].
  match goal with
  | |- context [write_csv_to_disk ?o ?q ?w0] =>
      exists w0; destruct (write_csv_to_disk o q w0) as [[]|e]
  end;
    cbn [fst snd effects clock_reads bind];
    rewrite !scrapes_app, !snapshots_app; cbn; rewrite ?app_nil_r;
    repeat split.
Qed.

(** A turn whose scrape raises ends there: nothing is handed to the
    write. *)
Lemma one_day_not_scraped (d : date) (w : World) (e : exception) :
  scrape_trials d d (emit (Logged ("Scraping data for " ++ isoformat d)) w)
  = Raise e ->
  fst (one_day d w) = Raise e /\
  scrapes (effects (snd (one_day d w))) = (scrapes (effects w) ++ [(d, d)])%list /\
  snapshots (effects (snd (one_day d w))) = snapshots (effects w).
Proof.
  intros Hr.
  unfold one_day, scrape_one_day, scrape_by_date_range, emit.
  cbn [effects clock_reads]. unfold emit in Hr. rewrite Hr. cbn [fst snd effects].
  rewrite !scrapes_app, !snapshots_app. cbn. rewrite ?app_nil_r. repeat split.
Qed.

Lemma loop_step (current_date end_date : date) (w : World) :
  loop current_date end_date w
  = if Z_le_gt_dec current_date end_date then
      match one_day current_date w with
      | (Raise e, w') => (Raise e, w')
      | (Ok _, w') =>
          if Z_le_gt_dec (current_date + 1)%Z date_max
          then loop (current_date + 1)%Z end_date w'
          else (Raise OverflowError, w')
      end
    else (Ok tt, w).
Proof.
  exact (loop_unfold strftime isoformat now scrape_trials write_csv_to_disk
           current_date end_date w).
Qed.

(** The loop up to a day [d] whose earlier turns complete is the loop over
    the days before [d] followed by the loop from [d] on. *)
Lemma loop_split (d end_date current_date : date) (w : World) :
  (current_date <= d <= end_date)%Z ->
  (d <= date_max)%Z ->
  complete current_date (d - 1)%Z ->
  fst (loop current_date (d - 1)%Z w) = Ok tt /\
  loop current_date end_date w
  = loop d end_date (snd (loop current_date (d - 1)%Z w)).
Proof.
  intros Hd Hmax.
  remember (Z.to_nat (d - current_date)) as n eqn:Hn.
  revert current_date w Hn Hd.
  induction n as [|n IH]; intros current_date w Hn Hd Hok.
  - assert (current_date = d) by lia. subst current_date.
    rewrite (loop_step d (d - 1)%Z).
    destruct (Z_le_gt_dec d (d - 1)%Z) as [Hl|Hg]; [lia|].
    split; reflexivity.
  - pose proof (Hok current_date w ltac:(lia)) as Hret.
    unfold complete, turns_return in Hret.
    rewrite (loop_step current_date (d - 1)%Z).
    rewrite (loop_step current_date end_date).
    destruct (Z_le_gt_dec current_date (d - 1)%Z) as [Hl|Hg]; [|lia].
    destruct (Z_le_gt_dec current_date end_date) as [Hl'|Hg']; [|lia].
    fold one_day in Hret.
    destruct (one_day current_date w) as [out w'].
    cbn [fst] in Hret. subst out.
    destruct (Z_le_gt_dec (current_date + 1)%Z date_max) as [Hl1|Hg1]; [|lia].
    apply (IH (current_date + 1)%Z w'); [lia | lia |].
    intros d0 w0 Hd0. apply Hok. lia.
Qed.

(** A day on which a turn raises, after days whose turns complete: the run
    ends with that turn. *)
Lemma loop_ends_at (d end_date current_date : date) (w : World) (e : exception) :
  (current_date <= d <= end_date)%Z ->
  (d <= date_max)%Z ->
  complete current_date (d - 1)%Z ->
  (forall w0, fst (one_day d w0) = Raise e) ->
  exists w1,
    loop current_date end_date w = one_day d w1 /\
    scrapes (effects w1)
    = (scrapes (effects w)
       ++ map (fun d => (d, d)) (days_between current_date (d - 1)%Z))%list /\
    map dates_of (snapshots (effects w1))
    = (map dates_of (snapshots (effects w))
       ++ map (dated strftime) (days_between current_date (d - 1)%Z))%list.
Proof.
  intros Hd Hmax Hok He.
  destruct (loop_split d end_date current_date w Hd Hmax Hok) as [_ Hsplit].
  destruct (loop_runs strftime isoformat now scrape_trials write_csv_to_disk
              current_date (d - 1)%Z w ltac:(lia) Hok) as (Hs & Hdd & _).
  exists (snd (loop current_date (d - 1)%Z w)).
  split; [|split; [exact Hs | exact Hdd]].
  rewrite Hsplit. rewrite (loop_step d end_date).
  destruct (Z_le_gt_dec d end_date) as [Hl|Hg]; [|lia].
  specialize (He (snd (loop current_date (d - 1)%Z w))).
  fold one_day. unfold loop in *.
  destruct (one_day d _) as [out w']. cbn [fst] in He. now subst out.
Qed.

Lemma days_up_to (current_date d : date) :
  (current_date <= d)%Z ->
  days_between current_date d
  = (days_between current_date (d - 1)%Z ++ [d])%list.
Proof.
  intros Hle. unfold days_between, days_from.
  replace (Z.to_nat (d - current_date + 1))
    with (S (Z.to_nat (d - 1 - current_date + 1))) by lia.
  rewrite seq_S, map_app. cbn [map]. do 2 f_equal. lia.
Qed.

(** X13.  When the scrape of a day [d] of the range raises, the turns of the
    days before it having completed, the run ends with that exception: the
    days up to [d] were scraped, one by one and in order, the days before
    [d] had their snapshot handed to a write that returned, and neither [d]
    nor any later day has one. *)
Theorem run_ends_at_the_first_failing_day
  (start_date_arg end_date_arg : string) (start_date end_date d : date)
  (e : exception) (w : World) :
  validate_dates strptime start_date_arg end_date_arg = Ok (start_date, end_date) ->
  (start_date <= d <= end_date)%Z ->
  (d <= date_max)%Z ->
  scrapes_return scrape_trials start_date (d - 1)%Z ->
  writes_return write_csv_to_disk ->
  (forall w0, scrape_trials d d w0 = Raise e) ->
  fst (run start_date_arg end_date_arg w) = Raise e /\
  scrapes (effects (snd (run start_date_arg end_date_arg w)))
  = (scrapes (effects w)
     ++ map (fun d => (d, d)) (days_between start_date d))%list /\
  map dates_of (snapshots (effects (snd (run start_date_arg end_date_arg w))))
  = (map dates_of (snapshots (effects w))
     ++ map (dated strftime) (days_between start_date (d - 1)%Z))%list.
Proof.
  intros Hv Hd Hmax Hok Hwr He. unfold run, main. rewrite Hv.
  assert (Hturn : forall w0, fst (one_day d w0) = Raise e)
    by (intros w0; now apply one_day_not_scraped).
  destruct (loop_ends_at d end_date start_date w e Hd Hmax
              (turns_return_intro strftime isoformat now scrape_trials
                 write_csv_to_disk start_date (d - 1)%Z Hok Hwr) Hturn)
    as (w1 & Hloop & Hs & Hdd).
  fold loop. rewrite Hloop.
  destruct (one_day_not_scraped d w1 e (He _)) as (Ho & Hs1 & Hd1).
  rewrite Ho, Hs1, Hd1, Hs, Hdd, (days_up_to start_date d) by lia.
  rewrite map_app, <- app_assoc. repeat split.
Qed.

(** X14.  A run whose scrapes and writes all return ends normally, unless
    its last day is 9999-12-31: then every day is scraped and written, and
    the step to the next day raises [OverflowError]. *)
Theorem run_up_to_the_last_date_overflows
  (start_date_arg end_date_arg : string) (start_date end_date : date) (w : World) :
  validate_dates strptime start_date_arg end_date_arg = Ok (start_date, end_date) ->
  valid_date end_date ->
  scrapes_return scrape_trials start_date end_date ->
  writes_return write_csv_to_disk ->
  fst (run start_date_arg end_date_arg w)
  = (if (end_date =? date_max)%Z then Raise OverflowError else Ok tt) /\
  List.length (snapshots (effects (snd (run start_date_arg end_date_arg w))))
  = (List.length (snapshots (effects w))
     + Z.to_nat (end_date - start_date + 1))%nat.
Proof.
  intros Hv [_ Hmax] Hok Hwr. unfold run, main. rewrite Hv.
  destruct (validate_dates_ok _ _ _ _ Hv) as (_ & _ & Hle).
  destruct (loop_runs strftime isoformat now scrape_trials write_csv_to_disk
              start_date end_date w Hmax
              (turns_return_intro strftime isoformat now scrape_trials
                 write_csv_to_disk start_date end_date Hok Hwr))
    as (_ & Hd & Ho).
  split.
  - rewrite Ho. destruct (Z.leb_spec start_date end_date); [reflexivity | lia].
  - apply (f_equal (@List.length _)) in Hd.
    rewrite length_app, !length_map, days_between_length in Hd. exact Hd.
Qed.

(** The snapshots of a range whose scrapes answer as the register says and
    whose writes return. *)
Lemma loop_snapshots (register : date -> ScrapeResults)
  (current_date end_date : date) (w : World) :
  (end_date <= date_max)%Z ->
  answers scrape_trials register current_date end_date ->
  writes_return write_csv_to_disk ->
  snapshots (effects (snd (loop current_date end_date w)))
  = (snapshots (effects w)
     ++ map (fun d => day_snapshot strftime now d (register d)
                        (clock_reads w + 2 * Z.to_nat (d - current_date)))
            (days_between current_date end_date))%list.
Proof.
  intros Hmax.
  remember (Z.to_nat (end_date + 1 - current_date)) as n eqn:Hn.
  revert current_date w Hn.
  induction n as [|n IH]; intros current_date w Hn Hok Hwr;
    rewrite (loop_step current_date end_date).
  - destruct (Z_le_gt_dec current_date end_date) as [Hl|Hg]; [lia|].
    cbn [fst snd]. rewrite days_between_empty by lia. cbn [map].
    now rewrite app_nil_r.
  - destruct (Z_le_gt_dec current_date end_date) as [Hl|Hg]; [|lia].
    destruct (one_day_written current_date w (register current_date))
      as (w0 & Ho & _ & Hsn & Hck); [apply Hok; lia|].
    pose proof (Hwr (fst (day_snapshot strftime now current_date
                            (register current_date) (clock_reads w)))
                    (snd (day_snapshot strftime now current_date
                            (register current_date) (clock_reads w))) w0) as Hw0.
    destruct (write_csv_to_disk _ _ w0) as [[]|e]; [|discriminate].
    cbn [bind] in Ho.
    destruct (one_day current_date w) as [out w'].
    cbn [fst snd] in *. subst out.
    rewrite (days_between_cons current_date end_date) by lia. cbn [map].
    replace (clock_reads w + 2 * Z.to_nat (current_date - current_date))%nat
      with (clock_reads w) by lia.
    destruct (Z_le_gt_dec (current_date + 1)%Z date_max) as [Hl1|Hg1].
    + rewrite (IH (current_date + 1)%Z w' ltac:(lia));
        [|intros d w1 Hd; apply Hok; lia | exact Hwr].
      rewrite Hsn, Hck, <- app_assoc. cbn [app]. do 2 f_equal.
      apply map_ext_in. intros d Hin. apply days_between_in in Hin.
      f_equal. lia.
    + assert (end_date = current_date) by lia. subst end_date.
      cbn [snd]. rewrite Hsn, days_between_empty by lia. reflexivity.
Qed.

(** X26.  Whatever function the name [write_csv_to_disk] is bound to, the
    loop of [main] takes a validated range apart into its days: when the
    scrape of each day answers and every write returns, it scrapes each
    day of the range once, alone and in order, and hands to the write one
    snapshot a day, made of that day's results, whose two query dates are
    that day and whose two time stamps are the two readings of the clock
    that follow the scrape. *)
Theorem main_runs_day_by_day (register : date -> ScrapeResults)
  (start_date_arg end_date_arg : string) (start_date end_date : date) (w : World) :
  validate_dates strptime start_date_arg end_date_arg = Ok (start_date, end_date) ->
  valid_date end_date ->
  answers scrape_trials register start_date end_date ->
  writes_return write_csv_to_disk ->
  let w' := snd (run start_date_arg end_date_arg w) in
  scrapes (effects w')
  = (scrapes (effects w)
     ++ map (fun d => (d, d)) (days_between start_date end_date))%list /\
  snapshots (effects w')
  = (snapshots (effects w)
     ++ map (fun d => day_snapshot strftime now d (register d)
                        (clock_reads w + 2 * Z.to_nat (d - start_date)))
            (days_between start_date end_date))%list /\
  List.length (days_between start_date end_date)
  = Z.to_nat (end_date - start_date + 1)%Z /\
  NoDup (days_between start_date end_date).
Proof.
  intros Hv [_ Hmax] Hok Hwr. cbv zeta. unfold run, main. rewrite Hv.
  assert (Hret : scrapes_return scrape_trials start_date end_date).
  { intros d w0 Hd. now rewrite (Hok d w0 Hd). }
  destruct (loop_runs strftime isoformat now scrape_trials write_csv_to_disk
              start_date end_date w Hmax
              (turns_return_intro strftime isoformat now scrape_trials
                 write_csv_to_disk start_date end_date Hret Hwr))
    as (Hs & _ & _).
  split; [exact Hs|].
  split; [exact (loop_snapshots register start_date end_date w Hmax Hok Hwr)|].
  split; [apply days_between_length | apply days_between_nodup].
Qed.

(** X27.  When the write of a day [d] of the range raises, the turns of the
    days before it having completed and the scrape of [d] having returned,
    the run ends with that exception: the days up to [d] were scraped and
    handed to the write, [d] included, and no later day is scraped. *)
Theorem run_ends_at_the_first_failing_write
  (start_date_arg end_date_arg : string) (start_date end_date d : date)
  (e : exception) (w : World) :
  validate_dates strptime start_date_arg end_date_arg = Ok (start_date, end_date) ->
  (start_date <= d <= end_date)%Z ->
  (d <= date_max)%Z ->
  complete start_date (d - 1)%Z ->
  (forall w0, is_ok (scrape_trials d d w0) = true) ->
  (forall o t w0,
      write_csv_to_disk o (mkQueryDetails (strftime d) (strftime d) t) w0
      = Raise e) ->
  fst (run start_date_arg end_date_arg w) = Raise e /\
  scrapes (effects (snd (run start_date_arg end_date_arg w)))
  = (scrapes (effects w)
     ++ map (fun d => (d, d)) (days_between start_date d))%list /\
  map dates_of (snapshots (effects (snd (run start_date_arg end_date_arg w))))
  = (map dates_of (snapshots (effects w))
     ++ map (dated strftime) (days_between start_date d))%list.
Proof.
  intros Hv Hd Hmax Hok Hsc Hwr. unfold run, main. rewrite Hv.
  assert (Hday : forall w0,
             fst (one_day d w0) = Raise e /\
             scrapes (effects (snd (one_day d w0)))
             = (scrapes (effects w0) ++ [(d, d)])%list /\
             map dates_of (snapshots (effects (snd (one_day d w0))))
             = (map dates_of (snapshots (effects w0)) ++ [dated strftime d])%list).
  { intros w0.
    specialize (Hsc (emit (Logged ("Scraping data for " ++ isoformat d)) w0)).
    destruct (scrape_trials d d
                (emit (Logged ("Scraping data for " ++ isoformat d)) w0))
      as [r|e0] eqn:Hr; [|discriminate].
    destruct (one_day_written d w0 r Hr) as (w1 & Ho & Hs1 & Hsn & _).
    unfold day_snapshot in Ho. cbn [fst snd] in Ho. rewrite Hwr in Ho.
    split; [exact Ho|]. split; [exact Hs1|].
    rewrite Hsn, map_app. reflexivity. }
  destruct (loop_ends_at d end_date start_date w e Hd Hmax Hok
              (fun w0 => proj1 (Hday w0))) as (w1 & Hloop & Hs & Hdd).
  fold loop. rewrite Hloop.
  destruct (Hday w1) as (Ho & Hs1 & Hd1).
  rewrite Ho, Hs1, Hd1, Hs, Hdd, (days_up_to start_date d) by lia.
  rewrite !map_app, <- !app_assoc. repeat split.
Qed.

End ProgramMore.

Lemma main_rejects_bad_dates_witness :
  (forall a b, sample_strptime "2020-01-03" = Some a ->
               sample_strptime "2020-01-01" = Some b -> (a > b)%Z) /\
  Main.main sample_strftime sample_strftime sample_strptime sample_now
            sample_scrape_trials sample_write "2020-01-03" "2020-01-01"
            initial_world
  = (Raise Main.ArgumentTypeError, initial_world).
Proof.
  assert (H : forall a b, sample_strptime "2020-01-03" = Some a ->
                          sample_strptime "2020-01-01" = Some b -> (a > b)%Z).
  { intros a b Ha Hb. vm_compute in Ha, Hb.
    injection Ha as <-. injection Hb as <-. reflexivity. }
  split; [exact H|].
  exact (main_rejects_bad_dates sample_strftime sample_strftime sample_strptime
           sample_now sample_scrape_trials sample_write
           "2020-01-03" "2020-01-01" initial_world H).
Defined.

Lemma sample_writes_return : writes_return sample_write.
Proof. intros o q w. reflexivity. Defined.

Lemma run_ends_at_the_first_failing_day_witness :
  Main.validate_dates sample_strptime "2020-01-01" "2020-01-03"
  = Ok (737425%Z, 737427%Z) /\
  (737425 <= 737427 <= 737427)%Z /\
  (737427 <= Main.date_max)%Z /\
  scrapes_return scrape_until_third_day 737425%Z (737427 - 1)%Z /\
  writes_return sample_write /\
  (forall w0, scrape_until_third_day 737427%Z 737427%Z w0 = Raise NetworkError) /\
  fst (Main.main sample_strftime sample_strftime sample_strptime sample_now
         scrape_until_third_day sample_write "2020-01-01" "2020-01-03"
         initial_world)
  = Raise NetworkError.
Proof.
  assert (Hd : (737425 <= 737427 <= 737427)%Z) by lia.
  assert (Hmax : (737427 <= Main.date_max)%Z) by (unfold Main.date_max; lia).
  assert (Hok : scrapes_return scrape_until_third_day 737425%Z (737427 - 1)%Z).
  { intros d w Hr. unfold scrape_until_third_day.
    destruct (Z.eqb_spec d 737427); [lia | reflexivity]. }
  assert (He : forall w0, scrape_until_third_day 737427%Z 737427%Z w0
                          = Raise NetworkError) by (intros w0; reflexivity).
  split; [reflexivity|]. split; [exact Hd|]. split; [exact Hmax|].
  split; [exact Hok|]. split; [exact sample_writes_return|]. split; [exact He|].
  exact (proj1 (run_ends_at_the_first_failing_day sample_strftime sample_strftime
                  sample_strptime sample_now scrape_until_third_day sample_write
                  "2020-01-01" "2020-01-03" 737425%Z 737427%Z 737427%Z
                  NetworkError initial_world eq_refl Hd Hmax Hok
                  sample_writes_return He)).
Defined.

Lemma run_up_to_the_last_date_overflows_witness :
  Main.validate_dates last_day_strptime "9999-12-31" "9999-12-31"
  = Ok (Main.date_max, Main.date_max) /\
  Main.valid_date Main.date_max /\
  scrapes_return sample_scrape_trials Main.date_max Main.date_max /\
  writes_return sample_write /\
  fst (Main.main sample_strftime sample_strftime last_day_strptime sample_now
         sample_scrape_trials sample_write "9999-12-31" "9999-12-31"
         initial_world)
  = Raise OverflowError.
Proof.
  assert (Hv : Main.valid_date Main.date_max)
    by (unfold Main.valid_date; split; discriminate).
  assert (Hok : scrapes_return sample_scrape_trials Main.date_max Main.date_max)
    by (intros d w _; reflexivity).
  split; [reflexivity|]. split; [exact Hv|]. split; [exact Hok|].
  split; [exact sample_writes_return|].
  exact (proj1 (run_up_to_the_last_date_overflows sample_strftime sample_strftime
                  last_day_strptime sample_now sample_scrape_trials sample_write
                  "9999-12-31" "9999-12-31" Main.date_max Main.date_max
                  initial_world eq_refl Hv Hok sample_writes_return)).
Defined.

Lemma main_runs_day_by_day_witness :
  Main.validate_dates sample_strptime "2020-01-01" "2020-01-03"
  = Ok (737425%Z, 737427%Z) /\
  Main.valid_date 737427%Z /\
  answers scrape_sample_register sample_register 737425%Z 737427%Z /\
  writes_return sample_write /\
  Main.snapshots
    (Main.effects
       (snd (Main.main sample_strftime sample_strftime sample_strptime sample_now
               scrape_sample_register sample_write "2020-01-01" "2020-01-03"
               initial_world)))
  = (Main.snapshots (Main.effects initial_world)
     ++ map (fun d => day_snapshot sample_strftime sample_now d (sample_register d)
                        (Main.clock_reads initial_world
                         + 2 * Z.to_nat (d - 737425)))
            (days_between 737425%Z 737427%Z))%list.
Proof.
  assert (Hv : Main.valid_date 737427%Z)
    by (unfold Main.valid_date; split; discriminate).
  assert (Hok : answers scrape_sample_register sample_register 737425%Z 737427%Z)
    by (intros d w _; reflexivity).
  split; [reflexivity|]. split; [exact Hv|]. split; [exact Hok|].
  split; [exact sample_writes_return|].
  exact (proj1 (proj2 (main_runs_day_by_day sample_strftime sample_strftime
                         sample_strptime sample_now scrape_sample_register
                         sample_write sample_register
                         "2020-01-01" "2020-01-03" 737425%Z 737427%Z
                         initial_world eq_refl Hv Hok sample_writes_return))).
Defined.

Lemma early_turns_return :
  turns_return sample_strftime sample_strftime sample_now sample_scrape_trials
               write_until_third_day 737425%Z (737427 - 1)%Z.
Proof.
  intros d w Hd.
  unfold Main.scrape_one_day, Main.scrape_by_date_range, Main.read_clock,
    sample_scrape_trials, write_until_third_day. cbn [start_date].
  unfold sample_strftime.
  destruct (Z.eqb_spec d 737425); [reflexivity|].
  destruct (Z.eqb_spec d 737426); [reflexivity|]. lia.
Defined.

Lemma run_ends_at_the_first_failing_write_witness :
  Main.validate_dates sample_strptime "2020-01-01" "2020-01-03"
  = Ok (737425%Z, 737427%Z) /\
  (737425 <= 737427 <= 737427)%Z /\
  (737427 <= Main.date_max)%Z /\
  turns_return sample_strftime sample_strftime sample_now sample_scrape_trials
               write_until_third_day 737425%Z (737427 - 1)%Z /\
  (forall w0, is_ok (sample_scrape_trials 737427%Z 737427%Z w0) = true) /\
  (forall o t w0,
      write_until_third_day o
        (mkQueryDetails (sample_strftime 737427%Z) (sample_strftime 737427%Z) t) w0
      = Raise DiskFull) /\
  fst (Main.main sample_strftime sample_strftime sample_strptime sample_now
         sample_scrape_trials write_until_third_day "2020-01-01" "2020-01-03"
         initial_world)
  = Raise DiskFull.
Proof.
  assert (Hd : (737425 <= 737427 <= 737427)%Z) by lia.
  assert (Hmax : (737427 <= Main.date_max)%Z) by (unfold Main.date_max; lia).
  assert (Hsc : forall w0, is_ok (sample_scrape_trials 737427%Z 737427%Z w0) = true)
    by (intros w0; reflexivity).
  assert (Hwr : forall o t w0,
             write_until_third_day o
               (mkQueryDetails (sample_strftime 737427%Z)
                               (sample_strftime 737427%Z) t) w0
             = Raise DiskFull) by (intros o t w0; reflexivity).
  split; [reflexivity|]. split; [exact Hd|]. split; [exact Hmax|].
  split; [exact early_turns_return|]. split; [exact Hsc|]. split; [exact Hwr|].
  exact (proj1 (run_ends_at_the_first_failing_write sample_strftime sample_strftime
                  sample_strptime sample_now sample_scrape_trials
                  write_until_third_day
                  "2020-01-01" "2020-01-03" 737425%Z 737427%Z 737427%Z
                  DiskFull initial_world eq_refl Hd Hmax early_turns_return
                  Hsc Hwr)).
Defined.

(** ** The three tables *)

Lemma collect_forall2 {A B : Type} (f : A -> result B) (l : list A) (r : list B) :
  collect f l = Ok r -> Forall2 (fun x y => f x = Ok y) l r.
Proof.
  revert r. induction l as [|x l IH]; simpl; intros r H.
  - injection H as <-. constructor.
  - destruct (f x) as [y|e] eqn:Hx; simpl in H; [|discriminate].
    destruct (collect f l) as [ys|e]; simpl in H; [|discriminate].
    injection H as <-. constructor; [exact Hx | now apply IH].
Qed.

Lemma protocol_row_shape (eud p : json) (row : list object) :
  protocol_row eud p = Ok row ->
  List.length row = 4%nat /\ nth_error row 1 = Some (Json eud).
Proof.
  unfold protocol_row. intros H.
  apply bind_ok in H as (url & _ & H).
  apply bind_ok in H as (segs & _ & H).
  apply bind_ok in H as (url' & _ & H).
  injection H as <-. split; reflexivity.
Qed.

Lemma result_row_shape (eud : json) (v : string) (value : json) (row : list object) :
  result_row eud v value = Ok row ->
  List.length row = 4%nat /\ nth_error row 0 = Some (Json eud).
Proof.
  unfold result_row. intros H.
  apply bind_ok in H as (summary & _ & H).
  apply bind_ok in H as (url & _ & H).
  injection H as <-. split; reflexivity.
Qed.

Section Tables.

Variable to_datetime : json -> result (option Z).

(** The rows that one trial contributes all carry the trial number of its
    card. *)
Lemma contribution_rows (r r' : json) (c : Contribution) :
  contribution to_datetime r = (Ok c, r') ->
  exists eud,
    trial_number r = Ok eud /\
    List.length (card_row c) = 10%nat /\
    nth_error (card_row c) 0 = Some (Json eud) /\
    Forall (fun row => List.length row = 4%nat /\ nth_error row 1 = Some (Json eud))
           (protocol_part c) /\
    Forall (fun row => List.length row = 4%nat /\ nth_error row 0 = Some (Json eud))
           (result_rows_of c).
Proof.
  unfold contribution. intros H.
  destruct (read_card to_datetime (mkStore r [])) as [[[[[cd eud] sd] ps]|e] st]
    eqn:Hrc; [|discriminate].
  injection H as Hc _.
  apply bind_ok in Hc as (row & Hrow & Hc).
  apply bind_ok in Hc as (prows & Hp & Hc).
  apply bind_ok in Hc as (rrows & Hr & Hc).
  injection Hc as <-. cbn [card_row protocol_part result_part].
  unfold result_rows_of. cbn [result_part].
  apply read_card_ok in Hrc
    as (card & d & title & b & Hcard & _ & Heud & _).
  destruct (new_card_info_row cd eud sd st) as [o st'] eqn:Hn.
  cbn [fst] in Hrow. subst o.
  apply new_card_info_row_ok in Hn
    as (card0 & sp & ft & v & so & co & te & le & _ & _ & _ & _ & _ & _ & _ & _ & ->).
  exists eud. split; [unfold trial_number; rewrite Hcard; exact Heud|].
  split; [reflexivity|]. split; [reflexivity|]. split.
  - unfold protocol_rows in Hp. apply bind_ok in Hp as (items & _ & Hp).
    apply collect_forall2 in Hp. clear - Hp.
    induction Hp as [|p row items prows Hrow _ IH]; constructor; [|exact IH].
    now apply (protocol_row_shape eud p).
  - unfold result_rows in Hr. apply bind_ok in Hr as (has & _ & Hr).
    apply bind_ok in Hr as (results & _ & Hr).
    destruct (negb (truthy results)).
    + injection Hr as <-. constructor.
    + apply bind_ok in Hr as (versions & _ & Hr).
      apply bind_ok in Hr as (new_rows & Hr & Heq). injection Heq as <-.
      apply collect_forall2 in Hr. clear - Hr.
      induction Hr as [|v row versions new_rows Hrow _ IH]; constructor; [|exact IH].
      now apply (result_row_shape eud (fst v) (snd v)).
Qed.

(** A call that returns three tables has run the loop over the items of
    [successes]: the tables are the empty ones with the contributions of
    the trials added in order. *)
Lemma normalizer_returns (json_data : json) (lg : trace) (c p r : DataFrame) :
  fst (fst (get_json_data_in_pandas to_datetime json_data lg))
  = Ok (Some c, Some p, Some r) ->
  exists s items cs,
    getitem json_data "successes" = Ok s /\
    iter s = Ok items /\
    all_contributions to_datetime items = Ok cs /\
    mkFrames c p r = fold_left add_contribution cs empty_frames.
Proof.
  unfold get_json_data_in_pandas. intros H.
  destruct (getitem json_data "successes") as [s|e] eqn:Hs; [|discriminate].
  destruct (negb (truthy s)); [discriminate|].
  destruct (n <- len s ;; Ok (n <? 1)%nat) as [[|]|e]; try discriminate.
  destruct (iter s) as [items|e] eqn:Hi; [|discriminate].
  pose proof (for_each_result_fold to_datetime items empty_frames lg) as Hf.
  pose proof (fold_all_contributions to_datetime items empty_frames) as Ha.
  destruct (for_each_result to_datetime empty_frames items lg)
    as [[out items'] lg'].
  cbn [fst] in *. rewrite <- Hf in Ha. cbn [fst] in Ha. subst out.
  destruct (all_contributions to_datetime items) as [cs|e] eqn:Hcs; [|discriminate].
  cbn [bind] in H. unfold returned_frames in H. injection H as <- <- <-.
  exists s, items, cs. do 3 (split; [reflexivity || assumption|]).
  now destruct (fold_left add_contribution cs empty_frames).
Qed.

Lemma all_contributions_forall2 (items : list json) (cs : list Contribution) :
  all_contributions to_datetime items = Ok cs ->
  Forall2 (fun r c => contribution to_datetime r
                      = (Ok c, snd (contribution to_datetime r)))
          (filter truthy items) cs.
Proof.
  unfold all_contributions. intros H. apply collect_forall2 in H.
  induction H as [|r c l cs Hr _ IH]; constructor; [|exact IH].
  destruct (contribution to_datetime r) as [o r']. cbn [fst snd] in *. now subst o.
Qed.

Lemma returned_rows (json_data : json) (lg : trace) (c p r : DataFrame) :
  fst (fst (get_json_data_in_pandas to_datetime json_data lg))
  = Ok (Some c, Some p, Some r) ->
  exists s items cs,
    getitem json_data "successes" = Ok s /\
    iter s = Ok items /\
    Forall2 (fun r c => contribution to_datetime r
                        = (Ok c, snd (contribution to_datetime r)))
            (filter truthy items) cs /\
    c = mkDataFrame trial_info_cards_columns (map card_row cs) /\
    p = mkDataFrame trial_protocols_columns (flat_map protocol_part cs) /\
    r = mkDataFrame trial_results_columns (flat_map result_rows_of cs).
Proof.
  intros H. apply normalizer_returns in H as (s & items & cs & Hs & Hi & Ha & Hf).
  exists s, items, cs. split; [exact Hs|]. split; [exact Hi|].
  split; [now apply all_contributions_forall2|].
  pose proof (add_contributions_rows cs empty_frames) as Hrows. cbv zeta in Hrows.
  rewrite <- Hf in Hrows. cbn in Hrows.
  destruct Hrows as (H1 & H2 & H3 & H4 & H5 & H6).
  destruct c, p, r. cbn in *. now subst.
Qed.

(** X15.  The three tables that a call returns have the fixed columns, in
    the fixed order, and every row has one cell per column: ten for a card,
    four for a protocol and for a result. *)
Theorem returned_tables_are_well_formed
  (json_data : json) (lg : trace) (c p r : DataFrame) :
  fst (fst (get_json_data_in_pandas to_datetime json_data lg))
  = Ok (Some c, Some p, Some r) ->
  columns c = trial_info_cards_columns /\
  columns p = trial_protocols_columns /\
  columns r = trial_results_columns /\
  well_formed c /\ well_formed p /\ well_formed r.
Proof.
  intros H.
  apply returned_rows in H as (s & items & cs & _ & _ & Hcs & -> & -> & ->).
  do 3 (split; [reflexivity|]). unfold well_formed. cbn [rows columns].
  assert (Hall : Forall (fun c =>
             List.length (card_row c) = 10%nat /\
             Forall (fun row => List.length row = 4%nat) (protocol_part c) /\
             Forall (fun row => List.length row = 4%nat) (result_rows_of c)) cs).
  { clear - Hcs. induction Hcs as [|r c l cs Hr _ IH]; constructor; [|exact IH].
    apply contribution_rows in Hr as (eud & _ & H10 & _ & Hp & Hr).
    split; [exact H10|]. split.
    - eapply Forall_impl; [|exact Hp]. now intros row [Hl _].
    - eapply Forall_impl; [|exact Hr]. now intros row [Hl _]. }
  clear Hcs. repeat split.
  - apply Forall_forall. intros row Hin. apply in_map_iff in Hin as (c & <- & Hc).
    rewrite Forall_forall in Hall. now destruct (Hall c Hc) as (-> & _).
  - apply Forall_forall. intros row Hin. apply in_flat_map in Hin as (c & Hc & Hrow).
    rewrite Forall_forall in Hall. destruct (Hall c Hc) as (_ & Hp & _).
    rewrite Forall_forall in Hp. now rewrite (Hp row Hrow).
  - apply Forall_forall. intros row Hin. apply in_flat_map in Hin as (c & Hc & Hrow).
    rewrite Forall_forall in Hall. destruct (Hall c Hc) as (_ & _ & Hr).
    rewrite Forall_forall in Hr. now rewrite (Hr row Hrow).
Qed.

(** X16.  The tables join on the trial number: every protocol row and every
    result row of a call that returns carries the [eudract_number] of some
    row of the card table. *)
Theorem rows_refer_to_a_card
  (json_data : json) (lg : trace) (c p r : DataFrame) :
  fst (fst (get_json_data_in_pandas to_datetime json_data lg))
  = Ok (Some c, Some p, Some r) ->
  (forall row, In row (rows p) ->
     exists card eud, In card (rows c) /\
                      protocol_number row = Some (Json eud) /\
                      card_number card = Some (Json eud)) /\
  (forall row, In row (rows r) ->
     exists card eud, In card (rows c) /\
                      result_number row = Some (Json eud) /\
                      card_number card = Some (Json eud)).
Proof.
  intros H.
  apply returned_rows in H as (s & items & cs & _ & _ & Hcs & -> & -> & ->).
  cbn [rows].
  assert (Hall : Forall (fun c => exists eud,
             nth_error (card_row c) 0 = Some (Json eud) /\
             Forall (fun row => nth_error row 1 = Some (Json eud)) (protocol_part c) /\
             Forall (fun row => nth_error row 0 = Some (Json eud)) (result_rows_of c)) cs).
  { clear - Hcs. induction Hcs as [|r c l cs Hr _ IH]; constructor; [|exact IH].
    apply contribution_rows in Hr as (eud & _ & _ & H0 & Hp & Hr).
    exists eud. split; [exact H0|]. split.
    - eapply Forall_impl; [|exact Hp]. now intros row [_ Hn].
    - eapply Forall_impl; [|exact Hr]. now intros row [_ Hn]. }
  clear Hcs. rewrite Forall_forall in Hall. split; intros row Hin;
    apply in_flat_map in Hin as (c & Hc & Hrow);
    destruct (Hall c Hc) as (eud & H0 & Hp & Hr);
    exists (card_row c), eud; (split; [now apply in_map|]); split;
    try exact H0.
  - rewrite Forall_forall in Hp. exact (Hp row Hrow).
  - rewrite Forall_forall in Hr. exact (Hr row Hrow).
Qed.

(** X17.  The card table has one row per element of [successes] that the
    loop does not skip, in the order of the list and repeats included; the
    row of a trial whose trial number is text carries that number. *)
Theorem one_card_row_per_trial
  (json_data : json) (lg : trace) (l : list json) (c p r : DataFrame) :
  getitem json_data "successes" = Ok (JList l) ->
  fst (fst (get_json_data_in_pandas to_datetime json_data lg))
  = Ok (Some c, Some p, Some r) ->
  List.length (rows c) = List.length (filter truthy l) /\
  Forall2 (fun trial row => forall s,
             trial_number trial = Ok (JStr s) -> card_number row = Some (str s))
          (filter truthy l) (rows c).
Proof.
  intros Hl H.
  apply returned_rows in H as (s & items & cs & Hs & Hi & Hcs & -> & _ & _).
  rewrite Hl in Hs. injection Hs as <-. cbn [iter] in Hi. injection Hi as <-.
  cbn [rows].
  assert (HF : Forall2 (fun trial row => forall s,
                 trial_number trial = Ok (JStr s) -> card_number row = Some (str s))
               (filter truthy l) (map card_row cs)).
  { clear - Hcs. induction Hcs as [|r c l0 cs Hr _ IH]; cbn [map]; constructor;
      [|exact IH].
    apply contribution_rows in Hr as (eud & Hn & _ & H0 & _).
    intros s Hs. rewrite Hn in Hs. injection Hs as ->. exact H0. }
  split; [|exact HF]. symmetry. exact (Forall2_length HF).
Qed.

End Tables.

Lemma normalize_skipping_sample :
  fst (fst (get_json_data_in_pandas no_dates
              (snapshot [JNull; truncated_trial; JDict []; trial_with_moved_protocol])
              []))
  = Ok (Some (cards_df both_frames), Some (protocols_df both_frames),
        Some (results_df both_frames)).
Proof. vm_compute. reflexivity. Qed.

Lemma returned_tables_are_well_formed_witness :
  fst (fst (get_json_data_in_pandas no_dates
              (snapshot [JNull; truncated_trial; JDict []; trial_with_moved_protocol])
              []))
  = Ok (Some (cards_df both_frames), Some (protocols_df both_frames),
        Some (results_df both_frames)) /\
  well_formed (cards_df both_frames) /\
  well_formed (protocols_df both_frames).
Proof.
  split; [exact normalize_skipping_sample|].
  destruct (returned_tables_are_well_formed no_dates _ _ _ _ _
              normalize_skipping_sample) as (_ & _ & _ & Hc & Hp & _).
  split; [exact Hc | exact Hp].
Defined.

Lemma rows_refer_to_a_card_witness :
  fst (fst (get_json_data_in_pandas no_dates
              (snapshot [JNull; truncated_trial; JDict []; trial_with_moved_protocol])
              []))
  = Ok (Some (cards_df both_frames), Some (protocols_df both_frames),
        Some (results_df both_frames)) /\
  (forall row, In row (rows (protocols_df both_frames)) ->
     exists card eud, In card (rows (cards_df both_frames)) /\
                      protocol_number row = Some (Json eud) /\
                      card_number card = Some (Json eud)).
Proof.
  split; [exact normalize_skipping_sample|].
  exact (proj1 (rows_refer_to_a_card no_dates _ _ _ _ _ normalize_skipping_sample)).
Defined.

Lemma one_card_row_per_trial_witness :
  getitem (snapshot [JNull; truncated_trial; JDict []; trial_with_moved_protocol])
          "successes"
  = Ok (JList [JNull; truncated_trial; JDict []; trial_with_moved_protocol]) /\
  fst (fst (get_json_data_in_pandas no_dates
              (snapshot [JNull; truncated_trial; JDict []; trial_with_moved_protocol])
              []))
  = Ok (Some (cards_df both_frames), Some (protocols_df both_frames),
        Some (results_df both_frames)) /\
  List.length (rows (cards_df both_frames))
  = List.length (filter truthy [JNull; truncated_trial; JDict [];
                                trial_with_moved_protocol]).
Proof.
  split; [reflexivity|]. split; [exact normalize_skipping_sample|].
  exact (proj1 (one_card_row_per_trial no_dates
                  (snapshot [JNull; truncated_trial; JDict [];
                             trial_with_moved_protocol])
                  []
                  [JNull; truncated_trial; JDict []; trial_with_moved_protocol]
                  _ _ _ eq_refl normalize_skipping_sample)).
Defined.

(** ** What a call does to its input *)

Lemma assoc_set_id (k : string) (v : json) (d : list (string * json)) :
  assoc k d = Some v -> assoc_set k v d = d.
Proof.
  induction d as [|[k' v'] d IH]; simpl; [discriminate|].
  destruct (String.eqb k k').
  - intros H. injection H as ->. reflexivity.
  - intros H. now rewrite IH.
Qed.

Lemma mbind_raise {A B : Type} (m : M A) (k : A -> M B) st e st' :
  mbind m k st = (Raise e, st') ->
  m st = (Raise e, st') \/
  exists a st1, m st = (Ok a, st1) /\ k a st1 = (Raise e, st').
Proof.
  unfold mbind. destruct (m st) as [[a|e0] st1]; intros H; [right; eauto|].
  left. injection H as -> ->. reflexivity.
Qed.

Lemma lift_raise {A : Type} (r : result A) st e st' :
  lift r st = (Raise e, st') -> st' = st.
Proof. unfold lift. intros H. now injection H. Qed.

Lemma card_setitem_raise (k : string) (v : json) st e st' :
  card_setitem k v st = (Raise e, st') -> st' = st.
Proof.
  unfold card_setitem.
  destruct (card <- getitem (trial st) "card" ;;
            card' <- setitem card k v ;;
            setitem (trial st) "card" card'); intros H;
    [discriminate | now injection H].
Qed.

Section InputFacts.

Variable to_datetime : json -> result (option Z).

(** A [read_card] that raises has written nothing. *)
Lemma read_card_raise (st st' : Store) (e : exception) :
  read_card to_datetime st = (Raise e, st') -> st' = st.
Proof.
  unfold read_card. intros H.
  apply mbind_raise in H as [H|(r0 & s0 & H0 & H)]; [discriminate|].
  unfold deref_result in H0. injection H0 as <- <-.
  apply mbind_raise in H as [H|(card & s1 & H1 & H)]; [exact (lift_raise _ _ _ _ H)|].
  apply lift_ok in H1 as [_ ->].
  apply mbind_raise in H as [H|(cd & s2 & H2 & H)]; [exact (lift_raise _ _ _ _ H)|].
  apply lift_ok in H2 as [_ ->].
  apply mbind_raise in H as [H|(eud & s3 & H3 & H)]; [exact (lift_raise _ _ _ _ H)|].
  apply lift_ok in H3 as [_ ->].
  apply mbind_raise in H as [H|(sd & s4 & H4 & H)]; [exact (lift_raise _ _ _ _ H)|].
  apply lift_ok in H4 as [_ ->].
  apply mbind_raise in H as [H|(ps & s5 & H5 & H)]; [exact (lift_raise _ _ _ _ H)|].
  apply lift_ok in H5 as [_ ->].
  apply mbind_raise in H as [H|(b & s6 & H6 & H)]; [exact (lift_raise _ _ _ _ H)|].
  apply lift_ok in H6 as [_ ->].
  apply mbind_raise in H as [H|(u & s7 & _ & H)]; [|discriminate].
  destruct b; [|discriminate].
  apply mbind_raise in H as [H|(x & s8 & H8 & H)]; [exact (lift_raise _ _ _ _ H)|].
  apply lift_ok in H8 as [_ ->].
  exact (card_setitem_raise _ _ _ _ _ H).
Qed.

(** What the loop body does to a trial: nothing, or, when the card has a
    cut title, an assignment to its [card]. *)
Lemma contribution_trial (r : json) :
  snd (contribution to_datetime r) = r \/
  (has_cut_title r = true /\
   exists card', setitem r "card" card' = Ok (snd (contribution to_datetime r))).
Proof.
  unfold contribution.
  destruct (read_card to_datetime (mkStore r [])) as [[[[[cd eud] sd] ps]|e] st]
    eqn:Hrc; cbn [snd].
  - apply read_card_ok in Hrc
      as (card & d & title & b & Hcard & _ & _ & _ & _ & _ & Htitle & Hb & Hw).
    destruct b.
    + right. destruct Hw as (x & card' & r0 & _ & _ & Hset & ->). cbn [trial].
      split; [|exists card'; exact Hset].
      unfold has_cut_title, card_title. rewrite Hcard. cbn [bind]. rewrite Htitle.
      destruct title; try discriminate. cbn [endswith] in Hb. now injection Hb.
    + left. now subst st.
  - left. apply read_card_raise in Hrc. now subst st.
Qed.

Lemma contribution_same_but_card (r : json) :
  same_but_card r (snd (contribution to_datetime r)).
Proof.
  intros k Hk. destruct (contribution_trial r) as [->|(_ & card' & Hset)];
    [reflexivity|].
  exact (getitem_setitem_other r _ k "card" card' Hset Hk).
Qed.

Lemma contribution_unchanged (r : json) :
  has_cut_title r = false -> snd (contribution to_datetime r) = r.
Proof.
  intros H. destruct (contribution_trial r) as [Heq|(Hcut & _)];
    [exact Heq | congruence].
Qed.

(** The elements of [successes] as the loop leaves them: each one as it
    was, or as its contribution left it. *)
Lemma fold_contributions_trials (l : list json) (f : Frames) :
  Forall2 (fun r r' => r' = r \/
                       (truthy r = true /\ r' = snd (contribution to_datetime r)))
          l (snd (fold_contributions to_datetime f l)).
Proof.
  revert f. induction l as [|r l IH]; intros f; cbn [fold_contributions].
  - constructor.
  - destruct (truthy r) eqn:Htr; cbn [negb].
    + destruct (contribution to_datetime r) as [[c|e] r'] eqn:Hc.
      * specialize (IH (add_contribution f c)).
        destruct (fold_contributions to_datetime (add_contribution f c) l)
          as [out rest']. cbn [snd] in *.
        constructor; [|exact IH].
        right. split; [exact Htr | now rewrite Hc].
      * cbn [snd]. constructor; [right; split; [exact Htr | now rewrite Hc]|].
        clear. induction l; constructor; [left; reflexivity | assumption].
    + specialize (IH f).
      destruct (fold_contributions to_datetime f l) as [out rest']. cbn [snd] in *.
      constructor; [left; reflexivity | exact IH].
Qed.

(** The input after a call: as it was, or with the list of [successes]
    replaced by the list as the loop left it. *)
Lemma normalizer_leaves (json_data : json) (lg : trace) :
  snd (fst (get_json_data_in_pandas to_datetime json_data lg)) = json_data \/
  exists d l,
    json_data = JDict d /\
    assoc "successes" d = Some (JList l) /\
    snd (fst (get_json_data_in_pandas to_datetime json_data lg))
    = JDict (assoc_set "successes"
               (JList (snd (fold_contributions to_datetime empty_frames l))) d).
Proof.
  unfold get_json_data_in_pandas.
  destruct (getitem json_data "successes") as [s|e] eqn:Hs; [|left; reflexivity].
  destruct (negb (truthy s)); [left; reflexivity|].
  destruct (n <- len s ;; Ok (n <? 1)%nat) as [[|]|e]; try (left; reflexivity).
  destruct (iter s) as [items|e] eqn:Hi; [|left; reflexivity].
  pose proof (for_each_result_fold to_datetime items empty_frames lg) as Hf.
  destruct (for_each_result to_datetime empty_frames items lg)
    as [[out items'] lg'].
  cbn [fst snd] in *.
  destruct s as [| | | |l|ds]; try (left; reflexivity).
  destruct json_data as [| | | | |d]; try discriminate.
  right. exists d, l. cbn [iter] in Hi. injection Hi as <-.
  split; [reflexivity|]. split.
  - cbn [getitem] in Hs. destruct (assoc "successes" d); [|discriminate].
    now injection Hs as ->.
  - cbn [write_back]. rewrite <- Hf. reflexivity.
Qed.

(** X18.  A call changes nothing of its input but cards of trials: every
    key of [json_data] other than [successes] keeps its value, the list of
    [successes] keeps its length, and each trial keeps, under every key
    other than [card], the value it had.  This holds for a call that raises
    as for one that returns. *)
Theorem input_changes_in_cards_only (json_data : json) (lg : trace) :
  let json_data' := snd (fst (get_json_data_in_pandas to_datetime json_data lg)) in
  (forall k, k <> "successes" -> getitem json_data' k = getitem json_data k) /\
  (forall l, getitem json_data "successes" = Ok (JList l) ->
     exists l', getitem json_data' "successes" = Ok (JList l') /\
                Forall2 same_but_card l l').
Proof.
  cbv zeta.
  assert (Hrefl : forall l, Forall2 same_but_card l l).
  { induction l; constructor; [intros k _; reflexivity | assumption]. }
  destruct (normalizer_leaves json_data lg) as [->|(d & l0 & -> & Hd & ->)].
  - split; [reflexivity|]. intros l Hl. exists l. split; [exact Hl | apply Hrefl].
  - split.
    + intros k Hk. cbn [getitem]. now rewrite assoc_set_other.
    + intros l Hl. cbn [getitem] in Hl. rewrite Hd in Hl. injection Hl as <-.
      exists (snd (fold_contributions to_datetime empty_frames l0)).
      split; [cbn [getitem]; now rewrite assoc_set_same|].
      eapply Forall2_impl; [|apply fold_contributions_trials].
      intros r r' [->|[_ ->]]; [intros k _; reflexivity|].
      apply contribution_same_but_card.
Qed.

Lemma unchanged_without_cut_titles (json_data : json) (lg : trace) :
  cut_titles json_data = false ->
  snd (fst (get_json_data_in_pandas to_datetime json_data lg)) = json_data.
Proof.
  intros Hcut.
  destruct (normalizer_leaves json_data lg) as [H|(d & l & -> & Hd & ->)];
    [exact H|].
  f_equal. apply assoc_set_id. rewrite Hd. do 2 f_equal.
  unfold cut_titles in Hcut. cbn [getitem] in Hcut. rewrite Hd in Hcut.
  clear Hd.
  pose proof (fold_contributions_trials l empty_frames) as HF.
  induction HF as [|r r' l0 l' Hr _ IH]; [reflexivity|].
  cbn [existsb] in Hcut. apply orb_false_iff in Hcut as [Hr0 Hrest].
  f_equal; [|now apply IH].
  destruct Hr as [->|[Htr ->]]; [reflexivity|].
  rewrite Htr in Hr0. symmetry. now apply contribution_unchanged.
Qed.

Variable to_csv : DataFrame -> string.
Variable put_object : string -> string -> string -> option exception.

(** The upload does to its input what the normalizer does. *)
Lemma upload_leaves (json_object : json) (q : QueryDetails)
  (bucket key access_key : string) (tr : trace) :
  snd (fst (write_csv_to_s3 to_datetime to_csv put_object json_object q
              bucket key access_key tr))
  = snd (fst (get_json_data_in_pandas to_datetime json_object tr)).
Proof.
  unfold write_csv_to_s3.
  destruct (get_json_data_in_pandas to_datetime json_object tr)
    as [[o js'] tr0]. cbn [fst snd].
  destruct o as [[[[c|] [p|]] [r|]]|e]; try reflexivity.
  unfold s3_put_object.
  destruct (put_object bucket _ (to_csv c)); [reflexivity|].
  destruct (put_object bucket _ (to_csv p)); [reflexivity|].
  destruct (put_object bucket _ (to_csv r)); reflexivity.
Qed.

(** X19.  When no trial that the loop visits has a cut title (a string that
    ends in three dots), the normalizer leaves its input exactly as it was,
    whether it returns or raises, and so does an upload, whatever the
    storage service answers. *)
Theorem complete_titles_leave_input_unchanged
  (json_object : json) (q : QueryDetails) (bucket key access_key : string)
  (tr : trace) :
  cut_titles json_object = false ->
  snd (fst (get_json_data_in_pandas to_datetime json_object tr)) = json_object /\
  snd (fst (write_csv_to_s3 to_datetime to_csv put_object json_object q
              bucket key access_key tr))
  = json_object.
Proof.
  intros Hcut. rewrite upload_leaves.
  split; exact (unchanged_without_cut_titles json_object tr Hcut).
Qed.

End InputFacts.

Lemma complete_titles_leave_input_unchanged_witness :
  cut_titles (snapshot [trial_with_moved_protocol; trial_with_results]) = false /\
  snd (fst (get_json_data_in_pandas no_dates
              (snapshot [trial_with_moved_protocol; trial_with_results]) []))
  = snapshot [trial_with_moved_protocol; trial_with_results].
Proof.
  split; [reflexivity|].
  exact (proj1 (complete_titles_leave_input_unchanged no_dates header_csv
                  refuse_all
                  (snapshot [trial_with_moved_protocol; trial_with_results])
                  sample_query "bucket" "exports" "secret" [] eq_refl)).
Defined.

(** ** The [json] column, at the level of a call *)

Section JsonColumn.

Variable to_datetime : json -> result (option Z).

(** After a loop that completes, the trials that were not skipped are the
    trials as their contributions left them. *)
Lemma fold_contributions_ok_trials (l l' : list json) (f f' : Frames) :
  fold_contributions to_datetime f l = (Ok f', l') ->
  filter truthy l'
  = map (fun r => snd (contribution to_datetime r)) (filter truthy l).
Proof.
  revert f l'. induction l as [|r l IH]; intros f l' H; cbn [fold_contributions] in H.
  - injection H as _ <-. reflexivity.
  - destruct (truthy r) eqn:Htr; cbn [negb] in H.
    + destruct (contribution to_datetime r) as [[c|e] r'] eqn:Hc; [|discriminate].
      destruct (fold_contributions to_datetime (add_contribution f c) l)
        as [o rest'] eqn:E.
      injection H as -> <-. cbn [filter]. rewrite Htr.
      rewrite (contribution_truthy to_datetime r r' c Hc). cbn [map].
      rewrite Hc. cbn [snd]. f_equal. exact (IH _ _ E).
    + destruct (fold_contributions to_datetime f l) as [o rest'] eqn:E.
      injection H as -> <-. cbn [filter]. rewrite Htr. exact (IH _ _ E).
Qed.

(** A call on a list of [successes] that returns tables has run the loop
    over the list, and left the list as the loop left it. *)
Lemma normalizer_on_list (json_data json_data' : json) (lg : trace)
  (l : list json) (c p r : DataFrame) :
  getitem json_data "successes" = Ok (JList l) ->
  fst (get_json_data_in_pandas to_datetime json_data lg)
  = (Ok (Some c, Some p, Some r), json_data') ->
  exists f l',
    fold_contributions to_datetime empty_frames l = (Ok f, l') /\
    getitem json_data' "successes" = Ok (JList l').
Proof.
  intros Hl H. unfold get_json_data_in_pandas in H. rewrite Hl in H.
  destruct (negb (truthy (JList l))); [discriminate|].
  destruct (n <- len (JList l) ;; Ok (n <? 1)%nat) as [[|]|e]; try discriminate.
  cbn [iter] in H.
  pose proof (for_each_result_fold to_datetime l empty_frames lg) as Hf.
  destruct (for_each_result to_datetime empty_frames l lg) as [[out l'] lg'].
  cbn [fst] in *. injection H as Ho Hj.
  destruct out as [f|e]; [|discriminate].
  exists f, l'. split; [now symmetry|].
  destruct json_data as [| | | | |d]; try discriminate.
  cbn [write_back] in Hj. subst json_data'. cbn [getitem].
  now rewrite assoc_set_same.
Qed.

(** X20.  In the tables of a call on a list of [successes], the [json] cell
    of each card row is the serialization of its trial as the call leaves
    it in the input: with the replaced title when the title was cut, and of
    the trial as received when no title was cut. *)
Theorem json_column_serializes_trials_as_left
  (json_data json_data' : json) (lg : trace) (l : list json) (c p r : DataFrame) :
  getitem json_data "successes" = Ok (JList l) ->
  fst (get_json_data_in_pandas to_datetime json_data lg)
  = (Ok (Some c, Some p, Some r), json_data') ->
  exists l',
    getitem json_data' "successes" = Ok (JList l') /\
    Forall2 (fun trial row => card_json row = Some (str (dumps trial)))
            (filter truthy l') (rows c) /\
    (cut_titles json_data = false -> l' = l).
Proof.
  intros Hl H.
  destruct (normalizer_on_list _ _ _ _ _ _ _ Hl H) as (f & l' & Hf & Hl').
  exists l'. split; [exact Hl'|]. split.
  - assert (Hfst : fst (fst (get_json_data_in_pandas to_datetime json_data lg))
                   = Ok (Some c, Some p, Some r)) by now rewrite H.
    apply returned_rows in Hfst as (s & items & cs & Hs & Hi & Hcs & -> & _ & _).
    rewrite Hl in Hs. injection Hs as <-. cbn [iter] in Hi. injection Hi as <-.
    rewrite (fold_contributions_ok_trials _ _ _ _ Hf). cbn [rows].
    clear - Hcs. induction Hcs as [|t c0 l0 cs Ht _ IH]; cbn [map]; constructor;
      [|exact IH].
    exact (contribution_audit_cell to_datetime t _ c0 Ht).
  - intros Hcut.
    pose proof (unchanged_without_cut_titles to_datetime json_data lg Hcut)
      as Hsame.
    rewrite H in Hsame. cbn [snd] in Hsame. subst json_data'.
    rewrite Hl in Hl'. now injection Hl'.
Qed.

End JsonColumn.

Lemma normalize_truncated_trial_outcome :
  fst (get_json_data_in_pandas no_dates (snapshot [truncated_trial]) [])
  = (Ok (Some (cards_df truncated_trial_frames),
         Some (protocols_df truncated_trial_frames),
         Some (results_df truncated_trial_frames)),
     snapshot [truncated_trial_after]).
Proof. vm_compute. reflexivity. Qed.

Lemma json_column_serializes_trials_as_left_witness :
  getitem (snapshot [truncated_trial]) "successes" = Ok (JList [truncated_trial]) /\
  fst (get_json_data_in_pandas no_dates (snapshot [truncated_trial]) [])
  = (Ok (Some (cards_df truncated_trial_frames),
         Some (protocols_df truncated_trial_frames),
         Some (results_df truncated_trial_frames)),
     snapshot [truncated_trial_after]) /\
  exists l',
    getitem (snapshot [truncated_trial_after]) "successes" = Ok (JList l') /\
    Forall2 (fun trial row => card_json row = Some (str (dumps trial)))
            (filter truthy l') (rows (cards_df truncated_trial_frames)) /\
    (cut_titles (snapshot [truncated_trial]) = false -> l' = [truncated_trial]).
Proof.
  split; [reflexivity|]. split; [exact normalize_truncated_trial_outcome|].
  exact (json_column_serializes_trials_as_left no_dates
           (snapshot [truncated_trial]) (snapshot [truncated_trial_after]) []
           [truncated_trial] _ _ _ eq_refl normalize_truncated_trial_outcome).
Defined.

(** ** Row counts and log records *)

Lemma has_results_setitem (r r' card' : json) :
  setitem r "card" card' = Ok r' -> has_results r' = has_results r.
Proof.
  destruct r as [| | | | |d]; try discriminate. cbn [setitem].
  intros H. injection H as <-. unfold has_results.
  now rewrite assoc_set_other by discriminate.
Qed.

Lemma result_rows_count (eud t : json) (rr : option (list (list object))) :
  result_rows eud t = Ok rr ->
  (if has_results t then exists new_rows, rr = Some new_rows
   else rr = None) /\
  List.length (match rr with Some new_rows => new_rows | None => [] end)
  = versions_count t.
Proof.
  unfold result_rows, versions_count. intros H.
  apply bind_ok in H as (has & Hhas & H).
  apply bind_ok in H as (results & Hres & H).
  destruct t as [| | |s|l|d]; try discriminate.
  - cbn [has_results]. destruct has; [discriminate|].
    injection Hres as <-. cbn in H. injection H as <-. split; reflexivity.
  - cbn [has_results]. destruct has; [discriminate|].
    injection Hres as <-. cbn in H. injection H as <-. split; reflexivity.
  - cbn [contains] in Hhas. injection Hhas as <-.
    cbn [has_results getitem] in *.
    destruct (assoc "results" d) as [v|].
    + injection Hres as <-. cbn [bind].
      destruct (truthy v); cbn [negb] in H.
      * apply bind_ok in H as (versions & Hv & H).
        apply bind_ok in H as (new_rows & Hc & H). injection H as <-.
        rewrite Hv. split; [eauto|]. exact (collect_length _ _ _ Hc).
      * injection H as <-. split; reflexivity.
    + injection Hres as <-. cbn in H. injection H as <-. split; reflexivity.
Qed.

Section Counts.

Variable to_datetime : json -> result (option Z).

Lemma contribution_counts (r r' : json) (c : Contribution) :
  contribution to_datetime r = (Ok c, r') ->
  List.length (protocol_part c) = protocols_count r /\
  List.length (result_rows_of c) = versions_count r /\
  (if has_results r then exists new_rows, result_part c = Some new_rows
   else result_part c = None).
Proof.
  intros H.
  assert (Hres : has_results r' = has_results r /\ versions_count r' = versions_count r).
  { pose proof (contribution_trial to_datetime r) as Ht. rewrite H in Ht.
    cbn [snd] in Ht. destruct Ht as [->|(_ & card' & Hset)]; [split; reflexivity|].
    pose proof (has_results_setitem r r' card' Hset) as Hh.
    split; [exact Hh|]. unfold versions_count. rewrite Hh.
    now rewrite (getitem_setitem_other r r' "results" "card" card' Hset)
      by discriminate. }
  destruct Hres as [Hh Hv].
  unfold contribution in H.
  destruct (read_card to_datetime (mkStore r [])) as [[[[[cd eud] sd] ps]|e] st]
    eqn:Hrc; [|discriminate].
  injection H as Hc Hr.
  apply bind_ok in Hc as (row & _ & Hc).
  apply bind_ok in Hc as (prows & Hp & Hc).
  apply bind_ok in Hc as (rrows & Hrr & Hc).
  injection Hc as <-. cbn [protocol_part result_part]. unfold result_rows_of.
  cbn [result_part].
  apply read_card_ok in Hrc as (card & d & title & b & _ & _ & _ & _ & _ & Hps & _).
  rewrite Hr in Hrr. apply result_rows_count in Hrr as [Hsome Hlen].
  rewrite Hh in Hsome. rewrite Hv in Hlen.
  split; [|split; assumption].
  unfold protocol_rows in Hp. apply bind_ok in Hp as (items & Hi & Hp).
  unfold protocols_count. rewrite Hps. cbn [bind]. rewrite Hi.
  exact (collect_length _ _ _ Hp).
Qed.

(** X21.  A call that returns adds one info record to the log for each
    trial that has results, and none for the trials without: with no such
    trial the log stays as it was. *)
Theorem one_log_record_per_trial_with_results
  (json_data : json) (lg : trace) (l : list json) :
  getitem json_data "successes" = Ok (JList l) ->
  is_ok (fst (fst (get_json_data_in_pandas to_datetime json_data lg))) = true ->
  exists msgs,
    snd (get_json_data_in_pandas to_datetime json_data lg)
    = (lg ++ map LogInfo msgs)%list /\
    List.length msgs = List.length (filter has_results (filter truthy l)).
Proof.
  intros Hl Hok. unfold get_json_data_in_pandas in *. rewrite Hl in *.
  destruct l as [|r0 l0]; [exists []; split; [cbn; now rewrite app_nil_r | reflexivity]|].
  cbn [truthy negb len bind List.length Nat.ltb Nat.leb iter] in *.
  remember (r0 :: l0) as l eqn:El. clear El r0 l0 Hl.
  assert (Hloop : forall l f lg,
            is_ok (fst (fst (for_each_result to_datetime f l lg))) = true ->
            exists msgs,
              snd (for_each_result to_datetime f l lg) = (lg ++ map LogInfo msgs)%list /\
              List.length msgs = List.length (filter has_results (filter truthy l))).
  { clear. induction l as [|r l IH]; intros f lg H; cbn [for_each_result] in *.
    - exists []. split; [cbn; now rewrite app_nil_r | reflexivity].
    - destruct (truthy r) eqn:Htr; cbn [negb filter] in *; rewrite ?Htr.
      + rewrite process_result_contribution in *.
        destruct (contribution to_datetime r) as [[c|e] r'] eqn:Hc;
          [|discriminate].
        cbn [log trial] in *.
        specialize (IH (add_contribution f c) (lg ++ contribution_log f c)%list).
        destruct (for_each_result to_datetime (add_contribution f c) l _)
          as [[o rest'] lg'].
        cbn [fst snd] in *. destruct (IH H) as (msgs & -> & Hlen).
        apply contribution_counts in Hc as (_ & _ & Hsome).
        unfold contribution_log. cbn [filter].
        destruct (has_results r).
        * destruct Hsome as [new_rows ->].
          exists (shapes_message (add_contribution f c) :: msgs).
          split; [now rewrite <- app_assoc | cbn; now rewrite Hlen].
        * rewrite Hsome. exists msgs. split; [now rewrite app_nil_r | exact Hlen].
      + specialize (IH f lg).
        destruct (for_each_result to_datetime f l lg) as [[o rest'] lg'].
        cbn [fst snd] in *. exact (IH H). }
  specialize (Hloop l empty_frames lg).
  destruct (for_each_result to_datetime empty_frames l lg) as [[out items'] lg'].
  cbn [fst snd] in *. apply Hloop.
  destruct out; [reflexivity | discriminate].
Qed.

(** X22.  No row is lost and none is made up: the protocol table of a call
    that returns has one row per protocol of each trial that was not
    skipped, and the result table one row per version of the results of
    each such trial. *)
Theorem one_row_per_protocol_and_version
  (json_data : json) (lg : trace) (l : list json) (c p r : DataFrame) :
  getitem json_data "successes" = Ok (JList l) ->
  fst (fst (get_json_data_in_pandas to_datetime json_data lg))
  = Ok (Some c, Some p, Some r) ->
  List.length (rows p) = list_sum (map protocols_count (filter truthy l)) /\
  List.length (rows r) = list_sum (map versions_count (filter truthy l)).
Proof.
  intros Hl H.
  apply returned_rows in H as (s & items & cs & Hs & Hi & Hcs & _ & -> & ->).
  rewrite Hl in Hs. injection Hs as <-. cbn [iter] in Hi. injection Hi as <-.
  cbn [rows]. rewrite !length_flat_map.
  clear Hl. induction Hcs as [|t c0 l0 cs Ht _ IH]; [split; reflexivity|].
  cbn [map]. destruct IH as [IHp IHr].
  apply contribution_counts in Ht as (Hp & Hr & _).
  unfold list_sum in *. cbn [fold_right]. rewrite Hp, Hr, IHp, IHr.
  split; reflexivity.
Qed.

End Counts.

Lemma normalize_with_results_sample :
  fst (fst (get_json_data_in_pandas no_dates
              (snapshot [truncated_trial; JNull; trial_with_two_results]) []))
  = Ok (Some (mkDataFrame trial_info_cards_columns
                (rows (cards_df truncated_trial_frames)
                 ++ [[str "EU-CT-004"; Json JNull; str "Acme"; str "Study of W";
                      str "20.0"; str "Cancer"; str "10029104"; str "Neoplasm";
                      str "PT"; str (dumps trial_with_two_results)]])%list),
        Some (mkDataFrame trial_protocols_columns
                (rows (protocols_df truncated_trial_frames)
                 ++ [[str "EU-CT-001-DE"; str "EU-CT-004"; str url_DE;
                      str (dumps (sample_protocol url_DE "Study of W"))]])%list),
        Some (mkDataFrame trial_results_columns
                [[str "EU-CT-004"; str "v1";
                  str "https://www.clinicaltrialsregister.eu/ctr-search/trial/EU-CT-004/results";
                  str (dumps (JDict [("summary", JDict [("url", JStr "https://www.clinicaltrialsregister.eu/ctr-search/trial/EU-CT-004/results")])]))];
                 [str "EU-CT-004"; str "v2";
                  str "https://www.clinicaltrialsregister.eu/ctr-search/trial/EU-CT-004/results-2";
                  str (dumps (JDict [("summary", JDict [("url", JStr "https://www.clinicaltrialsregister.eu/ctr-search/trial/EU-CT-004/results-2")])]))]])).
Proof. vm_compute. reflexivity. Qed.

Lemma one_log_record_per_trial_with_results_witness :
  getitem (snapshot [truncated_trial; JNull; trial_with_two_results]) "successes"
  = Ok (JList [truncated_trial; JNull; trial_with_two_results]) /\
  is_ok (fst (fst (get_json_data_in_pandas no_dates
                     (snapshot [truncated_trial; JNull; trial_with_two_results])
                     []))) = true /\
  exists msgs,
    snd (get_json_data_in_pandas no_dates
           (snapshot [truncated_trial; JNull; trial_with_two_results]) [])
    = ([] ++ map LogInfo msgs)%list /\
    List.length msgs
    = List.length (filter has_results
                     (filter truthy [truncated_trial; JNull; trial_with_two_results])).
Proof.
  assert (Hok : is_ok (fst (fst (get_json_data_in_pandas no_dates
                     (snapshot [truncated_trial; JNull; trial_with_two_results])
                     []))) = true) by (vm_compute; reflexivity).
  split; [reflexivity|]. split; [exact Hok|].
  exact (one_log_record_per_trial_with_results no_dates
           (snapshot [truncated_trial; JNull; trial_with_two_results]) []
           [truncated_trial; JNull; trial_with_two_results] eq_refl Hok).
Defined.

Lemma one_row_per_protocol_and_version_witness :
  getitem (snapshot [truncated_trial; JNull; trial_with_two_results]) "successes"
  = Ok (JList [truncated_trial; JNull; trial_with_two_results]) /\
  list_sum (map protocols_count
              (filter truthy [truncated_trial; JNull; trial_with_two_results]))
  = 3%nat /\
  list_sum (map versions_count
              (filter truthy [truncated_trial; JNull; trial_with_two_results]))
  = 2%nat.
Proof.
  split; [reflexivity|].
  destruct (one_row_per_protocol_and_version no_dates
              (snapshot [truncated_trial; JNull; trial_with_two_results]) []
              [truncated_trial; JNull; trial_with_two_results] _ _ _ eq_refl
              normalize_with_results_sample) as [Hp Hr].
  split; [rewrite <- Hp | rewrite <- Hr]; reflexivity.
Defined.

(** ** Calls that raise *)

Section Failures.

Variable to_datetime : json -> result (option Z).

Lemma fold_contributions_stop (before after : list json) (r : json)
  (e : exception) (cs : list Contribution) (f : Frames) :
  all_contributions to_datetime before = Ok cs ->
  truthy r = true ->
  fst (contribution to_datetime r) = Raise e ->
  fold_contributions to_datetime f (before ++ r :: after)%list
  = (Raise e,
     (visited to_datetime before ++ snd (contribution to_datetime r) :: after)%list).
Proof.
  intros Hcs Htr Hr. revert f cs Hcs.
  induction before as [|t before IH]; intros f cs Hcs;
    cbn [app fold_contributions visited map].
  - rewrite Htr. cbn [negb].
    destruct (contribution to_datetime r) as [o r']. cbn [fst snd] in *.
    now subst o.
  - unfold all_contributions in Hcs. cbn [filter] in Hcs.
    destruct (truthy t) eqn:Ht; cbn [negb].
    + cbn [collect] in Hcs. apply bind_ok in Hcs as (c & Hc & Hcs).
      apply bind_ok in Hcs as (cs' & Hcs' & _).
      destruct (contribution to_datetime t) as [o t'] eqn:Hct.
      cbn [fst snd] in *. subst o.
      fold (visited to_datetime before).
      rewrite (IH (add_contribution f c) cs' Hcs'). reflexivity.
    + fold (visited to_datetime before). rewrite (IH f cs Hcs). reflexivity.
Qed.

Lemma call_stops_at_failing_trial (json_data : json) (lg : trace)
  (before after : list json) (r : json) (e : exception) (cs : list Contribution) :
  getitem json_data "successes" = Ok (JList (before ++ r :: after)%list) ->
  all_contributions to_datetime before = Ok cs ->
  truthy r = true ->
  fst (contribution to_datetime r) = Raise e ->
  fst (fst (get_json_data_in_pandas to_datetime json_data lg)) = Raise e /\
  getitem (snd (fst (get_json_data_in_pandas to_datetime json_data lg))) "successes"
  = Ok (JList (visited to_datetime before
               ++ snd (contribution to_datetime r) :: after)%list).
Proof.
  intros Hl Hcs Htr Hr. unfold get_json_data_in_pandas. rewrite Hl.
  assert (Hne : exists x l, (before ++ r :: after)%list = x :: l)
    by (destruct before; cbn; eauto).
  destruct Hne as (x & l & Hx).
  replace (negb (truthy (JList (before ++ r :: after)%list))) with false
    by (rewrite Hx; reflexivity).
  replace (n <- len (JList (before ++ r :: after)%list) ;; Ok (n <? 1)%nat)
    with (@Ok bool false) by (rewrite Hx; reflexivity).
  cbn [iter].
  pose proof (for_each_result_fold to_datetime (before ++ r :: after)%list
                empty_frames lg) as Hf.
  rewrite (fold_contributions_stop before after r e cs empty_frames Hcs Htr Hr)
    in Hf.
  destruct (for_each_result to_datetime empty_frames (before ++ r :: after)%list lg)
    as [[out items'] lg'].
  cbn [fst snd] in *. injection Hf as -> ->. split; [reflexivity|].
  destruct json_data as [| | | | |d]; try discriminate.
  cbn [write_back getitem]. now rewrite assoc_set_same.
Qed.

(** X23.  The first trial whose processing raises ends the call with its
    exception.  The trials after it are not visited and stay as they were;
    the trials before it stay as the loop left them, so title replacements
    made before the failure remain in the input although no table is
    returned. *)
Theorem first_failing_trial_ends_the_call (json_data : json) (lg : trace)
  (before after : list json) (r : json) (e : exception) (cs : list Contribution) :
  getitem json_data "successes" = Ok (JList (before ++ r :: after)%list) ->
  all_contributions to_datetime before = Ok cs ->
  truthy r = true ->
  fst (contribution to_datetime r) = Raise e ->
  let out := get_json_data_in_pandas to_datetime json_data lg in
  fst (fst out) = Raise e /\
  exists before' r',
    getitem (snd (fst out)) "successes" = Ok (JList (before' ++ r' :: after)%list) /\
    before' = visited to_datetime before /\
    List.length before' = List.length before /\
    same_but_card r r'.
Proof.
  intros Hl Hcs Htr Hr. cbv zeta.
  destruct (call_stops_at_failing_trial json_data lg before after r e cs
              Hl Hcs Htr Hr) as [Ho Hj].
  split; [exact Ho|].
  exists (visited to_datetime before), (snd (contribution to_datetime r)).
  split; [exact Hj|]. split; [reflexivity|].
  split; [unfold visited; apply length_map|].
  apply contribution_same_but_card.
Qed.

(** A cut title on a trial without protocol: the reads of the card succeed
    and the first protocol is missing. *)
Lemma cut_title_needs_a_protocol (r card cd eud d : json) (sd : option Z)
  (s : string) :
  getitem r "card" = Ok card ->
  getitem card "disease" = Ok cd ->
  getitem card "eudract_number" = Ok eud ->
  getitem card "start_date" = Ok d ->
  to_datetime d = Ok sd ->
  getitem card "full_title" = Ok (JStr s) ->
  str_endswith s "..." = true ->
  getitem r "protocols" = Ok (JList []) ->
  contribution to_datetime r = (Raise IndexError, r).
Proof.
  intros Hc Hd He Hs Ht Hf Hcut Hp.
  unfold contribution, read_card, mbind, deref_result, lift, ret. cbn [trial].
  rewrite Hc, Hd, He, Hs. cbn [bind]. rewrite Ht, Hp, Hf. cbn [bind endswith].
  rewrite Hcut. reflexivity.
Qed.

(** X24.  A trial whose card has a cut title and whose list of protocols is
    empty cannot get its full title: the call raises [IndexError], returns
    no table, and leaves that trial as it was. *)
Theorem cut_title_without_protocol_raises (json_data : json) (lg : trace)
  (before after : list json) (cs : list Contribution)
  (r card cd eud d : json) (sd : option Z) (s : string) :
  getitem json_data "successes" = Ok (JList (before ++ r :: after)%list) ->
  all_contributions to_datetime before = Ok cs ->
  getitem r "card" = Ok card ->
  getitem card "disease" = Ok cd ->
  getitem card "eudract_number" = Ok eud ->
  getitem card "start_date" = Ok d ->
  to_datetime d = Ok sd ->
  getitem card "full_title" = Ok (JStr s) ->
  str_endswith s "..." = true ->
  getitem r "protocols" = Ok (JList []) ->
  let out := get_json_data_in_pandas to_datetime json_data lg in
  fst (fst out) = Raise IndexError /\
  getitem (snd (fst out)) "successes"
  = Ok (JList (visited to_datetime before ++ r :: after)%list).
Proof.
  intros Hl Hcs Hc Hd He Hs Ht Hf Hcut Hp. cbv zeta.
  pose proof (cut_title_needs_a_protocol r card cd eud d sd s
                Hc Hd He Hs Ht Hf Hcut Hp) as Hr.
  assert (Htr : truthy r = true).
  { destruct r as [| | | | |dr]; try discriminate.
    destruct dr; [discriminate | reflexivity]. }
  destruct (call_stops_at_failing_trial json_data lg before after r IndexError cs
              Hl Hcs Htr) as [Ho Hj]; [now rewrite Hr|].
  rewrite Hr in Hj. split; [exact Ho | exact Hj].
Qed.

(** X25.  The outcome of a call depends on the trials it visits and on
    nothing else in its input: two inputs whose lists of [successes] are not
    empty and hold the same trials once the skipped elements are left out
    give the same tables, or the same exception, whatever their [metadata],
    their [errors] and the log they start with. *)
Theorem outcome_depends_on_visited_trials_only
  (json_data1 json_data2 : json) (lg1 lg2 : trace) (l1 l2 : list json) :
  getitem json_data1 "successes" = Ok (JList l1) ->
  getitem json_data2 "successes" = Ok (JList l2) ->
  l1 <> [] ->
  l2 <> [] ->
  filter truthy l1 = filter truthy l2 ->
  fst (fst (get_json_data_in_pandas to_datetime json_data1 lg1))
  = fst (fst (get_json_data_in_pandas to_datetime json_data2 lg2)).
Proof.
  intros H1 H2 Hn1 Hn2 Hf.
  rewrite (normalize_list to_datetime json_data1 l1 lg1 H1 Hn1).
  rewrite (normalize_list to_datetime json_data2 l2 lg2 H2 Hn2).
  unfold all_contributions. now rewrite Hf.
Qed.

End Failures.

Lemma first_failing_trial_ends_the_call_witness :
  getitem (snapshot [truncated_trial; trial_with_results; trial_with_moved_protocol])
          "successes"
  = Ok (JList ([truncated_trial] ++ trial_with_results
               :: [trial_with_moved_protocol])%list) /\
  all_contributions no_dates [truncated_trial]
  = Ok [mkContribution
          [str "EU-CT-001"; Json JNull; str "Acme";
           str "Study of X in adult patients";
           str "20.0"; str "Cancer"; str "10029104"; str "Neoplasm"; str "PT";
           str (dumps truncated_trial_after)]
          (rows (protocols_df truncated_trial_frames)) None] /\
  truthy trial_with_results = true /\
  fst (contribution no_dates trial_with_results) = Raise (KeyError (JStr "url")) /\
  fst (fst (get_json_data_in_pandas no_dates
              (snapshot [truncated_trial; trial_with_results;
                         trial_with_moved_protocol]) []))
  = Raise (KeyError (JStr "url")).
Proof.
  assert (Hcs : all_contributions no_dates [truncated_trial]
                = Ok [mkContribution
                        [str "EU-CT-001"; Json JNull; str "Acme";
                         str "Study of X in adult patients";
                         str "20.0"; str "Cancer"; str "10029104"; str "Neoplasm";
                         str "PT"; str (dumps truncated_trial_after)]
                        (rows (protocols_df truncated_trial_frames)) None])
    by (vm_compute; reflexivity).
  assert (Hr : fst (contribution no_dates trial_with_results)
               = Raise (KeyError (JStr "url"))) by (vm_compute; reflexivity).
  split; [reflexivity|]. split; [exact Hcs|]. split; [reflexivity|].
  split; [exact Hr|].
  exact (proj1 (first_failing_trial_ends_the_call no_dates
                  (snapshot [truncated_trial; trial_with_results;
                             trial_with_moved_protocol]) []
                  [truncated_trial] [trial_with_moved_protocol]
                  trial_with_results (KeyError (JStr "url")) _
                  eq_refl Hcs eq_refl Hr)).
Defined.

Lemma cut_title_without_protocol_raises_witness :
  getitem (snapshot [trial_without_protocol; trial_with_moved_protocol]) "successes"
  = Ok (JList ([] ++ trial_without_protocol :: [trial_with_moved_protocol])%list) /\
  all_contributions no_dates [] = Ok [] /\
  getitem trial_without_protocol "card"
  = Ok (sample_card "EU-CT-005" "Study of V...") /\
  getitem (sample_card "EU-CT-005" "Study of V...") "full_title"
  = Ok (JStr "Study of V...") /\
  str_endswith "Study of V..." "..." = true /\
  getitem trial_without_protocol "protocols" = Ok (JList []) /\
  fst (fst (get_json_data_in_pandas no_dates
              (snapshot [trial_without_protocol; trial_with_moved_protocol]) []))
  = Raise IndexError.
Proof.
  do 6 (split; [reflexivity|]).
  exact (proj1 (cut_title_without_protocol_raises no_dates
                  (snapshot [trial_without_protocol; trial_with_moved_protocol]) []
                  [] [trial_with_moved_protocol] []
                  trial_without_protocol
                  (sample_card "EU-CT-005" "Study of V...")
                  sample_disease (JStr "EU-CT-005") (JStr "2020-01-31") None
                  "Study of V..."
                  eq_refl eq_refl eq_refl eq_refl eq_refl eq_refl eq_refl eq_refl
                  eq_refl eq_refl)).
Defined.

Lemma outcome_depends_on_visited_trials_only_witness :
  getitem (snapshot [JNull; truncated_trial]) "successes"
  = Ok (JList [JNull; truncated_trial]) /\
  getitem (JDict [("successes", JList [truncated_trial; JDict []])]) "successes"
  = Ok (JList [truncated_trial; JDict []]) /\
  [JNull; truncated_trial] <> [] /\
  [truncated_trial; JDict []] <> [] /\
  filter truthy [JNull; truncated_trial] = filter truthy [truncated_trial; JDict []] /\
  fst (fst (get_json_data_in_pandas no_dates (snapshot [JNull; truncated_trial]) []))
  = fst (fst (get_json_data_in_pandas no_dates
                (JDict [("successes", JList [truncated_trial; JDict []])])
                [LogInfo "earlier"])).
Proof.
  assert (Hn1 : [JNull; truncated_trial] <> []) by discriminate.
  assert (Hn2 : [truncated_trial; JDict []] <> []) by discriminate.
  split; [reflexivity|]. split; [reflexivity|]. split; [exact Hn1|].
  split; [exact Hn2|]. split; [reflexivity|].
  exact (outcome_depends_on_visited_trials_only no_dates
           (snapshot [JNull; truncated_trial])
           (JDict [("successes", JList [truncated_trial; JDict []])])
           [] [LogInfo "earlier"] [JNull; truncated_trial]
           [truncated_trial; JDict []] eq_refl eq_refl Hn1 Hn2 eq_refl).
Defined.
